(** * TravanaSpot: review collection, chunking and merging

    A shallow embedding of the core of the TravanaSpot browser extension:
    the record extractor and the adaptive collector of the content script
    ([extractReviewsFromDOM], [collectReviewsWithScrolling]) and the
    chunker, merger and analysis entry points of [TravanaSpotBrowserAI]
    ([createOptimizedChunks], [mergeKeywordAnalysis], [analyzeReviews],
    [askQuestion], [fallbackReviewAnalysis]).

    Conventions of the embedding.
    - A JavaScript string is a [string]; its characters stand for code
      units, [String.length] for [.length].
    - Lengths, indices and counters are integers ([Z] or [nat]): they
      stay far below 2^53, where the doubles of the source are exact.
      The counts that the merger adds come from the model's answers and
      are doubles ([Double.Number]), with the rounding of [+=].
    - A property that may be absent is an [option] ([None] is
      [undefined]); truthiness is written out where the source tests it.
    - A function that may throw returns an [Outcome]; [try]/[catch] is a
      match on it. What is thrown is an error with a message.
    - The live document and the on-device model are external: they enter
      the definitions as oracles (records of functions), so that every
      theorem quantifies over all of their behaviours. *)

From Stdlib Require Import ZArith Lia String Ascii List Sorted.
From stdpp Require Import base option list strings gmap pretty.

Set Warnings "-register-all".
Open Scope string_scope.
Open Scope list_scope.
Open Scope nat_scope.

(** ** JavaScript values, exceptions and string primitives *)

Module Js.

(** The completion of a call: a value, or a thrown error with its
    message. A thrown [null] or [undefined] is left out of the model: a
    handler that reads [error.message] would itself throw on it. *)
Inductive Outcome (A : Type) : Type :=
| Return (a : A)
| Throw (message : string).
Arguments Return {A} a.
Arguments Throw {A} message.

#[global] Instance outcome_ret : MRet Outcome := fun A a => Return a.
#[global] Instance outcome_bind : MBind Outcome := fun A B k o =>
  match o with
  | Return a => k a
  | Throw m => Throw m
  end.
#[global] Instance outcome_fmap : FMap Outcome := fun A B f o =>
  match o with
  | Return a => Return (f a)
  | Throw m => Throw m
  end.

(** [try { body } catch (error) { handler(error.message) }] *)
Definition tryCatch {A} (body : Outcome A) (handler : string -> Outcome A) : Outcome A :=
  match body with
  | Return a => Return a
  | Throw m => handler m
  end.

(** [s.includes(sub)] *)
Fixpoint includes (s sub : string) : bool :=
  String.prefix sub s ||
  match s with
  | EmptyString => false
  | String _ rest => includes rest sub
  end.

Definition lowerChar (c : ascii) : ascii :=
  let n := nat_of_ascii c in
  if (65 <=? n)%nat && (n <=? 90)%nat then ascii_of_nat (n + 32) else c.

(** [s.toLowerCase()] on the letters A-Z. *)
Fixpoint toLowerCase (s : string) : string :=
  match s with
  | EmptyString => EmptyString
  | String c rest => String (lowerChar c) (toLowerCase rest)
  end.

(** White space of [trim] and of the regular expression class [\s],
    among the code units below 256: tab, line feed, vertical tab, form
    feed, carriage return, space and the no-break space U+00A0. *)
Definition isSpace (c : ascii) : bool :=
  let n := nat_of_ascii c in
  ((9 <=? n)%nat && (n <=? 13)%nat) || (n =? 32)%nat || (n =? 160)%nat.

(** The class [\d]. *)
Definition isDigit (c : ascii) : bool :=
  let n := nat_of_ascii c in (48 <=? n)%nat && (n <=? 57)%nat.

(** The class [[A-Za-z]]. *)
Definition isLetter (c : ascii) : bool :=
  let n := nat_of_ascii c in
  ((65 <=? n)%nat && (n <=? 90)%nat) || ((97 <=? n)%nat && (n <=? 122)%nat).

Fixpoint dropWhile (p : ascii -> bool) (s : string) : string :=
  match s with
  | EmptyString => EmptyString
  | String c rest => if p c then dropWhile p rest else s
  end.

Fixpoint takeWhile (p : ascii -> bool) (s : string) : string :=
  match s with
  | EmptyString => EmptyString
  | String c rest => if p c then String c (takeWhile p rest) else EmptyString
  end.

(** [s.trim()] *)
Definition trim (s : string) : string :=
  String.rev (dropWhile isSpace (String.rev (dropWhile isSpace s))).

(** [s.substring(0, n)] *)
Definition substring0 (n : nat) (s : string) : string := String.substring 0 n s.

(** [s.substring(n)] for [n <= s.length] *)
Fixpoint dropChars (n : nat) (s : string) : string :=
  match n, s with
  | O, _ => s
  | S k, String _ rest => dropChars k rest
  | S _, EmptyString => EmptyString
  end.

(** [l.join(sep)] *)
Fixpoint join (sep : string) (l : list string) : string :=
  match l with
  | [] => EmptyString
  | [x] => x
  | x :: rest => x +:+ sep +:+ join sep rest
  end.

(** Truthiness of an optional string property: [undefined] and the empty
    string are falsy. *)
Definition truthyStr (o : option string) : bool :=
  match o with
  | Some s => negb (String.eqb s EmptyString)
  | None => false
  end.

(** [a || b] on optional strings. *)
Definition orStr (a b : option string) : option string :=
  if truthyStr a then a else b.

(** [parseInt(ds)] on a run of decimal digits (exact below 2^53). *)
Definition digitValue (c : ascii) : Z := Z.of_nat (nat_of_ascii c) - 48.

Fixpoint parseDigits (acc : Z) (ds : string) : Z :=
  match ds with
  | EmptyString => acc
  | String c rest => parseDigits (10 * acc + digitValue c) rest
  end.

Definition parseInt (ds : string) : Z := parseDigits 0 ds.

(** Results handed to the presentation layer are plain objects; they are
    kept as property lists in insertion order. *)
Inductive Value : Type :=
| VUndefined
| VNull
| VBool (b : bool)
| VNum (z : Z)
| VStr (s : string)
| VArr (items : list Value)
| VObj (props : list (string * Value)).

Definition truthy (v : Value) : bool :=
  match v with
  | VUndefined | VNull => false
  | VBool b => b
  | VNum z => negb (z =? 0)%Z
  | VStr s => negb (String.eqb s EmptyString)
  | VArr _ | VObj _ => true
  end.

(** [a || b] *)
Definition orValue (a b : Value) : Value := if truthy a then a else b.

Fixpoint assoc (k : string) (props : list (string * Value)) : option Value :=
  match props with
  | [] => None
  | (k', v) :: rest => if String.eqb k k' then Some v else assoc k rest
  end.

(** [obj.k]: the own property, or [undefined]. *)
Definition getKey (k : string) (obj : Value) : Value :=
  match obj with
  | VObj props => default VUndefined (assoc k props)
  | _ => VUndefined
  end.

(** [k in obj] for own properties. *)
Definition hasKey (k : string) (obj : Value) : bool :=
  match obj with
  | VObj props => bool_decide (is_Some (assoc k props))
  | _ => false
  end.

Fixpoint setProp (k : string) (v : Value) (props : list (string * Value))
  : list (string * Value) :=
  match props with
  | [] => [(k, v)]
  | (k', v') :: rest =>
      if String.eqb k k' then (k, v) :: rest else (k', v') :: setProp k v rest
  end.

(** [{...obj, k: v}] and [obj.k = v]: an existing key keeps its place, a
    new key goes last. *)
Definition setKey (k : string) (v : Value) (obj : Value) : Value :=
  match obj with
  | VObj props => VObj (setProp k v props)
  | other => other
  end.

Definition strings (l : list string) : Value := VArr (map VStr l).

End Js.

Import Js.

(** ** Numbers: the doubles of [+=], [/], [*] and [Math.round] *)

Module Double.

Local Open Scope Z_scope.

(** A JavaScript number is an IEEE 754 double. Every finite double is a
    whole number of units of 2^-1074, the smallest positive double, and
    is kept as that number of units: [Finite (2 ^ 1074)] is 1. The two
    zeros are not told apart: [-0] is falsy like [0], and a sum of doubles
    other than [-0] is never [-0]. *)
Inductive Number : Type :=
| Finite (units : Z)
| PosInfinity
| NegInfinity
| NotANumber.

Definition zero : Number := Finite 0.

(** 2^1024 in units: the first magnitude that is no finite double. *)
Definition overflow : Z := 2 ^ 2098.

(** The magnitude of the double nearest to [num / den] units, for
    [0 <= num] and [0 < den]: the quotient is cut to 53 significant bits
    and rounded to nearest, a tie going to the even neighbour. Below 2^53
    units (the subnormal and the first normal doubles) nothing is cut. *)
Definition roundMagnitude (num den : Z) : Z :=
  let shift := Z.max 0 (Z.log2 (num / den) + 1 - 53) in
  let grid := den * 2 ^ shift in
  let q := num / grid in
  let r := num mod grid in
  ((if (grid <? 2 * r) || ((2 * r =? grid) && Z.odd q) then q + 1 else q) * 2 ^ shift)%Z.

(** The double nearest to [num / den] units, for [0 < den]. *)
Definition round (num den : Z) : Number :=
  let m := roundMagnitude (Z.abs num) den in
  if (overflow <=? m)%Z then (if (num <? 0)%Z then NegInfinity else PosInfinity)
  else Finite (Z.sgn num * m).

(** [x + y] *)
Definition add (x y : Number) : Number :=
  match x, y with
  | NotANumber, _ | _, NotANumber => NotANumber
  | PosInfinity, NegInfinity | NegInfinity, PosInfinity => NotANumber
  | PosInfinity, _ | _, PosInfinity => PosInfinity
  | NegInfinity, _ | _, NegInfinity => NegInfinity
  | Finite a, Finite b => round (a + b) 1
  end.

(** Falsy numbers: zero and [NaN]. *)
Definition falsy (x : Number) : bool :=
  match x with
  | Finite u => (u =? 0)%Z
  | NotANumber => true
  | _ => false
  end.

(** The double of an integer literal or of an integer-valued expression. *)
Definition ofInteger (z : Z) : Number := round (z * 2 ^ 1074) 1.

(** [a / b] for integers [a] and [0 < b] below 2^53. *)
Definition quotient (a b : Z) : Number := round (a * 2 ^ 1074) b.

(** [x * k] for an integer [k] below 2^53 in magnitude. *)
Definition times (x : Number) (k : Z) : Number :=
  match x with
  | Finite u => round (u * k) 1
  | other => other
  end.

(** [Math.round(x)] for a finite [x]: the integer nearest to [x], a tie
    going up. *)
Definition mathRound (x : Number) : Z :=
  match x with
  | Finite u => ((u + 2 ^ 1073) / 2 ^ 1074)%Z
  | _ => 0%Z
  end.

(** The double that is exactly the integer [n], for [n] up to 2^53 in
    magnitude. *)
Definition exact (n : Z) : Number := Finite (n * 2 ^ 1074).

(** The largest count up to which every integer is a double. *)
Definition MAX_EXACT : Z := 2 ^ 53.

End Double.

(** ** Merger: [mergeKeywordAnalysis] *)

Module Merger.

Import Double.

(** One entry of a chunk's [keyword_analysis] array, as parsed from the
    model's JSON answer. Every field but the keyword may be missing. *)
Record KeywordItem : Type := mkItem {
  keyword : string;
  positive : option Number;
  negative : option Number;
  total_mentions : option Number;
  positive_snippets : option (list string);
  negative_snippets : option (list string)
}.

(** One entry of a [keyword_analysis] array, with counts of type [N]. *)
Record Entry (N : Type) : Type := mkEntry {
  e_keyword : string;
  e_positive : N;
  e_negative : N;
  e_total_mentions : N;
  e_positive_snippets : list string;
  e_negative_snippets : list string
}.
Arguments mkEntry {N} _ _ _ _ _ _.
Arguments e_keyword {N} _.
Arguments e_positive {N} _.
Arguments e_negative {N} _.
Arguments e_total_mentions {N} _.
Arguments e_positive_snippets {N} _.
Arguments e_negative_snippets {N} _.

(** An entry of the merged table and of the returned array: its counts
    are the numbers that [+=] leaves. *)
Abbreviation MergedEntry := (Entry Number).

(** An entry whose counts are lengths of arrays. *)
Abbreviation AspectEntry := (Entry Z).

Definition requiredAspects : list string :=
  ["Cleanliness"; "Location"; "HostCommunication"; "ValueForMoney";
   "AccuracyOfListing"; "CheckInProcess"; "NoiseLevels"; "Comfort";
   "Amenities"].

(** [merged] is created by the literal [{}], so a lookup that finds no own
    property continues in [Object.prototype]. These are its property
    names; each holds a function or an object, hence is truthy. *)
Definition objectPrototypeKeys : list string :=
  ["constructor"; "__defineGetter__"; "__defineSetter__"; "hasOwnProperty";
   "__lookupGetter__"; "__lookupSetter__"; "isPrototypeOf";
   "propertyIsEnumerable"; "toString"; "valueOf"; "__proto__";
   "toLocaleString"].

Definition zeroEntry (aspect : string) : MergedEntry :=
  mkEntry aspect zero zero zero [] [].

(** [requiredAspects.forEach(aspect => { merged[aspect] = {...} })] *)
Definition initMerged : gmap string MergedEntry :=
  foldl (fun m aspect => <[aspect := zeroEntry aspect]> m) ∅ requiredAspects.

(** What [merged[item.keyword]] evaluates to. *)
Inductive Lookup : Type :=
| Own (e : MergedEntry)
| Inherited
| Undefined.

Definition lookupMerged (merged : gmap string MergedEntry) (k : string) : Lookup :=
  match merged !! k with
  | Some e => Own e
  | None => if bool_decide (k ∈ objectPrototypeKeys) then Inherited else Undefined
  end.

(** [n || 0] for a count that may be missing. *)
Definition orZero (n : option Number) : Number :=
  match n with
  | Some x => if falsy x then zero else x
  | None => zero
  end.

(** [if (snips) target.push(...snips)] *)
Definition pushAll (target : list string) (snips : option (list string)) : list string :=
  match snips with
  | Some l => target ++ l
  | None => target
  end.

Definition pushOnUndefined : string :=
  "Cannot read properties of undefined (reading 'push')".

(** The body of the inner [forEach]. For an own aspect the counts are
    added and the snippets appended. For a name inherited from
    [Object.prototype] the guard passes as well: the three [+=] land on
    the inherited object and leave [merged] alone, and the first [push]
    on its missing snippet list throws a [TypeError]. *)
Definition foldItem (merged : gmap string MergedEntry) (item : KeywordItem)
  : Outcome (gmap string MergedEntry) :=
  match lookupMerged merged (keyword item) with
  | Undefined => Return merged
  | Inherited =>
      if is_Some_dec (positive_snippets item) then Throw pushOnUndefined
      else if is_Some_dec (negative_snippets item) then Throw pushOnUndefined
      else Return merged
  | Own e =>
      Return (<[keyword item :=
                 mkEntry (e_keyword e)
                         (add (e_positive e) (orZero (positive item)))
                         (add (e_negative e) (orZero (negative item)))
                         (add (e_total_mentions e) (orZero (total_mentions item)))
                         (pushAll (e_positive_snippets e) (positive_snippets item))
                         (pushAll (e_negative_snippets e) (negative_snippets item))]>
               merged)
  end.

Fixpoint foldItems (merged : gmap string MergedEntry) (items : list KeywordItem)
  : Outcome (gmap string MergedEntry) :=
  match items with
  | [] => Return merged
  | item :: rest =>
      match foldItem merged item with
      | Return merged' => foldItems merged' rest
      | Throw m => Throw m
      end
  end.

(** The outer [forEach]; [None] is a chunk whose [keyword_analysis] is not
    an array, which is skipped with a warning. *)
Fixpoint foldChunks (merged : gmap string MergedEntry)
  (chunks : list (option (list KeywordItem))) : Outcome (gmap string MergedEntry) :=
  match chunks with
  | [] => Return merged
  | None :: rest => foldChunks merged rest
  | Some items :: rest =>
      match foldItems merged items with
      | Return merged' => foldChunks merged' rest
      | Throw m => Throw m
      end
  end.

(** [requiredAspects.map(aspect => ({...merged[aspect], slice(0, 10)}))] *)
Fixpoint finish (merged : gmap string MergedEntry) (aspects : list string)
  : Outcome (list MergedEntry) :=
  match aspects with
  | [] => Return []
  | aspect :: rest =>
      match merged !! aspect with
      | None => Throw "Cannot read properties of undefined (reading 'positive_snippets')"
      | Some data =>
          match finish merged rest with
          | Return out =>
              Return (mkEntry (e_keyword data) (e_positive data) (e_negative data)
                              (e_total_mentions data)
                              (take 10 (e_positive_snippets data))
                              (take 10 (e_negative_snippets data)) :: out)
          | Throw m => Throw m
          end
      end
  end.

Definition mergeKeywordAnalysis (chunkKeywordArrays : list (option (list KeywordItem)))
  : Outcome (list MergedEntry) :=
  match foldChunks initMerged chunkKeywordArrays with
  | Return merged => finish merged requiredAspects
  | Throw m => Throw m
  end.

(** The counts of an entry, without its snippets. *)
Definition tally (e : MergedEntry) : string * Number * Number * Number :=
  (e_keyword e, e_positive e, e_negative e, e_total_mentions e).

(** All items of all well-formed chunks, in encounter order. *)
Definition allItems (chunks : list (option (list KeywordItem))) : list KeywordItem :=
  concat (map (default []) chunks).

(** An item that makes the fold throw. *)
Definition poisoned (item : KeywordItem) : bool :=
  bool_decide (keyword item ∉ requiredAspects) &&
  bool_decide (keyword item ∈ objectPrototypeKeys) &&
  (bool_decide (is_Some (positive_snippets item)) ||
   bool_decide (is_Some (negative_snippets item))).

(** What an item does to a count of [aspect]: [+=] when it names the
    aspect, nothing otherwise. *)
Definition bump (field : KeywordItem -> option Number) (aspect : string)
  (acc : Number) (item : KeywordItem) : Number :=
  if String.eqb (keyword item) aspect then add acc (orZero (field item)) else acc.

(** The count of [aspect] after the items, starting from 0: the additions
    are made one after the other, in the order of the items. *)
Definition sumFor (field : KeywordItem -> option Number) (aspect : string)
  (items : list KeywordItem) : Number :=
  foldl (bump field aspect) zero items.

(** The merged table holds exactly the required aspects, each under its
    own name. *)
Definition tableShape (m : gmap string MergedEntry) : Prop :=
  forall k, (is_Some (m !! k) <-> k ∈ requiredAspects) /\
            (forall e, m !! k = Some e -> e_keyword e = k).

(** The non-negative integer a count stands for, if it is one; a missing
    count stands for 0. *)
Definition asCount (n : option Number) : option Z :=
  match n with
  | None => Some 0%Z
  | Some (Finite u) =>
      if (0 <=? u)%Z && (u mod 2 ^ 1074 =? 0)%Z then Some (u / 2 ^ 1074)%Z else None
  | Some _ => None
  end.

(** The exact sum of a count over the items that name [aspect]. *)
Definition exactSum (field : KeywordItem -> option Number) (aspect : string)
  (items : list KeywordItem) : Z :=
  foldr (fun item acc =>
           if String.eqb (keyword item) aspect
           then (default 0 (asCount (field item)) + acc)%Z else acc)
        0%Z items.

(** Every count of the item is a non-negative integer. *)
Definition integral (item : KeywordItem) : bool :=
  bool_decide (is_Some (asCount (positive item))) &&
  bool_decide (is_Some (asCount (negative item))) &&
  bool_decide (is_Some (asCount (total_mentions item))).

(** The three exact sums of [aspect] are at most 2^53. *)
Definition withinExact (items : list KeywordItem) (aspect : string) : bool :=
  (exactSum positive aspect items <=? MAX_EXACT)%Z &&
  (exactSum negative aspect items <=? MAX_EXACT)%Z &&
  (exactSum total_mentions aspect items <=? MAX_EXACT)%Z.

(** Counts for which every addition of the merge is exact: non-negative
    integers whose sums, for each of the nine aspects, stay within 2^53. *)
Definition safeCounts (items : list KeywordItem) : bool :=
  forallb integral items && forallb (withinExact items) requiredAspects.

(** The counts of a result, without the snippets. *)
Definition tallies (o : Outcome (list MergedEntry))
  : Outcome (list (string * Number * Number * Number)) :=
  map tally <$> o.

(** Sample chunk results. *)
Definition chunkA : list KeywordItem :=
  [mkItem "Cleanliness" (Some (ofInteger 2)) (Some (ofInteger 0)) (Some (ofInteger 2))
          (Some ["spotless"]) (Some [])].
Definition chunkB : list KeywordItem :=
  [mkItem "Cleanliness" (Some (ofInteger 1)) (Some (ofInteger 1)) (Some (ofInteger 2))
          (Some ["very clean"]) (Some ["dusty shelf"])].
Definition chunkC : list KeywordItem :=
  [mkItem "Location" (Some (ofInteger 4)) None (Some (ofInteger 4)) None None;
   mkItem "Parking" (Some (ofInteger 1)) (Some (ofInteger 1)) (Some (ofInteger 2))
          (Some ["easy parking"]) (Some [])].

(** Chunk results whose counts leave the integers that are doubles: 2^53
    mentions in one chunk, one mention in each of two others. *)
Definition chunkHuge : list KeywordItem :=
  [mkItem "Cleanliness" (Some (ofInteger (2 ^ 53))) (Some (ofInteger 0))
          (Some (ofInteger (2 ^ 53))) None None].
Definition chunkOne : list KeywordItem :=
  [mkItem "Cleanliness" (Some (ofInteger 1)) (Some (ofInteger 0)) (Some (ofInteger 1))
          None None].

(** Chunk results with the counts 0.1, 0.2 and 0.3, which the schema of
    the answer ([type: 'number']) admits. *)
Definition fraction (mantissa : Z) (exponent : Z) : Number :=
  Finite (mantissa * 2 ^ (1074 - exponent)).
Definition chunkTenth : list KeywordItem :=
  [mkItem "Location" (Some (fraction 3602879701896397 55)) None None None None].
Definition chunkFifth : list KeywordItem :=
  [mkItem "Location" (Some (fraction 3602879701896397 54)) None None None None].
Definition chunkThreeTenths : list KeywordItem :=
  [mkItem "Location" (Some (fraction 5404319552844595 54)) None None None None].

(** A schema-conforming item whose keyword is a property name of
    [Object.prototype]. *)
Definition inheritedItem : KeywordItem :=
  mkItem "constructor" (Some (ofInteger 1)) (Some (ofInteger 0)) (Some (ofInteger 1))
         (Some []) (Some []).

End Merger.

(** ** Chunker: [estimateTokens] and [createOptimizedChunks] *)

Module Chunker.

(** [Math.ceil(text.length / 4)] *)
Definition estimateTokens (text : string) : nat :=
  (String.length text + 3) / 4.

Definition MAX_TOKENS_PER_CHUNK : nat := 750.
Definition MAX_CHARS_PER_CHUNK : nat := MAX_TOKENS_PER_CHUNK * 4.

(** The five characters between two reviews of a chunk: a line feed,
    three dashes, a line feed. *)
Definition separator : string :=
  String "010"%char ("---" +:+ String "010"%char EmptyString).

Record ChunkState : Type := mkChunkState {
  chunks : list (list string);
  currentChunk : list string;
  currentChunkSize : nat
}.

(** [l.slice(-k)] for [0 < k] *)
Definition sliceLast {A} (k : nat) (l : list A) : list A :=
  drop (length l - k) l.

(** [overlapReviews.reduce((sum, r) => sum + r.length + separator.length, 0)] *)
Definition overlapSize (overlapReviews : list string) : nat :=
  foldl (fun sum r => sum + String.length r + String.length separator) 0 overlapReviews.

(** One iteration of the [for] loop. *)
Definition addReview (chunkOverlap : nat) (st : ChunkState) (review : string) : ChunkState :=
  let reviewLength := String.length review in
  let st1 :=
    if (MAX_CHARS_PER_CHUNK <? currentChunkSize st + reviewLength + String.length separator)
       && (0 <? length (currentChunk st))
    then
      let closed := chunks st ++ [currentChunk st] in
      if (0 <? chunkOverlap) && (chunkOverlap <? length (currentChunk st))
      then
        let overlapReviews := sliceLast chunkOverlap (currentChunk st) in
        mkChunkState closed overlapReviews (overlapSize overlapReviews)
      else mkChunkState closed [] 0
    else st in
  mkChunkState (chunks st1)
               (currentChunk st1 ++ [review])
               (currentChunkSize st1 + reviewLength + String.length separator).

Definition createOptimizedChunks (reviews : list string) (chunkOverlap : nat)
  : list (list string) :=
  let st := foldl (addReview chunkOverlap) (mkChunkState [] [] 0) reviews in
  if (0 <? length (currentChunk st)) then chunks st ++ [currentChunk st] else chunks st.

(** The estimate the caller logs and submits for a chunk:
    [estimateTokens(chunk.join(separator))]. *)
Definition chunkTokens (chunk : list string) : nat :=
  estimateTokens (join separator chunk).

(** The size the loop keeps for a chunk: every review with one separator. *)
Definition sizeOf (chunk : list string) : nat :=
  list_sum (map (fun r => String.length r + 5) chunk).

(** A chunk fits when its joined text has at most 3000 characters. *)
Definition fitsChars (chunk : list string) : Prop :=
  String.length (join separator chunk) <= 3000.

(** What the loop maintains, for reviews of at most [L] characters: the
    size it keeps is the size of the current chunk, and the current and
    the closed chunks fit. *)
Definition chunkInv (L : nat) (st : ChunkState) : Prop :=
  currentChunkSize st = sizeOf (currentChunk st) /\
  Forall (fun r => String.length r <= L) (currentChunk st) /\
  fitsChars (currentChunk st) /\
  Forall fitsChars (chunks st).

Fixpoint repeatChar (n : nat) (c : ascii) : string :=
  match n with
  | O => EmptyString
  | S k => String c (repeatChar k c)
  end.

(** Three texts of 10, 2000 and 2000 characters: each is far below the
    3000 characters that 750 tokens stand for. *)
Definition shortText : string := repeatChar 10 "a"%char.
Definition longTextB : string := repeatChar 2000 "b"%char.
Definition longTextC : string := repeatChar 2000 "c"%char.

End Chunker.

(** ** Record extractor: [extractReviewsFromDOM] *)

Module Extractor.

(** What the selectors of the primary mode find under one
    [[data-review-id]] element. A field is the [textContent] of the first
    match of a selector, [None] when nothing matches. *)
Record ReviewElement : Type := mkElement {
  nameLcp : option string;
  nameH2 : option string;
  nameClass : option string;
  locationText : option string;
  dateText : option string;
  textPrimary : option string;
  textClass : option string;
  spans : list string;
  starSvgs : nat
}.

(** What the selectors of the fallback mode find under one generic
    content block. *)
Record FallbackElement : Type := mkFallback {
  fbName : option string;
  fbDate : option string;
  fbText : option string
}.

Record Document : Type := mkDocument {
  reviewElements : list ReviewElement;
  fallbackElements : list FallbackElement
}.

Record Review : Type := mkReview {
  name : option string;
  location : option string;
  date : option string;
  stayDetails : option string;
  text : option string;
  rating : option Z
}.

(** [let el = q1; if (!el) el = q2; if (!el) el = q3] *)
Fixpoint firstFound (candidates : list (option string)) : option string :=
  match candidates with
  | [] => None
  | Some t :: _ => Some t
  | None :: rest => firstFound rest
  end.

(** [if (el && el.textContent) field = el.textContent.trim()] *)
Definition trimmedContent (el : option string) : option string :=
  match el with
  | Some t => if String.eqb t EmptyString then None else Some (trim t)
  | None => None
  end.

Fixpoint allChars (p : ascii -> bool) (s : string) : bool :=
  match s with
  | EmptyString => true
  | String c rest => p c && allChars p rest
  end.

(** [/([A-Za-z]+ \d{4})/] tried at the head of [s]. *)
Definition matchMonthYearAt (s : string) : option string :=
  let word := takeWhile isLetter s in
  if String.eqb word EmptyString then None
  else
    match dropWhile isLetter s with
    | String " "%char rest =>
        let year := substring0 4 rest in
        if (String.length year =? 4)%nat && allChars isDigit year
        then Some (word +:+ " " +:+ year) else None
    | _ => None
    end.

(** The leftmost match of the month-and-year pattern. *)
Fixpoint matchMonthYear (s : string) : option string :=
  match matchMonthYearAt s with
  | Some m => Some m
  | None =>
      match s with
      | EmptyString => None
      | String _ rest => matchMonthYear rest
      end
  end.

(** [/Rating,\s*(\d+)\s*star/] tried at the head of [s]; the result is the
    captured digit run. *)
Definition matchRatingAt (s : string) : option string :=
  if String.prefix "Rating," s then
    let afterComma := dropWhile isSpace (dropChars 7 s) in
    let digits := takeWhile isDigit afterComma in
    if String.eqb digits EmptyString then None
    else if String.prefix "star" (dropWhile isSpace (dropWhile isDigit afterComma))
         then Some digits else None
  else None.

Fixpoint matchRating (s : string) : option string :=
  match matchRatingAt s with
  | Some ds => Some ds
  | None =>
      match s with
      | EmptyString => None
      | String _ rest => matchRating rest
      end
  end.

(** Method 1: the first span whose text carries the rating cue sets
    [starCount]; without one it stays 0. *)
Fixpoint ratingFromSpans (spanTexts : list string) : Z :=
  match spanTexts with
  | [] => 0%Z
  | t :: rest =>
      if negb (String.eqb t EmptyString) && includes t "Rating," && includes t "star"
      then match matchRating t with
           | Some ds => parseInt ds
           | None => ratingFromSpans rest
           end
      else ratingFromSpans rest
  end.

(** [review.text && review.text.length > 20] *)
Definition substantial (t : option string) : bool :=
  match t with
  | Some s => negb (String.eqb s EmptyString) && (20 <? String.length s)%nat
  | None => false
  end.

(** The three rating methods in order; the result is [starCount]. *)
Definition resolveStarCount (e : ReviewElement) (reviewText : option string) : Z :=
  let starCount := ratingFromSpans (spans e) in
  let starCount :=
    if (starCount =? 0)%Z then
      if (0 <? starSvgs e)%nat && (starSvgs e <=? 5)%nat
      then Z.of_nat (starSvgs e) else starCount
    else starCount in
  if (starCount =? 0)%Z && substantial reviewText then 5%Z else starCount.

(** [if (starCount > 0) review.rating = starCount] *)
Definition ratingOf (starCount : Z) : option Z :=
  if (0 <? starCount)%Z then Some starCount else None.

(** The longest span with more than 20 characters of trimmed text; the
    earlier span wins a tie. *)
Definition longestSpan (spanTexts : list string) : option string :=
  match filter (fun s => negb (String.eqb s EmptyString) = true
                         /\ (20 <? String.length (trim s))%nat = true) spanTexts with
  | [] => None
  | first :: rest =>
      Some (foldl (fun longest current =>
                     if (String.length longest <? String.length current)%nat
                     then current else longest) first rest)
  end.

Definition textElementOf (e : ReviewElement) : option string :=
  match firstFound [textPrimary e; textClass e] with
  | Some t => Some t
  | None => longestSpan (spans e)
  end.

(** The record built from one primary element, before the retention test. *)
Definition buildReview (e : ReviewElement) : Review :=
  let reviewText := trimmedContent (textElementOf e) in
  let stay := trimmedContent (dateText e) in
  mkReview (trimmedContent (firstFound [nameLcp e; nameH2 e; nameClass e]))
           (trimmedContent (locationText e))
           (stay ≫= matchMonthYear)
           stay
           reviewText
           (ratingOf (resolveStarCount e reviewText)).

Definition withName (n : string) (r : Review) : Review :=
  mkReview (Some n) (location r) (date r) (stayDetails r) (text r) (rating r).

(** The retention test of the primary mode. *)
Definition retain (reviews : list Review) (review : Review) : list Review :=
  if (length reviews <? 100)%nat then
    if truthyStr (name review) && truthyStr (text review) then reviews ++ [review]
    else if substantial (text review) then reviews ++ [withName "Anonymous" review]
    else reviews
  else reviews.

Definition processElement (reviews : list Review) (e : ReviewElement) : list Review :=
  if (100 <=? length reviews)%nat then reviews else retain reviews (buildReview e).

Definition buildFallbackReview (e : FallbackElement) : Review :=
  mkReview (trimmedContent (fbName e)) None (trimmedContent (fbDate e)) None
           (trimmedContent (fbText e)) None.

Definition processFallback (reviews : list Review) (e : FallbackElement) : list Review :=
  if (100 <=? length reviews)%nat then reviews
  else
    let review := buildFallbackReview e in
    if truthyStr (name review) || truthyStr (text review) then reviews ++ [review]
    else reviews.

Definition extractReviewsFromDOM (doc : Document) : list Review :=
  if (0 <? length (reviewElements doc))%nat
  then foldl processElement [] (reviewElements doc)
  else foldl processFallback [] (fallbackElements doc).

(** The retention rule in the words of the specification: a non-empty
    text, with a non-empty name or with more than 20 characters. *)
Definition statedRetention (r : Review) : Prop :=
  truthyStr (text r) = true /\
  (truthyStr (name r) = true \/ substantial (text r) = true).

(** The retention rule of the primary mode, between an element and the
    record a pass returns for it. The element has a non-empty text. When
    it has a non-empty name of its own, the record is the one built from
    it. When it has none, its text has more than 20 characters and the
    record is the built one under the name Anonymous. *)
Definition retainedFrom (e : ReviewElement) (r : Review) : Prop :=
  let built := buildReview e in
  truthyStr (text built) = true /\
  ((truthyStr (name built) = true /\ r = built) \/
   (truthyStr (name built) = false /\ substantial (text built) = true /\
    r = withName "Anonymous" built)).

(** The document is read in primary mode when it has a
    [[data-review-id]] element. *)
Definition primaryMode (doc : Document) : bool := 0 <? length (reviewElements doc).

(** What the fallback mode asks of a record: a name or a text. *)
Definition nameOrText (r : Review) : Prop :=
  truthyStr (name r) = true \/ truthyStr (text r) = true.

(** The rating cue of an element: the number of the first span that
    matches the pattern of the cue. *)
Fixpoint firstCue (spanTexts : list string) : option Z :=
  match spanTexts with
  | [] => None
  | t :: rest =>
      match matchRating t with
      | Some ds => Some (parseInt ds)
      | None => firstCue rest
      end
  end.

(** The number of rating glyphs counts when it is between 1 and 5. *)
Definition plausibleGlyphs (n : nat) : bool := (0 <? n) && (n <=? 5).

(** The cascade in the words of the specification: a cue wins, then the
    glyphs, then the default for a substantial text. *)
Definition statedCascade (cue : option Z) (glyphs : nat) (reviewText : option string)
  : option Z :=
  match cue with
  | Some n => Some n
  | None =>
      if plausibleGlyphs glyphs then Some (Z.of_nat glyphs)
      else if substantial reviewText then Some 5%Z
      else None
  end.

(** The cascade of the code: a cue wins when its number is at least 1; a
    cue of 0 stars counts as no cue. *)
Definition codeCascade (cue : option Z) (glyphs : nat) (reviewText : option string)
  : option Z :=
  match cue with
  | Some n =>
      if (0 <? n)%Z then Some n else statedCascade None glyphs reviewText
  | None => statedCascade None glyphs reviewText
  end.

Definition suffixOf (s' s : string) : Prop := exists pre, s = pre +:+ s'.

(** Sample elements. *)
Definition plainElement (spanTexts : list string) (svgs : nat) : ReviewElement :=
  mkElement (Some "Maria") None None None (Some "June 2025 - Stayed a few nights")
            (Some "Lovely flat, spotless and quiet.") None spanTexts svgs.

Definition nameOnlyBlock : FallbackElement := mkFallback (Some "Bob") None None.

(** An element whose cue reads 0 stars, next to three rating glyphs. *)
Definition zeroStarElement : ReviewElement :=
  plainElement ["Rating, 0 stars"; "Lovely flat, spotless and quiet."] 3.

End Extractor.

(** ** Collector: [collectReviewsWithScrolling] *)

Module Collector.

Import Extractor.

(** The live document, as the collector observes it. [domAt k] is the
    document at the [k]-th extraction pass of a run; [endOfReviews k n]
    tells whether the end-of-reviews probe of attempt [k] fires when [n]
    reviews have been collected (an end marker in the page, or one of
    the end phrases, two of which mention [n]). Scrolling, clicking and
    waiting act on the document only: they are part of these oracles. *)
Record Source : Type := mkSource {
  domAt : nat -> Document;
  endOfReviews : nat -> nat -> bool
}.

(** The variables of the function. *)
Record LoopState : Type := mkState {
  allReviews : list Review;
  attempts : nat;
  consecutiveNoNewReviews : nat
}.

Definition maxAttempts : nat := 30.

Definition initial : LoopState := mkState [] 0 0.

(** [existing.name === review.name && existing.text === review.text] over
    the accumulated set. *)
Definition isDuplicate (all : list Review) (review : Review) : bool :=
  existsb (fun existing =>
             bool_decide (name existing = name review) &&
             bool_decide (text existing = text review)) all.

(** The merge of the main loop. *)
Definition addIfNew (all : list Review) (review : Review) : list Review :=
  if negb (isDuplicate all review) && truthyStr (name review) && truthyStr (text review)
  then all ++ [review] else all.

Definition mergeNew (all current : list Review) : list Review :=
  foldl addIfNew all current.

(** The merge of the final push, which also stops at 95 records. *)
Definition addIfNewBelow95 (all : list Review) (review : Review) : list Review :=
  if negb (isDuplicate all review) && truthyStr (name review) && truthyStr (text review)
     && (length all <? 95)
  then all ++ [review] else all.

Definition mergeFinal (all current : list Review) : list Review :=
  foldl addIfNewBelow95 all current.

(** How an iteration ends: at its last statement, or at a [break]. *)
Inductive Completion : Type :=
| Continue (st : LoopState)
| Break (st : LoopState).

Definition stateOf (c : Completion) : LoopState :=
  match c with
  | Continue st => st
  | Break st => st
  end.

(** The guard of the [while] loop. *)
Definition loopGuard (st : LoopState) : bool :=
  (length (allReviews st) <? 100) && (attempts st <? maxAttempts)
  && (consecutiveNoNewReviews st <? 10).

(** The body of the [while] loop. *)
Definition loopBody (src : Source) (st : LoopState) : Completion :=
  let attempts' := S (attempts st) in
  let previousCount := length (allReviews st) in
  let currentReviews := extractReviewsFromDOM (domAt src attempts') in
  let all' := mergeNew (allReviews st) currentReviews in
  if (100 <=? length all') then
    Break (mkState all' attempts' (consecutiveNoNewReviews st))
  else if (length all' =? previousCount) then
    let stalled := S (consecutiveNoNewReviews st) in
    if (5 <=? stalled) && endOfReviews src attempts' (length all')
    then Break (mkState all' attempts' stalled)
    else Continue (mkState all' attempts' stalled)
  else Continue (mkState all' attempts' 0).

(** The guard of the final-push [for] loop. *)
Definition finalGuard (st : LoopState) (finalAttempt : nat) : bool :=
  (finalAttempt <? 8) && (length (allReviews st) <? 95).

(** The body of the final-push loop. [reviewsBeforePush] is read after the
    merge, inside the same pass. *)
Definition finalBody (src : Source) (st : LoopState) (finalAttempt : nat) : Completion :=
  let finalReviews := extractReviewsFromDOM (domAt src (attempts st + 1 + finalAttempt)) in
  let all' := mergeFinal (allReviews st) finalReviews in
  let st' := mkState all' (attempts st) (consecutiveNoNewReviews st) in
  if (3 <=? finalAttempt) then
    let reviewsBeforePush := length all' in
    if (finalAttempt =? 3) then Continue st'
    else if (finalAttempt =? 6) && (length all' =? reviewsBeforePush) then Break st'
    else Continue st'
  else Continue st'.

(** Where control stands. The iteration and pass counters are
    bookkeeping of the embedding, not variables of the source. *)
Inductive RunPoint : Type :=
| LoopHead (st : LoopState) (iterations : nat)
| PushHead (st : LoopState) (iterations : nat) (finalAttempt : nat)
| Finished (st : LoopState) (iterations : nat) (passes : nat).

(** After the [while] loop: the final push runs for 50 to 94 records. *)
Definition afterLoop (st : LoopState) (iterations : nat) : RunPoint :=
  if (50 <=? length (allReviews st)) && (length (allReviews st) <? 95)
  then PushHead st iterations 0
  else Finished st iterations 0.

Definition step (src : Source) (p : RunPoint) : RunPoint :=
  match p with
  | LoopHead st n =>
      if loopGuard st then
        match loopBody src st with
        | Continue st' => LoopHead st' (S n)
        | Break st' => afterLoop st' (S n)
        end
      else afterLoop st n
  | PushHead st n k =>
      if finalGuard st k then
        match finalBody src st k with
        | Continue st' => PushHead st' n (S k)
        | Break st' => Finished st' n (S k)
        end
      else Finished st n k
  | Finished st n k => Finished st n k
  end.

Record Collected : Type := mkCollected {
  result : list Review;
  attemptsMade : nat;
  loopIterations : nat;
  finalPushPasses : nat
}.

Fixpoint run (fuel : nat) (src : Source) (p : RunPoint) : option Collected :=
  match p with
  | Finished st n k => Some (mkCollected (take 100 (allReviews st)) (attempts st) n k)
  | _ =>
      match fuel with
      | O => None
      | S fuel' => run fuel' src (step src p)
      end
  end.

Definition collectReviewsWithScrolling (fuel : nat) (src : Source) : option Collected :=
  run fuel src (LoopHead initial 0).

Definition stateAt (p : RunPoint) : LoopState :=
  match p with
  | LoopHead st _ => st
  | PushHead st _ _ => st
  | Finished st _ _ => st
  end.

(** The run points of one collection run. *)
Inductive Reachable (src : Source) : RunPoint -> Prop :=
| reach_start : Reachable src (LoopHead initial 0)
| reach_step p : Reachable src p -> Reachable src (step src p).

(** The identity of a record. *)
Definition identity (r : Review) : option string * option string := (name r, text r).

(** No two records of the set share their name and their text. *)
Definition uniqueSet (all : list Review) : Prop := NoDup (map identity all).

(** A source that never shows a review and never signals the end. *)
Definition barrenSource : Source :=
  mkSource (fun _ => mkDocument [] []) (fun _ _ => false).

(** A source that shows the same two reviews (one of them twice) at
    every pass. *)
Definition repeatingSource : Source :=
  mkSource (fun _ => mkDocument
                       [plainElement [] 5; plainElement [] 5;
                        mkElement (Some "Ken") None None None None
                                  (Some "Great host and a very clean place.") None [] 0]
                       [])
           (fun _ _ => false).

End Collector.

(** ** Analysis entry points: [analyzeReviews], [askQuestion] and the
       local fallback [fallbackReviewAnalysis] *)

Module Analysis.

Import Chunker.

(** A review as the analysis receives it. *)
Record ReviewInput : Type := mkInput {
  r_text : option string;
  r_comments : option string;
  r_rating : option Z;
  r_name : option string
}.

Definition MAX_CHARS_PER_REVIEW : nat := 500.

(** [truncateReview] *)
Definition truncateReview (reviewText : string) : string :=
  if String.eqb reviewText EmptyString then EmptyString
  else if (String.length reviewText <=? MAX_CHARS_PER_REVIEW) then reviewText
  else substring0 MAX_CHARS_PER_REVIEW reviewText +:+ "...".

(** [review.text || review.comments || ''] *)
Definition rawText (review : ReviewInput) : string :=
  default EmptyString (orStr (orStr (r_text review) (r_comments review)) (Some EmptyString)).

Record TruncatedReview : Type := mkTruncated {
  t_text : string;
  t_rating : Z;
  t_name : string
}.

Definition truncateForAnalysis (review : ReviewInput) : TruncatedReview :=
  mkTruncated (truncateReview (trim (rawText review)))
              (default 0%Z (r_rating review))
              (default "Anonymous" (orStr (r_name review) (Some "Anonymous"))).

Record CachedReview : Type := mkCached {
  c_id : nat;
  c_text : string;
  original_length : nat;
  was_truncated : bool
}.

(** [buildReviewCache], the [reviews] list of the cache. *)
Definition buildReviewCache (reviews : list ReviewInput) : list CachedReview :=
  filter (fun r => (10 <? String.length (c_text r)) = true)
         (imap (fun index review =>
                  let t := trim (rawText review) in
                  mkCached index (truncateReview t) (String.length t)
                           (MAX_CHARS_PER_REVIEW <? String.length t))
               (take 100 reviews)).

Definition anyIncludes (lowerText : string) (words : list string) : bool :=
  existsb (includes lowerText) words.

Definition countIncluded (lowerText : string) (words : list string) : nat :=
  length (filter (fun w => includes lowerText w = true) words).

Definition fallbackPositiveWords : list string :=
  ["great"; "excellent"; "amazing"; "perfect"; "love"; "wonderful"; "fantastic";
   "clean"; "comfortable"; "beautiful"].
Definition fallbackNegativeWords : list string :=
  ["bad"; "terrible"; "awful"; "dirty"; "uncomfortable"; "noisy"; "poor";
   "disappointing"].

(** A theme of the fallback analysis: the words that bring it up, and how
    a text that brings it up counts as positive or negative. *)
Record Theme : Type := mkTheme {
  triggers : list string;
  countsPositive : string -> bool;
  countsNegative : string -> bool;
  proStatement : string;
  conStatement : string;
  featureLabel : string;
  improvementLabel : string
}.

Definition byWords (triggerWords : list string) (pro con feature improvement : string) : Theme :=
  mkTheme triggerWords
          (fun lowerText => anyIncludes lowerText fallbackPositiveWords)
          (fun lowerText => anyIncludes lowerText fallbackNegativeWords)
          pro con feature improvement.

Definition themes : list Theme :=
  [byWords ["clean"; "tidy"; "spotless"]
     "Excellent cleanliness standards maintained"
     "Some guests noted cleanliness concerns" "Cleanliness" "Cleanliness";
   byWords ["location"; "area"; "convenient"]
     "Convenient location with good accessibility"
     "Location may not suit all preferences" "Location" "Location";
   byWords ["host"; "communication"; "responsive"]
     "Responsive and helpful host communication"
     "Host responsiveness could be improved" "Host Communication" "Host Communication";
   byWords ["value"; "price"; "worth"]
     "Good value for money"
     "Value perception varies among guests" "Value for Money" "Value for Money";
   byWords ["comfortable"; "cozy"; "bed"]
     "Comfortable and welcoming atmosphere"
     "Comfort levels received mixed feedback" "Comfort" "Comfort";
   byWords ["amenities"; "kitchen"; "facilities"]
     "Well-equipped with necessary amenities"
     "Amenities may need updating" "Amenities" "Amenities";
   mkTheme ["noise"; "noisy"; "quiet"; "loud"; "peaceful"]
     (fun lowerText => anyIncludes lowerText ["quiet"; "peaceful"])
     (fun lowerText => anyIncludes lowerText ["noisy"; "loud"; "noise"])
     "Quiet and peaceful environment"
     "Noise levels mentioned as a concern" "Quiet Environment" "Noise Levels"].

Definition themePositive (lowerTexts : list string) (t : Theme) : nat :=
  length (filter (fun lt => anyIncludes lt (triggers t) && countsPositive t lt = true) lowerTexts).

Definition themeNegative (lowerTexts : list string) (t : Theme) : nat :=
  length (filter (fun lt => anyIncludes lt (triggers t) && countsNegative t lt = true) lowerTexts).

(** [if (cond) list.push(label)] over a table of conditions. *)
Definition pushWhere (table : list (bool * string)) : list string :=
  map snd (filter (fun row => fst row = true) table).

Record Insights : Type := mkInsights {
  recommended_for : list string;
  not_recommended_for : list string;
  best_features : list string;
  areas_for_improvement : list string
}.

Definition insightsValue (i : Insights) : Value :=
  VObj [("recommended_for", strings (recommended_for i));
        ("not_recommended_for", strings (not_recommended_for i));
        ("best_features", strings (best_features i));
        ("areas_for_improvement", strings (areas_for_improvement i))].

Definition prosConsValue (pros cons : list string) : Value :=
  VObj [("pros", strings pros); ("cons", strings cons)].

Definition entryValue (e : Merger.AspectEntry) : Value :=
  VObj [("keyword", VStr (Merger.e_keyword e));
        ("positive", VNum (Merger.e_positive e));
        ("negative", VNum (Merger.e_negative e));
        ("total_mentions", VNum (Merger.e_total_mentions e));
        ("positive_snippets", strings (Merger.e_positive_snippets e));
        ("negative_snippets", strings (Merger.e_negative_snippets e))].

Section WithRounding.

(** [Math.round((count / total) * 100)], computed by the source in double
    precision; the embedding leaves the rounding to this parameter. *)
Variable roundPercent : nat -> nat -> Z.

(** [fallbackReviewAnalysis] *)
Definition fallbackReviewAnalysis (reviews : list ReviewInput) : Value :=
  let reviewTexts :=
    filter (fun t => (10 <? String.length t) = true) (map rawText reviews) in
  let lowerTexts := map toLowerCase reviewTexts in
  let positiveCount :=
    list_sum (map (fun lt => countIncluded lt fallbackPositiveWords) lowerTexts) in
  let negativeCount :=
    list_sum (map (fun lt => countIncluded lt fallbackNegativeWords) lowerTexts) in
  let total := if (positiveCount + negativeCount =? 0) then 1 else positiveCount + negativeCount in
  let positivePercentage := roundPercent positiveCount total in
  let negativePercentage := roundPercent negativeCount total in
  let neutralPercentage := (100 - positivePercentage - negativePercentage)%Z in
  let actualPros :=
    pushWhere (map (fun t => (2 <? themePositive lowerTexts t, proStatement t)) themes) in
  let actualCons :=
    pushWhere (map (fun t => (1 <? themeNegative lowerTexts t, conStatement t)) themes) in
  let allReviewsText := toLowerCase (join " " reviewTexts) in
  let guest_insights :=
    mkInsights
      (pushWhere
         [(anyIncludes allReviewsText
             ["family"; "families"; "kid"; "child"; "toddler"; "baby"; "daughter"; "son"],
           "Families with children");
          (anyIncludes allReviewsText ["couple"; "romantic"; "anniversary"; "honeymoon"],
           "Couples");
          (anyIncludes allReviewsText ["business"; "work"; "conference"; "meeting"],
           "Business travelers");
          (anyIncludes allReviewsText ["solo"; "alone"; "myself"; "independent"],
           "Solo travelers");
          (anyIncludes allReviewsText ["group"; "friends"; "reunion"; "party"],
           "Groups of friends")])
      (pushWhere
         [(anyIncludes allReviewsText ["noise"; "noisy"; "loud"; "hear"; "sound"],
           "Light sleepers");
          (anyIncludes allReviewsText
             ["stairs"; "climb"; "steep"; "uphill"; "no elevator"; "walk up"],
           "Guests with mobility issues");
          (anyIncludes allReviewsText ["small"; "tiny"; "cramped"; "tight"]
           && anyIncludes allReviewsText ["space"; "room"],
           "Large groups")])
      (pushWhere (map (fun t => (2 <? themePositive lowerTexts t, featureLabel t)) themes))
      (pushWhere (map (fun t => (1 <? themeNegative lowerTexts t, improvementLabel t)) themes)) in
  VObj
    [("success", VBool true);
     ("analysis_type", VStr "basic_analysis");
     ("trust_score", VNum (Z.min 90 (Z.max 50 (positivePercentage + 10))));
     ("sentiment_analysis",
      VObj [("positive_percentage", VNum positivePercentage);
            ("neutral_percentage", VNum neutralPercentage);
            ("negative_percentage", VNum negativePercentage);
            ("overall_sentiment",
             VStr (if (negativePercentage <? positivePercentage)%Z
                   then "positive" else "negative"))]);
     ("keyword_analysis", VArr []);
     ("pros_and_cons", prosConsValue (take 7 actualPros) (take 7 actualCons));
     ("guest_insights", insightsValue guest_insights);
     ("summary",
      VStr ("Based on analyzing " +:+ pretty (length reviews)
            +:+ " guest reviews, this property demonstrates "
            +:+ pretty positivePercentage +:+ "% positive sentiment overall. "
            +:+ (if (0 <? length actualPros)
                 then "Key strengths include: " +:+ join ", " (take 3 actualPros) +:+ ". "
                 else EmptyString)
            +:+ (if (0 <? length actualCons)
                 then "Areas noted for potential improvement: "
                      +:+ join ", " (take 3 actualCons) +:+ "."
                 else EmptyString)
            +:+ " The property appears to "
            +:+ (if (75 <=? positivePercentage)%Z
                 then "consistently meet guest expectations"
                 else if (50 <=? positivePercentage)%Z
                 then "generally satisfy most guests with some areas for enhancement"
                 else "have mixed reviews that potential guests should carefully consider")
            +:+ "."));
     ("reviews_analyzed", VNum (Z.of_nat (length reviews)));
     ("message", VStr "Basic analysis (Browser AI not available - showing real data only)")].

(** What [extractStructuredData] hands back: both of its [return]
    statements build the three parts; only the fallback one adds
    [_errorReason]. *)
Record StructuredData : Type := mkStructured {
  sd_keyword_analysis : list Merger.AspectEntry;
  sd_pros : list string;
  sd_cons : list string;
  sd_guest_insights : Insights;
  sd_errorReason : option string
}.

(** The on-device model during one analysis.
    - [initSummarizerSession] throws [SUMMARIZER_UNAVAILABLE] or whatever
      [Summarizer.create] throws.
    - [summarize] is one call of the session on the text of one chunk.
    - [finishAnalysis] is the rest of the [try] block once some chunk has
      a summary: the recursive summary, the structured extraction, the
      parsing and the release of the sessions. It returns the structured
      analysis or throws.
    - [cloneLanguageModelSession] and [extractStructuredData] are the two
      calls of the Prompt API path. *)
Record AiEnv : Type := mkEnv {
  initSummarizerSession : Outcome unit;
  summarize : string -> Outcome string;
  finishAnalysis : list string -> list TruncatedReview -> Outcome Value;
  cloneLanguageModelSession : Outcome unit;
  extractStructuredData : list string -> Outcome StructuredData
}.

(** The loop of level 1: a chunk whose call throws is skipped. *)
Fixpoint summarizeChunks (env : AiEnv) (chunkList : list (list string)) : list string :=
  match chunkList with
  | [] => []
  | chunk :: rest =>
      match summarize env (join separator chunk) with
      | Return summary => summary :: summarizeChunks env rest
      | Throw _ => summarizeChunks env rest
      end
  end.

(** The [try] block of [analyzeReviews]. *)
Definition analyzeBody (env : AiEnv) (reviews : list ReviewInput) : Outcome Value :=
  let truncatedReviews :=
    filter (fun r => (10 <? String.length (t_text r)) = true)
           (map truncateForAnalysis (take 100 reviews)) in
  _ ← initSummarizerSession env;
  let reviewTexts := map t_text truncatedReviews in
  let chunkList := createOptimizedChunks reviewTexts 1 in
  let chunkSummaries := summarizeChunks env chunkList in
  if (length chunkSummaries =? 0) then Throw "All chunk summarizations failed"
  else finishAnalysis env chunkSummaries truncatedReviews.

(** The inner [try] block of the [SUMMARIZER_UNAVAILABLE] handler. *)
Definition promptApiFallback (env : AiEnv) (reviews : list ReviewInput) : Outcome Value :=
  let truncatedReviews :=
    filter (fun t => (10 <? String.length t) = true)
           (map (fun review => truncateReview (trim (rawText review))) (take 100 reviews)) in
  _ ← cloneLanguageModelSession env;
  structuredData ← extractStructuredData env truncatedReviews;
  let fallback := fallbackReviewAnalysis (take 100 reviews) in
  Return
    (setKey "keyword_analysis_error"
       (orValue (from_option VStr VUndefined (sd_errorReason structuredData)) VNull)
    (setKey "message" (VStr "✅ Analysis completed using Prompt API (Summarizer API unavailable)")
    (setKey "guest_insights"
       (orValue (insightsValue (sd_guest_insights structuredData))
                (getKey "guest_insights" fallback))
    (setKey "pros_and_cons"
       (orValue (prosConsValue (sd_pros structuredData) (sd_cons structuredData))
                (getKey "pros_and_cons" fallback))
    (setKey "keyword_analysis"
       (orValue (VArr (map entryValue (sd_keyword_analysis structuredData)))
                (getKey "keyword_analysis" fallback))
       fallback))))).

(** The [catch] block of [analyzeReviews]. *)
Definition analyzeHandler (env : AiEnv) (reviews : list ReviewInput) (message : string)
  : Outcome Value :=
  if String.eqb message "SUMMARIZER_UNAVAILABLE" then
    tryCatch (promptApiFallback env reviews)
      (fun _ =>
         Return (setKey "message" (VStr "⚠️ Using basic analysis (both AI APIs unavailable)")
                        (fallbackReviewAnalysis (take 100 reviews))))
  else
    Return (setKey "message" (VStr "⚠️ Using basic analysis (error occurred)")
                   (fallbackReviewAnalysis (take 100 reviews))).

(** [analyzeReviews(reviews)]; [None] is a [null] or [undefined] argument
    and [isAnalyzing] the flag of the instance at the call. *)
Definition analyzeReviews (env : AiEnv) (isAnalyzing : bool)
  (reviews : option (list ReviewInput)) : Outcome Value :=
  match reviews with
  | None | Some [] => Throw "No reviews to analyze"
  | Some rs =>
      if isAnalyzing then Throw "Analysis already in progress"
      else tryCatch (analyzeBody env rs) (analyzeHandler env rs)
  end.

End WithRounding.

(** The Prompt API during one question.
    - [availableTokens b] is [maxTokens - tokensSoFar] when batch [b] is
      about to be sent.
    - [prompt b p] is the answer of the session to the prompt [p] of
      batch [b], or the error it throws. *)
Record PromptEnv : Type := mkPromptEnv {
  initLanguageModelSession : Outcome unit;
  availableTokens : nat -> Z;
  prompt : nat -> string -> Outcome string;
  destroySession : Outcome unit
}.

Definition notFoundMarker : string := "NOT_FOUND_IN_THIS_BATCH".
Definition noReviewsAnswer : string := "No reviews available to answer your question.".
Definition notMentionedAnswer : string :=
  "Sorry, this information is not mentioned in the reviews. The guests did not discuss this topic in their feedback.".

(** The values of [startIndex]: 0, 10, 20, ... below [totalReviews]. *)
Definition startIndices (totalReviews : nat) : list nat :=
  map (fun i => 10 * i) (seq 0 ((totalReviews + 9) / 10)).

Section WithPrompt.

(** The template literal of the batch prompt, a fixed text around the
    question and the reviews of the batch. *)
Variable promptText : string -> string -> string.

(** The [for] loop over the batches. The result is [finalAnswer] when
    [answerFound] is set. *)
Fixpoint searchBatches (env : PromptEnv) (question : string) (cache : list CachedReview)
  (starts : list nat) : Outcome (option string) :=
  match starts with
  | [] => Return None
  | startIndex :: rest =>
      let batchNumber := startIndex / 10 + 1 in
      let reviewBatch := take 10 (drop startIndex cache) in
      let reviewTexts := join separator (map c_text reviewBatch) in
      let p := promptText question reviewTexts in
      if (availableTokens env batchNumber <? Z.of_nat (estimateTokens p))%Z then Return None
      else
        response ← prompt env batchNumber p;
        if negb (includes response notFoundMarker) then Return (Some response)
        else searchBatches env question cache rest
  end.

(** [askQuestion(reviews, question)]; [reviewCache] is the cache of the
    instance at the call, [None] when it has not been built. *)
Definition askQuestion (env : PromptEnv) (reviewCache : option (list CachedReview))
  (reviews : option (list ReviewInput)) (question : string) : string :=
  match reviews with
  | None | Some [] => noReviewsAnswer
  | Some rs =>
      let body : Outcome string :=
        let cache := default (buildReviewCache rs) reviewCache in
        _ ← initLanguageModelSession env;
        found ← searchBatches env question cache (startIndices (length cache));
        _ ← destroySession env;
        Return (match found with
                | Some finalAnswer =>
                    if negb (String.eqb finalAnswer EmptyString) then finalAnswer
                    else notMentionedAnswer
                | None => notMentionedAnswer
                end) in
      match body with
      | Return answer => answer
      | Throw message =>
          "Sorry, I encountered an error: " +:+ message
          +:+ ". Please make sure you have enabled the Prompt API in Chrome."
      end
  end.

Definition batchNumberOf (startIndex : nat) : nat := startIndex / 10 + 1.

(** The prompt of the batch that starts at [startIndex]. *)
Definition batchPrompt (question : string) (cache : list CachedReview) (startIndex : nat)
  : string :=
  promptText question (join separator (map c_text (take 10 (drop startIndex cache)))).

(** The session has room for the prompt of the batch. *)
Definition hasRoom (env : PromptEnv) (question : string) (cache : list CachedReview)
  (startIndex : nat) : Prop :=
  (availableTokens env (batchNumberOf startIndex)
   <? Z.of_nat (estimateTokens (batchPrompt question cache startIndex)))%Z = false.

(** The batch is answered with [response]. *)
Definition answered (env : PromptEnv) (question : string) (cache : list CachedReview)
  (startIndex : nat) (response : string) : Prop :=
  prompt env (batchNumberOf startIndex) (batchPrompt question cache startIndex)
  = Return response.

End WithPrompt.

(** The keys of an aggregate result. *)
Definition requiredKeys : list string :=
  ["keyword_analysis"; "pros_and_cons"; "guest_insights"; "summary"; "trust_score";
   "reviews_analyzed"].

Definition hasAllKeys (obj : Value) : bool :=
  forallb (fun k => hasKey k obj) requiredKeys
  && hasKey "pros" (getKey "pros_and_cons" obj)
  && hasKey "cons" (getKey "pros_and_cons" obj)
  && forallb (fun k => hasKey k (getKey "guest_insights" obj))
       ["recommended_for"; "not_recommended_for"; "best_features"; "areas_for_improvement"].



(** Sample inputs. *)
Definition sampleReviews : list ReviewInput :=
  [mkInput (Some "Great clean place with a comfortable bed.") None (Some 5%Z) (Some "Maria");
   mkInput (Some "Noisy street, but the host was great.") None None (Some "Ken")].

(** [Math.round((count / total) * 100)] in doubles, for [0 < total]: the
    quotient is rounded to a double, then the product, then the result to
    an integer (23 of 40 gives 57, not 58). *)
Definition samplePercent (count total : nat) : Z :=
  Double.mathRound
    (Double.times (Double.quotient (Z.of_nat count) (Z.of_nat total)) 100).

(** A model whose summarizer session opens and then fails on every chunk;
    nothing else is reached. *)
Definition failingEnv : AiEnv :=
  mkEnv (Return tt)
        (fun _ => Throw "The model attempted to output text in an untested language.")
        (fun _ _ => Throw "unreachable")
        (Throw "Prompt API is not available.")
        (fun _ => Throw "Prompt API is not available.").

(** A session that answers the first batch with the empty string. *)
Definition silentEnv : PromptEnv :=
  mkPromptEnv (Return tt) (fun _ => 4096%Z) (fun _ _ => Return EmptyString) (Return tt).

(** A session that finds nothing in any batch. *)
Definition cluelessEnv : PromptEnv :=
  mkPromptEnv (Return tt) (fun _ => 4096%Z) (fun _ _ => Return notFoundMarker) (Return tt).

(** A session that answers the first batch from the reviews. *)
Definition helpfulEnv : PromptEnv :=
  mkPromptEnv (Return tt) (fun _ => 4096%Z)
              (fun _ _ => Return "Guests found the street noisy.") (Return tt).

Definition sampleQuestion : string := "What's the WiFi password?".

Definition samplePrompt (question reviewTexts : string) : string :=
  "QUESTION: " +:+ question +:+ " REVIEWS FROM GUESTS: " +:+ reviewTexts.

End Analysis.

(** ** Local keyword extraction: [detectSentiment], [extractSnippet] and
       [createFallbackStructuredData] *)

Module LocalExtraction.

Import Merger Analysis.

(** [s.indexOf(sub)]; [None] is -1. *)
Fixpoint indexOf (s sub : string) : option nat :=
  if String.prefix sub s then Some 0
  else
    match s with
    | EmptyString => None
    | String _ rest => S <$> indexOf rest sub
    end.

(** [s.substring(start, stop)] for [start <= stop]. *)
Definition substring (start stop : nat) (s : string) : string :=
  String.substring start (stop - start) s.

Inductive Sentiment : Type :=
| Positive
| Negative.

Definition sentimentPositiveWords : list string :=
  ["great"; "excellent"; "amazing"; "perfect"; "wonderful"; "love"; "clean";
   "comfortable"; "beautiful"].
Definition sentimentNegativeWords : list string :=
  ["bad"; "poor"; "terrible"; "dirty"; "noisy"; "disappointing"; "issue";
   "problem"; "awful"].

(** [detectSentiment] *)
Definition detectSentiment (reviewText : string) : Sentiment :=
  let lowerText := toLowerCase reviewText in
  let positiveCount := countIncluded lowerText sentimentPositiveWords in
  let negativeCount := countIncluded lowerText sentimentNegativeWords in
  if (negativeCount <? positiveCount) then Positive else Negative.

(** [extractSnippet] *)
Definition extractSnippet (reviewText keywordText : string) : string :=
  let lowerText := toLowerCase reviewText in
  match indexOf lowerText (toLowerCase keywordText) with
  | None => substring 0 (Nat.min 100 (String.length reviewText)) reviewText
  | Some keywordIndex =>
      let start := keywordIndex - 50 in
      let stop := Nat.min (String.length reviewText) (keywordIndex + 100) in
      let snippet := trim (substring start stop reviewText) in
      let snippet := if (0 <? start) then "..." +:+ snippet else snippet in
      if (stop <? String.length reviewText) then snippet +:+ "..." else snippet
  end.

(** The snippets collected for one aspect. *)
Record Bucket : Type := mkBucket {
  b_positive : list string;
  b_negative : list string
}.

(** The [keywords] object: the nine aspects in the order of the literal. *)
Definition initialKeywords : list (string * Bucket) :=
  map (fun aspect => (aspect, mkBucket [] [])) requiredAspects.

(** One keyword-detection block of the loop: the words that bring the
    aspect up, the word whose surroundings become the positive snippet,
    and the one for the negative snippet when the block has a negative
    branch. *)
Record Detector : Type := mkDetector {
  d_aspect : string;
  d_triggers : list string;
  d_positiveWord : string;
  d_negativeWord : option string
}.

Definition detectors : list Detector :=
  [mkDetector "Cleanliness" ["clean"] "clean" (Some "clean");
   mkDetector "Location" ["location"; "area"] "location" (Some "location");
   mkDetector "HostCommunication" ["host"; "communication"] "host" (Some "host");
   mkDetector "ValueForMoney" ["value"; "price"; "money"] "value" None;
   mkDetector "CheckInProcess" ["check"; "arrival"] "check" None;
   mkDetector "NoiseLevels" ["noise"; "noisy"; "quiet"; "loud"; "sound"]
              "quiet" (Some "noise");
   mkDetector "Comfort" ["comfort"; "bed"; "cozy"; "mattress"] "comfort" (Some "comfort");
   mkDetector "Amenities"
              ["amenities"; "wifi"; "kitchen"; "pool"; "parking"; "facilities"]
              "amenities" (Some "amenities")].

(** [keywords[aspect].positive.push(s)] when the list has fewer than 10. *)
Fixpoint pushPositive (aspect snippet : string) (table : list (string * Bucket))
  : list (string * Bucket) :=
  match table with
  | [] => []
  | (k, b) :: rest =>
      if String.eqb k aspect
      then (k, if (length (b_positive b) <? 10)
               then mkBucket (b_positive b ++ [snippet]) (b_negative b) else b) :: rest
      else (k, b) :: pushPositive aspect snippet rest
  end.

Fixpoint pushNegative (aspect snippet : string) (table : list (string * Bucket))
  : list (string * Bucket) :=
  match table with
  | [] => []
  | (k, b) :: rest =>
      if String.eqb k aspect
      then (k, if (length (b_negative b) <? 10)
               then mkBucket (b_positive b) (b_negative b ++ [snippet]) else b) :: rest
      else (k, b) :: pushNegative aspect snippet rest
  end.

Definition applyDetector (reviewText : string) (table : list (string * Bucket))
  (d : Detector) : list (string * Bucket) :=
  if anyIncludes (toLowerCase reviewText) (d_triggers d) then
    match detectSentiment reviewText with
    | Positive => pushPositive (d_aspect d) (extractSnippet reviewText (d_positiveWord d)) table
    | Negative =>
        match d_negativeWord d with
        | Some w => pushNegative (d_aspect d) (extractSnippet reviewText w) table
        | None => table
        end
    end
  else table.

Definition prosWords : list string :=
  ["great"; "excellent"; "amazing"; "perfect"; "wonderful"; "clean"; "comfortable"].
Definition consWords : list string :=
  ["bad"; "poor"; "dirty"; "noisy"; "disappointing"; "issue"; "problem"].

(** [set.add(x)] on a [Set], kept in insertion order. *)
Definition setAdd (x : string) (set : list string) : list string :=
  if bool_decide (x ∈ set) then set else set ++ [x].

(** The pros or cons block of the loop. *)
Definition collectHighlight (words : list string) (reviewText : string)
  (set : list string) : list string :=
  if anyIncludes (toLowerCase reviewText) words && (length set <? 7) then
    let snippet := substring 0 100 reviewText in
    if (20 <? String.length snippet) then setAdd snippet set else set
  else set.

Record Scan : Type := mkScan {
  keywords : list (string * Bucket);
  pros : list string;
  cons : list string
}.

(** The body of [reviews.forEach]. *)
Definition scanReview (st : Scan) (reviewText : string) : Scan :=
  mkScan (foldl (applyDetector reviewText) (keywords st) detectors)
         (collectHighlight prosWords reviewText (pros st))
         (collectHighlight consWords reviewText (cons st)).

Definition bucketEntry (row : string * Bucket) : AspectEntry :=
  mkEntry (fst row)
          (Z.of_nat (length (b_positive (snd row))))
          (Z.of_nat (length (b_negative (snd row))))
          (Z.of_nat (length (b_positive (snd row)) + length (b_negative (snd row))))
          (b_positive (snd row))
          (b_negative (snd row)).

(** [list.sort((a, b) => key(b) - key(a))]: descending, and stable. *)
Fixpoint insertDescending (key : AspectEntry -> Z) (x : AspectEntry)
  (sorted : list AspectEntry) : list AspectEntry :=
  match sorted with
  | [] => [x]
  | y :: rest =>
      if (key x <? key y)%Z then y :: insertDescending key x rest
      else x :: y :: rest
  end.

Definition sortDescending (key : AspectEntry -> Z) (l : list AspectEntry)
  : list AspectEntry :=
  foldr (insertDescending key) [] l.

(** [createFallbackStructuredData] *)
Definition createFallbackStructuredData (reviews : list string) : StructuredData :=
  let st := foldl scanReview (mkScan initialKeywords [] []) reviews in
  let keyword_analysis := map bucketEntry (keywords st) in
  let allReviewsText := toLowerCase (join " " reviews) in
  let topKeywords :=
    take 5 (sortDescending e_positive
              (filter (fun k => (e_negative k <? e_positive k)%Z = true) keyword_analysis)) in
  let improvementAreas :=
    take 3 (sortDescending e_negative
              (filter (fun k => (0 <? e_negative k)%Z = true) keyword_analysis)) in
  mkStructured
    keyword_analysis
    (map (fun p => p +:+ "...") (take 7 (pros st)))
    (map (fun c => c +:+ "...") (take 7 (cons st)))
    (mkInsights
       (pushWhere
          [(anyIncludes allReviewsText
              ["family"; "families"; "kid"; "child"; "toddler"; "baby"; "daughter"; "son"],
            "Families with children");
           (anyIncludes allReviewsText ["couple"; "romantic"; "anniversary"; "honeymoon"],
            "Couples");
           (anyIncludes allReviewsText ["business"; "work"; "conference"; "meeting"],
            "Business travelers");
           (anyIncludes allReviewsText ["solo"; "alone"; "myself"; "independent"],
            "Solo travelers");
           (anyIncludes allReviewsText ["group"; "friends"; "reunion"; "party"],
            "Groups of friends")])
       (pushWhere
          [(anyIncludes allReviewsText ["noise"; "noisy"; "loud"; "hear"; "sound"],
            "Light sleepers");
           (anyIncludes allReviewsText
              ["stairs"; "climb"; "steep"; "uphill"; "no elevator"; "walk up"],
            "Guests with mobility issues");
           (anyIncludes allReviewsText ["small"; "tiny"; "cramped"; "tight"]
            && anyIncludes allReviewsText ["space"; "room"],
            "Large groups")])
       (map e_keyword topKeywords)
       (map e_keyword improvementAreas))
    None.

(** The aspects whose detection block has no negative branch, and the one
    without a block. *)
Definition neverNegative : list string :=
  ["ValueForMoney"; "AccuracyOfListing"; "CheckInProcess"].

(** An entry as the local extraction builds it: at most ten snippets of
    each kind, and counts that are the numbers of snippets. *)
Definition countedEntry (e : AspectEntry) : Prop :=
  length (e_positive_snippets e) <= 10 /\
  length (e_negative_snippets e) <= 10 /\
  e_positive e = Z.of_nat (length (e_positive_snippets e)) /\
  e_negative e = Z.of_nat (length (e_negative_snippets e)) /\
  e_total_mentions e = (e_positive e + e_negative e)%Z.

Definition bucketBounded (row : string * Bucket) : Prop :=
  length (b_positive (snd row)) <= 10 /\ length (b_negative (snd row)) <= 10.

Definition sampleTexts : list string :=
  ["The flat was very clean and the host was great, a perfect location.";
   "Terrible noise at night, the area is loud and the bed was bad.";
   "Good value for the price."].

End LocalExtraction.

(** ** Hierarchical summarization: [measureInputUsage] and
       [recursiveSummarize] *)

Module Summaries.

Import Chunker.

Record Usage : Type := mkUsage {
  estimatedTokens : nat;
  estimatedChars : nat;
  fitsInSingleRequest : bool
}.

Definition lineFeed : string := String "010"%char EmptyString.

(** [measureInputUsage] *)
Definition measureInputUsage (text context : string) : Usage :=
  let totalText :=
    text +:+ (if negb (String.eqb context EmptyString) then lineFeed +:+ context
              else EmptyString) in
  let tokens := estimateTokens totalText in
  mkUsage tokens (String.length totalText) (tokens <=? 750).

Definition MAX_RECURSION_DEPTH : nat := 5.

Definition paragraphBreak : string := lineFeed +:+ lineFeed.

(** The summarizer during the recursion: the answer to the call made at
    a level for a chunk (0 for the call on the combined text), given its
    text and context, or the error it throws. *)
Definition Summarizer : Type := nat -> nat -> string -> string -> Outcome string.

(** The [for] loop over the chunks of a level: a chunk whose call throws
    is skipped. *)
Fixpoint summarizeLevel (summarizer : Summarizer) (level : nat) (context : string)
  (index : nat) (chunkList : list (list string)) : list string :=
  match chunkList with
  | [] => []
  | chunk :: rest =>
      match summarizer level (S index) (join paragraphBreak chunk)
              ("Level " +:+ pretty level +:+ " intermediate summary. " +:+ context) with
      | Return summary => summary :: summarizeLevel summarizer level context (S index) rest
      | Throw _ => summarizeLevel summarizer level context (S index) rest
      end
  end.

(** [recursiveSummarize]; the fuel bounds the recursive calls. *)
Fixpoint recursiveSummarize (fuel : nat) (summarizer : Summarizer)
  (summaries : list string) (context : string) (depth : nat) : option (Outcome string) :=
  if (MAX_RECURSION_DEPTH <=? depth) then Some (Return (join paragraphBreak summaries))
  else
    let combinedText := join paragraphBreak summaries in
    if fitsInSingleRequest (measureInputUsage combinedText context)
    then Some (summarizer (depth + 1) 0 combinedText context)
    else
      match fuel with
      | O => None
      | S fuel' =>
          let chunkList := createOptimizedChunks summaries 0 in
          let nextLevelSummaries :=
            summarizeLevel summarizer (depth + 1) context 0 chunkList in
          recursiveSummarize fuel' summarizer nextLevelSummaries context (depth + 1)
      end.

(** A summarizer that always fails. *)
Definition brokenSummarizer : Summarizer := fun _ _ _ _ => Throw "The model crashed.".

(** A summarizer that returns its input. *)
Definition echoSummarizer : Summarizer := fun _ _ text _ => Return text.

End Summaries.

(** ** Definitions for the properties of the pipeline *)

Module Pipeline.

Import Merger Chunker Extractor Collector Analysis.

(** The snippets of the items that name [aspect], in encounter order. *)
Definition snippetsFor (field : KeywordItem -> option (list string)) (aspect : string)
  (items : list KeywordItem) : list string :=
  concat (map (fun item => if String.eqb (keyword item) aspect
                           then default [] (field item) else []) items).

(** An item whose keyword is one of the nine aspects. *)
Definition known (item : KeywordItem) : bool :=
  bool_decide (keyword item ∈ requiredAspects).

(** The reviews [analyzeReviews] keeps after truncation. *)
Definition truncatedReviews (reviews : list ReviewInput) : list TruncatedReview :=
  filter (fun r => (10 <? String.length (t_text r)) = true)
         (map truncateForAnalysis (take 100 reviews)).

(** The chunks [analyzeReviews] submits to the summarizer. *)
Definition analysisChunks (reviews : list ReviewInput) : list (list string) :=
  createOptimizedChunks (map t_text (truncatedReviews reviews)) 1.

(** A record with a non-empty name and a non-empty text. *)
Definition complete (r : Review) : Prop :=
  truthyStr (name r) = true /\ truthyStr (text r) = true.

(** The shape of the date the primary mode extracts: a word of letters, a
    space and four digits. *)
Definition monthYear (s : string) : Prop :=
  exists word year,
    s = word +:+ " " +:+ year /\
    word <> EmptyString /\ allChars isLetter word = true /\
    String.length year = 4 /\ allChars isDigit year = true.

(** A source whose passes never show a record that the collector keeps. *)
Definition yieldsNothing (src : Source) : Prop :=
  forall k, mergeNew [] (extractReviewsFromDOM (domAt src k)) = [].

(** A session with no room for the first batch. *)
Definition exhaustedEnv : PromptEnv :=
  mkPromptEnv (Return tt) (fun _ => 0%Z)
              (fun _ _ => Return "Guests found the street noisy.") (Return tt).

(** A chunk that is a run of consecutive elements of a list. *)
Definition contiguousIn {A} (chunk l : list A) : Prop :=
  exists before after, l = before ++ chunk ++ after.

(** What the loop keeps for every overlap, for the reviews [done] it has
    taken: no closed chunk is empty, every review taken is in a closed
    chunk or in the current one, the current chunk is the end of [done]
    and every closed chunk is a run of [done]. *)
Definition coverInv (done : list string) (st : ChunkState) : Prop :=
  Forall (fun chunk => chunk <> []) (chunks st) /\
  (forall r, r ∈ done -> r ∈ concat (chunks st) ++ currentChunk st) /\
  currentChunk st `suffix_of` done /\
  Forall (fun chunk => contiguousIn chunk done) (chunks st).

(** What the scan keeps for every row of [keywords]: at most ten snippets
    of each kind, no negative snippet for an aspect without a negative
    branch, and nothing at all for the aspect without a detection block. *)
Definition rowInv (row : string * LocalExtraction.Bucket) : Prop :=
  LocalExtraction.bucketBounded row /\
  (fst row ∈ LocalExtraction.neverNegative -> LocalExtraction.b_negative (snd row) = []) /\
  (fst row = "AccuracyOfListing" -> LocalExtraction.b_positive (snd row) = []).

(** A detection block never feeds the aspect without a block, and a block
    with a negative branch is not one of the never-negative aspects. *)
Definition detectorInv (d : LocalExtraction.Detector) : Prop :=
  LocalExtraction.d_aspect d <> "AccuracyOfListing" /\
  (is_Some (LocalExtraction.d_negativeWord d) ->
   LocalExtraction.d_aspect d ∉ LocalExtraction.neverNegative).

(** What the scan keeps for the set of pros and for the set of cons: at
    most seven different entries, each the first 100 characters of a
    review and longer than 20 characters. *)
Definition highlightInv (reviews : list string) (set : list string) : Prop :=
  length set <= 7 /\ NoDup set /\
  Forall (fun p => 20 < String.length p <= 100 /\
                   exists r, r ∈ reviews /\ p = substring0 100 r) set.

(** A highlight as the result shows it: the first 100 characters of a
    review followed by three dots. *)
Definition highlightOf (reviews : list string) (shown : string) : Prop :=
  exists r, r ∈ reviews /\ shown = substring0 100 r +:+ "..." /\
            23 < String.length shown <= 103.

(** A record of the fallback mode carries a name, a date and a text only. *)
Definition bare (r : Review) : Prop :=
  location r = None /\ stayDetails r = None /\ rating r = None.

(** A record of the primary mode: a rating, when there is one, is at
    least 1; a date, when there is one, is a month and a year read in the
    stay details. *)
Definition primaryShape (r : Review) : Prop :=
  (forall n, rating r = Some n -> (1 <= n)%Z) /\
  (forall d, date r = Some d ->
     monthYear d /\ exists stay, stayDetails r = Some stay /\ includes stay d = true).

(** A bound on the steps a run still takes: every iteration of the loop
    uses up an attempt, every pass of the final push a pass. *)
Definition remaining (p : RunPoint) : nat :=
  match p with
  | LoopHead st _ => 10 + (maxAttempts - attempts st)
  | PushHead _ _ finalAttempt => 1 + (8 - finalAttempt)
  | Finished _ _ _ => 0
  end.


(** A source that shows the same sixty guests at every pass and signals
    the end of the reviews. *)
Definition guestElement (i : nat) : ReviewElement :=
  mkElement (Some (repeatChar (S i) "a"%char)) None None None None
            (Some "Great host and a very clean place.") None [] 0.


(** The sentence [askQuestion] answers with when something throws. *)
Definition errorAnswer (message : string) : string :=
  "Sorry, I encountered an error: " +:+ message
  +:+ ". Please make sure you have enabled the Prompt API in Chrome.".

End Pipeline.

(** * Properties *)

(** ** Numbers *)

Section DoubleFacts.

Import Double.

Local Open Scope Z_scope.

(** Rounding changes nothing on a whole number of units that is a
    double: an integer of at most 2^53 in particular. *)
Lemma round_exact (n : Z) :
  (0 <= n <= MAX_EXACT) -> round (n * 2 ^ 1074) 1 = exact n.
Proof.
  intros [Hlow Hhigh]. unfold exact.
  destruct (Z.eq_dec n 0) as [->|Hpos]; [reflexivity|].
  assert (Hn : (0 < n)) by lia.
  unfold round, roundMagnitude. cbv zeta.
  rewrite Z.abs_eq by nia. rewrite Z.div_1_r, Z.mul_1_l.
  rewrite Z.log2_mul_pow2 by lia.
  assert (Hlog : (0 <= Z.log2 n <= 53)).
  { split; [apply Z.log2_nonneg|]. change 53 with (Z.log2 MAX_EXACT).
    by apply Z.log2_le_mono. }
  set (shift := Z.max 0 (1074 + Z.log2 n + 1 - 53)).
  assert (Hshift : (0 <= shift)) by (unfold shift; lia).
  assert (Hdiv : exists k, (n * 2 ^ 1074 = k * 2 ^ shift)).
  { destruct (Z.eq_dec (Z.log2 n) 53) as [Heq|Hne].
    - assert (n = MAX_EXACT) as ->.
      { pose proof (proj1 (Z.log2_spec n Hn)) as Hspec. rewrite Heq in Hspec.
        unfold MAX_EXACT in *. lia. }
      exists (2 ^ 52). unfold shift. rewrite Heq. vm_compute. reflexivity.
    - exists (n * 2 ^ (1074 - shift)). rewrite <- Z.mul_assoc, <- Z.pow_add_r
        by (unfold shift; lia).
      do 2 f_equal. lia. }
  destruct Hdiv as [k Hk]. rewrite Hk.
  assert (Hgrid : (0 < 2 ^ shift)) by (apply Z.pow_pos_nonneg; lia).
  rewrite Z.mod_mul, Z.div_mul by lia.
  rewrite Z.mul_0_r. destruct (Z.ltb_spec (2 ^ shift) 0) as [|_]; [lia|].
  destruct (Z.eqb_spec 0 (2 ^ shift)) as [|_]; [lia|]. cbn [orb andb].
  rewrite <- Hk.
  destruct (Z.leb_spec overflow (n * 2 ^ 1074)) as [Hover|_].
  - exfalso. unfold overflow, MAX_EXACT in *.
    assert ((n * 2 ^ 1074 <= 2 ^ 53 * 2 ^ 1074)) by (apply Z.mul_le_mono_nonneg_r; lia).
    assert ((2 ^ 53 * 2 ^ 1074 < 2 ^ 2098)) by reflexivity. lia.
  - f_equal. rewrite Z.sgn_pos by nia. lia.
Qed.

(** Adding two non-negative integers is exact as long as the sum is at
    most 2^53. *)
Lemma add_exact (a b : Z) :
  (0 <= a) -> (0 <= b) -> (a + b <= MAX_EXACT) ->
  add (exact a) (exact b) = exact (a + b).
Proof.
  intros Ha Hb Hsum. unfold add, exact at 1 2.
  rewrite <- Z.mul_add_distr_r. apply round_exact. lia.
Qed.

(** The rounding at work: 2^53 + 1 is no double and the tie goes to the
    even neighbour; 0.1 + 0.2 is 0.30000000000000004, the double above
    0.3; an overflow gives infinity. *)
Example add_rounds :
  add (exact (2 ^ 53)) (exact 1) = exact (2 ^ 53) /\
  add (exact (2 ^ 53 + 2)) (exact 1) = exact (2 ^ 53 + 4) /\
  add (Finite (3602879701896397 * 2 ^ (1074 - 55)))
      (Finite (3602879701896397 * 2 ^ (1074 - 54)))
  = Finite (5404319552844596 * 2 ^ (1074 - 54)) /\
  add (Finite ((2 ^ 53 - 1) * 2 ^ 2045)) (Finite ((2 ^ 53 - 1) * 2 ^ 2045)) = PosInfinity /\
  add (Finite 3) (Finite (-3)) = zero.
Proof. vm_compute. repeat split; reflexivity. Qed.

(** [Math.round((count / total) * 100)] rounds a double that need not be
    the exact quotient. *)
Example percent_rounds :
  Analysis.samplePercent 23 40 = 57 /\ Analysis.samplePercent 29 200 = 14 /\
  Analysis.samplePercent 1 2 = 50 /\ Analysis.samplePercent 2 3 = 67 /\
  Analysis.samplePercent 0 1 = 0 /\ Analysis.samplePercent 7 7 = 100.
Proof. vm_compute. repeat split; reflexivity. Qed.

End DoubleFacts.

(** ** The merger *)

Section MergerFacts.

Import Double Merger.

Lemma init_lookup (l : list string) (m : gmap string MergedEntry) (k : string) :
  foldl (fun acc aspect => <[aspect := zeroEntry aspect]> acc) m l !! k
  = if decide (k ∈ l) then Some (zeroEntry k) else m !! k.
Proof.
  revert m. induction l as [|a l IH]; intros m; simpl.
  - destruct (decide (k ∈ [])) as [Hin|_]; [inversion Hin | reflexivity].
  - rewrite IH. destruct (decide (k ∈ l)) as [Hin|Hnin].
    + rewrite decide_True by (by right). reflexivity.
    + destruct (decide (k = a)) as [->|Hne].
      * rewrite lookup_insert_eq. rewrite decide_True by left. reflexivity.
      * rewrite lookup_insert_ne by congruence.
        rewrite decide_False; [reflexivity|].
        intros Hin. apply elem_of_cons in Hin as [?|?]; contradiction.
Qed.

Lemma initMerged_shape : tableShape initMerged.
Proof.
  intros k. unfold initMerged. rewrite init_lookup.
  destruct (decide (k ∈ requiredAspects)) as [Hin|Hnin]; split.
  - split; [intros _; exact Hin | intros _; eauto].
  - intros e [= <-]. reflexivity.
  - rewrite lookup_empty. split; [intros [? [=]] | contradiction].
  - rewrite lookup_empty. intros e [=].
Qed.

Lemma initMerged_lookup (a : string) :
  a ∈ requiredAspects -> initMerged !! a = Some (zeroEntry a).
Proof.
  intros Hin. unfold initMerged. rewrite init_lookup.
  rewrite decide_True by exact Hin. reflexivity.
Qed.

(** One item that does not throw: the table keeps its shape, the named
    aspect gains the item's counts, the other aspects do not move. *)
Lemma foldItem_clean m item :
  tableShape m -> poisoned item = false ->
  exists m', foldItem m item = Return m' /\ tableShape m' /\
    forall a e, m !! a = Some e ->
      exists e', m' !! a = Some e' /\
        e_keyword e' = e_keyword e /\
        e_positive e' = bump positive a (e_positive e) item /\
        e_negative e' = bump negative a (e_negative e) item /\
        e_total_mentions e' = bump total_mentions a (e_total_mentions e) item.
Proof.
  intros Hshape Hclean. unfold foldItem, lookupMerged.
  destruct (m !! keyword item) as [e0|] eqn:Hlook.
  - eexists; split; [reflexivity|]. split.
    + intros k. destruct (decide (k = keyword item)) as [->|Hne].
      * rewrite lookup_insert_eq. destruct (Hshape (keyword item)) as [Hdom Hkey].
        split; [split; [intros _; apply Hdom; eauto | eauto]|].
        intros e [= <-]; simpl. apply Hkey, Hlook.
      * rewrite lookup_insert_ne by congruence. apply Hshape.
    + intros a e Ha. unfold bump.
      destruct (String.eqb_spec (keyword item) a) as [<-|Hne].
      * rewrite lookup_insert_eq. rewrite Hlook in Ha. injection Ha as <-.
        eexists; split; [reflexivity|]. simpl. repeat split; reflexivity.
      * rewrite lookup_insert_ne by congruence.
        exists e. split; [exact Ha|]. repeat split; reflexivity.
  - assert (Hnot : keyword item ∉ requiredAspects).
    { intros Hin. apply (Hshape (keyword item)) in Hin as [? Hs]. congruence. }
    assert (Hsame : forall a e, m !! a = Some e ->
      exists e', m !! a = Some e' /\ e_keyword e' = e_keyword e /\
        e_positive e' = bump positive a (e_positive e) item /\
        e_negative e' = bump negative a (e_negative e) item /\
        e_total_mentions e' = bump total_mentions a (e_total_mentions e) item).
    { intros a e Ha. exists e. split; [exact Ha|]. unfold bump.
      destruct (String.eqb_spec (keyword item) a) as [<-|_]; [congruence|].
      repeat split; reflexivity. }
    unfold poisoned in Hclean.
    rewrite (bool_decide_eq_true_2 _ Hnot) in Hclean. simpl in Hclean.
    destruct (bool_decide (keyword item ∈ objectPrototypeKeys)); simpl in Hclean.
    + apply orb_false_iff in Hclean as [Hp Hn].
      apply bool_decide_eq_false in Hp. apply bool_decide_eq_false in Hn.
      destruct (is_Some_dec (positive_snippets item)); [contradiction|].
      destruct (is_Some_dec (negative_snippets item)); [contradiction|].
      exists m. auto.
    + exists m. auto.
Qed.

(** One item that throws. *)
Lemma foldItem_poisoned m item :
  tableShape m -> poisoned item = true -> foldItem m item = Throw pushOnUndefined.
Proof.
  intros Hshape Hp. unfold poisoned in Hp.
  apply andb_true_iff in Hp as [Hp Hsnip]. apply andb_true_iff in Hp as [Hnot Hproto].
  apply bool_decide_eq_true in Hnot.
  unfold foldItem, lookupMerged.
  destruct (m !! keyword item) as [e0|] eqn:Hlook.
  - exfalso. apply Hnot, (Hshape (keyword item)). eauto.
  - rewrite Hproto. apply orb_true_iff in Hsnip as [H|H]; apply bool_decide_eq_true in H.
    + destruct (is_Some_dec (positive_snippets item)); [reflexivity | contradiction].
    + destruct (is_Some_dec (positive_snippets item)); [reflexivity|].
      destruct (is_Some_dec (negative_snippets item)); [reflexivity | contradiction].
Qed.

Lemma foldItems_poisoned items : forall m,
  tableShape m -> existsb poisoned items = true ->
  foldItems m items = Throw pushOnUndefined.
Proof.
  induction items as [|item items IH]; intros m Hshape Hex; simpl in *; [discriminate|].
  destruct (poisoned item) eqn:Hp.
  - rewrite foldItem_poisoned by assumption. reflexivity.
  - destruct (foldItem_clean m item Hshape Hp) as (m' & -> & Hshape' & _).
    apply IH; assumption.
Qed.

Lemma foldItems_clean items : forall m,
  tableShape m -> existsb poisoned items = false ->
  exists m', foldItems m items = Return m' /\ tableShape m' /\
    forall a e, m !! a = Some e ->
      exists e', m' !! a = Some e' /\
        e_keyword e' = e_keyword e /\
        e_positive e' = foldl (bump positive a) (e_positive e) items /\
        e_negative e' = foldl (bump negative a) (e_negative e) items /\
        e_total_mentions e' = foldl (bump total_mentions a) (e_total_mentions e) items.
Proof.
  induction items as [|item items IH]; intros m Hshape Hex.
  - exists m. split; [reflexivity|]. split; [assumption|].
    intros a e Ha. exists e. split; [exact Ha|]. repeat split; reflexivity.
  - cbn [existsb] in Hex. cbn [foldItems].
    apply orb_false_iff in Hex as [Hp Hrest].
    destruct (foldItem_clean m item Hshape Hp) as (m1 & -> & Hshape1 & Hstep).
    destruct (IH m1 Hshape1 Hrest) as (m' & -> & Hshape' & Hrun).
    exists m'. split; [reflexivity|]. split; [assumption|].
    intros a e Ha.
    destruct (Hstep a e Ha) as (e1 & Ha1 & Hk1 & Hp1 & Hn1 & Ht1).
    destruct (Hrun a e1 Ha1) as (e' & Ha' & Hk' & Hp' & Hn' & Ht').
    exists e'. split; [exact Ha'|]. cbn [foldl].
    rewrite <- Hp1, <- Hn1, <- Ht1. repeat split; congruence.
Qed.

(** The two nested loops visit the items of the well-formed chunks in
    order. *)
Lemma foldItems_app items1 items2 m :
  foldItems m (items1 ++ items2)
  = match foldItems m items1 with
    | Return m' => foldItems m' items2
    | Throw msg => Throw msg
    end.
Proof.
  revert m. induction items1 as [|i items1 IH]; intros m; simpl; [reflexivity|].
  destruct (foldItem m i); [apply IH | reflexivity].
Qed.

Lemma foldChunks_flat chunks : forall m,
  foldChunks m chunks = foldItems m (allItems chunks).
Proof.
  induction chunks as [|[items|] chunks IH]; intros m; simpl; [reflexivity| |apply IH].
  unfold allItems; simpl. rewrite foldItems_app.
  destruct (foldItems m items); [apply IH | reflexivity].
Qed.

(** The last pass copies the table into an array, aspect by aspect. *)
Lemma finish_shape m : forall aspects,
  (forall a, a ∈ aspects -> is_Some (m !! a)) ->
  exists out, finish m aspects = Return out /\
    Forall2 (fun a e => exists d, m !! a = Some d /\ tally e = tally d) aspects out.
Proof.
  induction aspects as [|a aspects IH]; intros Hall; simpl.
  - exists []. split; [reflexivity | constructor].
  - destruct (Hall a) as [d Hd]; [left|]. rewrite Hd.
    destruct IH as (out & -> & Hout); [intros b Hb; apply Hall; by right|].
    eexists; split; [reflexivity|]. constructor; [|exact Hout].
    exists d. split; [exact Hd | reflexivity].
Qed.

Lemma allItems_perm chunks chunks' :
  chunks ≡ₚ chunks' -> allItems chunks ≡ₚ allItems chunks'.
Proof.
  unfold allItems. induction 1 as [|c l l' _ IH|c1 c2 l|l1 l2 l3 _ IH1 _ IH2]; simpl.
  - reflexivity.
  - by rewrite IH.
  - rewrite !app_assoc. f_equiv. apply Permutation_app_comm.
  - etransitivity; eassumption.
Qed.

Lemma asCount_exact n c : asCount n = Some c -> orZero n = exact c /\ (0 <= c)%Z.
Proof.
  destruct n as [[u| | |]|]; cbn [asCount orZero]; try discriminate.
  - destruct (Z.leb_spec 0 u) as [Hu|]; [|discriminate].
    destruct (Z.eqb_spec (u mod 2 ^ 1074) 0) as [Hmod|]; [|discriminate].
    cbn [andb]. intros [= <-].
    assert (Hu' : (u = u / 2 ^ 1074 * 2 ^ 1074)%Z).
    { rewrite Z.mul_comm. apply Z.div_exact; [|exact Hmod]. by apply Z.pow_nonzero. }
    split; [|apply Z.div_pos; [exact Hu | by apply Z.pow_pos_nonneg]].
    unfold exact. rewrite <- Hu'. cbn [falsy].
    destruct (Z.eqb_spec u 0) as [->|_]; reflexivity.
  - intros [= <-]. split; [reflexivity | lia].
Qed.

Lemma exactSum_cons field aspect item items :
  exactSum field aspect (item :: items)
  = ((if String.eqb (keyword item) aspect then default 0 (asCount (field item)) else 0)
     + exactSum field aspect items)%Z.
Proof. unfold exactSum. cbn [foldr]. destruct (String.eqb _ _); lia. Qed.

Lemma exactSum_nonneg field aspect items :
  Forall (fun item => is_Some (asCount (field item))) items ->
  (0 <= exactSum field aspect items)%Z.
Proof.
  induction 1 as [|item items [c Hc] _ IH]; [unfold exactSum; cbn; lia|].
  rewrite exactSum_cons. destruct (asCount_exact _ _ Hc) as [_ Hpos]. rewrite Hc.
  cbn [default from_option id]. destruct (String.eqb _ _); lia.
Qed.

Lemma exactSum_perm field aspect items items' :
  items ≡ₚ items' -> exactSum field aspect items = exactSum field aspect items'.
Proof.
  induction 1 as [|i l l' _ IH|i1 i2 l|l1 l2 l3 _ IH1 _ IH2].
  - reflexivity.
  - rewrite !exactSum_cons. lia.
  - rewrite !exactSum_cons. lia.
  - congruence.
Qed.

(** With integer counts and a sum within 2^53, the additions made one
    after the other give the exact sum. *)
Lemma bump_exact field aspect items : forall start,
  Forall (fun item => is_Some (asCount (field item))) items ->
  (0 <= start)%Z -> (start + exactSum field aspect items <= MAX_EXACT)%Z ->
  foldl (bump field aspect) (exact start) items
  = exact (start + exactSum field aspect items).
Proof.
  induction items as [|item items IH]; intros start Hall Hstart Hsum.
  - unfold exactSum. cbn. by rewrite Z.add_0_r.
  - apply Forall_cons in Hall as [[c Hc] Hall].
    pose proof (exactSum_nonneg field aspect items Hall) as Hrest.
    rewrite exactSum_cons, Hc in *. cbn [default from_option id foldl] in *.
    destruct (asCount_exact _ _ Hc) as [Hzero Hpos].
    unfold bump at 2. destruct (String.eqb (keyword item) aspect).
    + rewrite Hzero, add_exact by lia. rewrite IH by (assumption || lia).
      f_equal. lia.
    + rewrite IH by (assumption || lia). f_equal.
Qed.

Lemma safeCounts_spec items :
  safeCounts items = true ->
  (forall field, field = positive \/ field = negative \/ field = total_mentions ->
     Forall (fun item => is_Some (asCount (field item))) items) /\
  (forall aspect, aspect ∈ requiredAspects ->
     (exactSum positive aspect items <= MAX_EXACT)%Z /\
     (exactSum negative aspect items <= MAX_EXACT)%Z /\
     (exactSum total_mentions aspect items <= MAX_EXACT)%Z).
Proof.
  unfold safeCounts. intros Hsafe. apply andb_true_iff in Hsafe as [Hint Hwithin].
  rewrite forallb_forall in Hint, Hwithin. split.
  - intros field Hfield. apply Forall_forall. intros item Hitem.
    apply list_elem_of_In, Hint in Hitem. unfold integral in Hitem.
    apply andb_true_iff in Hitem as [Hitem Ht]. apply andb_true_iff in Hitem as [Hp Hn].
    apply bool_decide_eq_true in Hp, Hn, Ht.
    destruct Hfield as [->|[->| ->]]; assumption.
  - intros aspect Hin. apply list_elem_of_In, Hwithin in Hin. unfold withinExact in Hin.
    apply andb_true_iff in Hin as [Hin Ht]. apply andb_true_iff in Hin as [Hp Hn].
    apply Z.leb_le in Hp, Hn, Ht. auto.
Qed.

(** For safe counts the count of an aspect is its exact sum. *)
Lemma sumFor_exact field aspect items :
  safeCounts items = true ->
  field = positive \/ field = negative \/ field = total_mentions ->
  aspect ∈ requiredAspects ->
  sumFor field aspect items = exact (exactSum field aspect items).
Proof.
  intros Hsafe Hfield Hin. destruct (safeCounts_spec items Hsafe) as [Hint Hwithin].
  unfold sumFor. change zero with (exact 0).
  rewrite bump_exact; [reflexivity | by apply Hint | lia |].
  destruct (Hwithin aspect Hin) as (Hp & Hn & Ht).
  destruct Hfield as [->|[->| ->]]; lia.
Qed.

Lemma poisoned_perm items items' :
  items ≡ₚ items' -> existsb poisoned items = existsb poisoned items'.
Proof.
  induction 1 as [|i l l' _ IH|i1 i2 l|l1 l2 l3 _ IH1 _ IH2]; simpl.
  - reflexivity.
  - by rewrite IH.
  - destruct (poisoned i1), (poisoned i2); reflexivity.
  - congruence.
Qed.

(** What [mergeKeywordAnalysis] computes: it throws on a poisoned item,
    and otherwise returns, for the nine aspects in order, the sums of the
    counts of the items that name them. *)
Lemma mergeKeywordAnalysis_tallies chunks :
  tallies (mergeKeywordAnalysis chunks)
  = if existsb poisoned (allItems chunks) then Throw pushOnUndefined
    else Return (map (fun a => (a, sumFor positive a (allItems chunks),
                                   sumFor negative a (allItems chunks),
                                   sumFor total_mentions a (allItems chunks)))
                     requiredAspects).
Proof.
  unfold mergeKeywordAnalysis. rewrite foldChunks_flat.
  destruct (existsb poisoned (allItems chunks)) eqn:Hex.
  - rewrite (foldItems_poisoned _ _ initMerged_shape Hex). reflexivity.
  - destruct (foldItems_clean _ _ initMerged_shape Hex) as (m' & -> & Hshape & Hsum).
    assert (Hgen : forall aspects out,
      (forall a, a ∈ aspects -> a ∈ requiredAspects) ->
      Forall2 (fun a e => exists d, m' !! a = Some d /\ tally e = tally d) aspects out ->
      map tally out
      = map (fun a => (a, sumFor positive a (allItems chunks),
                          sumFor negative a (allItems chunks),
                          sumFor total_mentions a (allItems chunks))) aspects).
    { intros aspects out Hsub Hout.
      induction Hout as [|a e aspects out (d & Hd & Hte) _ IH]; [reflexivity|].
      cbn [map]. f_equal; [|apply IH; intros b Hb; apply Hsub; by right].
      assert (Hin : a ∈ requiredAspects) by (apply Hsub; left).
      destruct (Hsum a (zeroEntry a) (initMerged_lookup a Hin))
        as (e' & He' & Hk & Hp & Hn & Ht).
      rewrite Hd in He'. injection He' as <-.
      rewrite Hte. unfold tally, sumFor. rewrite Hk, Hp, Hn, Ht. reflexivity. }
    destruct (finish_shape m' requiredAspects) as (out & -> & Hout).
    { intros a Ha. by apply (Hshape a). }
    unfold tallies, fmap, outcome_fmap. f_equal.
    apply Hgen; [auto | exact Hout].
Qed.

(** Whatever [mergeKeywordAnalysis] returns lists the nine aspects, in the
    order of the enumeration. *)
Lemma mergeKeywordAnalysis_keys chunks out :
  mergeKeywordAnalysis chunks = Return out -> map e_keyword out = requiredAspects.
Proof.
  intros Hout. pose proof (mergeKeywordAnalysis_tallies chunks) as Ht.
  rewrite Hout in Ht. unfold tallies, fmap, outcome_fmap in Ht.
  destruct (existsb poisoned (allItems chunks)); [discriminate|].
  injection Ht as Ht.
  assert (Hk : map (fun t : string * Number * Number * Number => t.1.1.1) (map tally out)
               = map e_keyword out).
  { rewrite map_map. reflexivity. }
  rewrite <- Hk, Ht. reflexivity.
Qed.

(** It returns whenever no item is poisoned. *)
Lemma mergeKeywordAnalysis_returns chunks :
  existsb poisoned (allItems chunks) = false ->
  exists out, mergeKeywordAnalysis chunks = Return out /\
              map e_keyword out = requiredAspects.
Proof.
  intros Hex. pose proof (mergeKeywordAnalysis_tallies chunks) as Ht.
  rewrite Hex in Ht.
  destruct (mergeKeywordAnalysis chunks) as [out|msg] eqn:Hout; [|discriminate].
  exists out. split; [reflexivity|]. eapply mergeKeywordAnalysis_keys, Hout.
Qed.

(** Three chunks: the first two report Cleanliness (+2/-0 and +1/-1), the
    third leaves it out and names an aspect outside the enumeration. *)
Example merge_three_chunks :
  tallies (mergeKeywordAnalysis [Some chunkA; Some chunkB; Some chunkC])
  = Return (map (fun '(aspect, p, n, t) => (aspect, exact p, exact n, exact t))
                [("Cleanliness", 3, 1, 4); ("Location", 4, 0, 4);
                 ("HostCommunication", 0, 0, 0); ("ValueForMoney", 0, 0, 0);
                 ("AccuracyOfListing", 0, 0, 0); ("CheckInProcess", 0, 0, 0);
                 ("NoiseLevels", 0, 0, 0); ("Comfort", 0, 0, 0);
                 ("Amenities", 0, 0, 0)]%Z).
Proof. vm_compute. reflexivity. Qed.

(** C4. The guard [if (merged[item.keyword])] also passes for a keyword
    that names a property inherited from [Object.prototype]: on the item
    [{keyword: "constructor", ..., positive_snippets: [], negative_snippets: []}]
    the merge throws a [TypeError] and produces no aspect at all. *)
Theorem mergeKeywordAnalysis_inherited_keyword_throws :
  mergeKeywordAnalysis [Some chunkA; Some [inheritedItem]] = Throw pushOnUndefined.
Proof. vm_compute. reflexivity. Qed.

(** C10, as the code has it. The counts are doubles, added one after the
    other. When every count is a non-negative integer and the sums of
    each of the nine aspects stay within 2^53, every addition is exact:
    the result holds the exact sums, and folding the chunk results in any
    other order gives the same positive, negative and total counts for
    every aspect (and throws in the one order exactly when it throws in
    the other). *)
Theorem mergeKeywordAnalysis_counts_permutation
  (chunks chunks' : list (option (list KeywordItem))) :
  chunks ≡ₚ chunks' ->
  safeCounts (allItems chunks) = true ->
  tallies (mergeKeywordAnalysis chunks) = tallies (mergeKeywordAnalysis chunks') /\
  tallies (mergeKeywordAnalysis chunks)
  = if existsb poisoned (allItems chunks) then Throw pushOnUndefined
    else Return (map (fun a => (a, exact (exactSum positive a (allItems chunks)),
                                   exact (exactSum negative a (allItems chunks)),
                                   exact (exactSum total_mentions a (allItems chunks))))
                     requiredAspects).
Proof.
  intros Hperm Hsafe. apply allItems_perm in Hperm.
  assert (Hsafe' : safeCounts (allItems chunks') = true).
  { destruct (safeCounts_spec _ Hsafe) as [Hint Hwithin].
    unfold safeCounts. apply andb_true_iff. split; apply forallb_forall.
    - intros item Hitem. apply list_elem_of_In in Hitem. rewrite <- Hperm in Hitem.
      unfold integral. rewrite !andb_true_iff, !bool_decide_eq_true.
      pose proof (fun field H => proj1 (Forall_forall _ _) (Hint field H) item Hitem) as Hi.
      repeat split; apply Hi; auto.
    - intros aspect Hin. apply list_elem_of_In in Hin.
      unfold withinExact. rewrite !andb_true_iff, !Z.leb_le.
      rewrite <- !(exactSum_perm _ aspect _ _ Hperm).
      destruct (Hwithin aspect Hin) as (? & ? & ?). auto. }
  assert (Hsums : forall items, safeCounts items = true ->
    map (fun a => (a, sumFor positive a items, sumFor negative a items,
                      sumFor total_mentions a items)) requiredAspects
    = map (fun a => (a, exact (exactSum positive a items),
                        exact (exactSum negative a items),
                        exact (exactSum total_mentions a items))) requiredAspects).
  { intros items Hitems. apply map_ext_in. intros a Ha. apply list_elem_of_In in Ha.
    rewrite !sumFor_exact by auto. reflexivity. }
  rewrite !mergeKeywordAnalysis_tallies, !Hsums by assumption.
  rewrite (poisoned_perm _ _ Hperm). split; [|reflexivity].
  destruct (existsb poisoned (allItems chunks')); [reflexivity|].
  f_equal. apply map_ext. intros a.
  rewrite !(exactSum_perm _ a _ _ Hperm). reflexivity.
Qed.

Lemma mergeKeywordAnalysis_counts_permutation_witness :
  [Some chunkA; Some chunkB; None; Some chunkC] ≡ₚ [None; Some chunkC; Some chunkA; Some chunkB] /\
  safeCounts (allItems [Some chunkA; Some chunkB; None; Some chunkC]) = true /\
  tallies (mergeKeywordAnalysis [Some chunkA; Some chunkB; None; Some chunkC])
  = tallies (mergeKeywordAnalysis [None; Some chunkC; Some chunkA; Some chunkB]).
Proof.
  assert (Hp : [Some chunkA; Some chunkB; None; Some chunkC]
               ≡ₚ [None; Some chunkC; Some chunkA; Some chunkB]).
  { exact (Permutation_app_comm [Some chunkA; Some chunkB] [None; Some chunkC]). }
  assert (Hs : safeCounts (allItems [Some chunkA; Some chunkB; None; Some chunkC]) = true).
  { vm_compute. reflexivity. }
  split; [exact Hp|]. split; [exact Hs|].
  exact (proj1 (mergeKeywordAnalysis_counts_permutation _ _ Hp Hs)).
Defined.

(** C10, as stated, fails: the order of the chunks decides the counts
    once an addition has to round. With 2^53 mentions in one chunk and
    one in each of two others, the count is 2^53 when the large chunk
    comes first and 2^53 + 2 when it comes last; with the counts 0.1, 0.2
    and 0.3 the two orders differ in the last bit. *)
Lemma mergeKeywordAnalysis_counts_depend_on_order :
  [Some chunkHuge; Some chunkOne; Some chunkOne]
    ≡ₚ [Some chunkOne; Some chunkOne; Some chunkHuge] /\
  tallies (mergeKeywordAnalysis [Some chunkHuge; Some chunkOne; Some chunkOne])
    <> tallies (mergeKeywordAnalysis [Some chunkOne; Some chunkOne; Some chunkHuge]) /\
  sumFor positive "Cleanliness" (chunkHuge ++ chunkOne ++ chunkOne) = exact (2 ^ 53) /\
  sumFor positive "Cleanliness" (chunkOne ++ chunkOne ++ chunkHuge) = exact (2 ^ 53 + 2) /\
  [Some chunkTenth; Some chunkFifth; Some chunkThreeTenths]
    ≡ₚ [Some chunkThreeTenths; Some chunkFifth; Some chunkTenth] /\
  tallies (mergeKeywordAnalysis [Some chunkTenth; Some chunkFifth; Some chunkThreeTenths])
    <> tallies (mergeKeywordAnalysis [Some chunkThreeTenths; Some chunkFifth; Some chunkTenth]).
Proof.
  split; [exact (Permutation_app_comm [Some chunkHuge] [Some chunkOne; Some chunkOne])|].
  split; [vm_compute; discriminate|].
  split; [vm_compute; reflexivity|]. split; [vm_compute; reflexivity|].
  split; [|vm_compute; discriminate].
  etransitivity; [apply Permutation_swap|].
  etransitivity; [apply Permutation_skip, Permutation_swap|]. apply Permutation_swap.
Qed.

End MergerFacts.

(** ** The chunker *)

Section ChunkerFacts.

Import Chunker.

Lemma max_chars_eq : MAX_CHARS_PER_CHUNK = 3000.
Proof. reflexivity. Qed.

Lemma separator_length : String.length separator = 5.
Proof. reflexivity. Qed.

Lemma sizeOf_app a b : sizeOf (a ++ b) = sizeOf a + sizeOf b.
Proof. unfold sizeOf. rewrite map_app, list_sum_app. reflexivity. Qed.

Lemma overlapSize_from acc l :
  foldl (fun sum r => sum + String.length r + String.length separator) acc l
  = acc + sizeOf l.
Proof.
  revert acc. induction l as [|r l IH]; intros acc; simpl.
  - unfold sizeOf; simpl. lia.
  - rewrite IH. unfold sizeOf; simpl. lia.
Qed.

Lemma overlapSize_sizeOf l : overlapSize l = sizeOf l.
Proof. unfold overlapSize. rewrite overlapSize_from. lia. Qed.

Lemma length_append (s1 s2 : string) :
  String.length (s1 +:+ s2) = String.length s1 + String.length s2.
Proof. induction s1 as [|c s1 IH]; simpl; [reflexivity | by rewrite IH]. Qed.

Lemma join_length chunk :
  chunk <> [] -> String.length (join separator chunk) + 5 = sizeOf chunk.
Proof.
  induction chunk as [|r [|r' rest] IH]; intros Hne; [congruence| |].
  - unfold sizeOf; simpl. lia.
  - change (join separator (r :: r' :: rest))
      with (r +:+ separator +:+ join separator (r' :: rest)).
    rewrite !length_append, separator_length.
    change (sizeOf (r :: r' :: rest))
      with (String.length r + 5 + sizeOf (r' :: rest)).
    rewrite <- IH by congruence. lia.
Qed.

Lemma fits_of_size chunk : sizeOf chunk <= 3000 -> fitsChars chunk.
Proof.
  intros Hsize. unfold fitsChars. destruct chunk as [|r rest]; [simpl; lia|].
  pose proof (join_length (r :: rest)) as Hj. specialize (Hj ltac:(congruence)). lia.
Qed.

Lemma fits_single r : String.length r <= 3000 -> fitsChars [r].
Proof. intros H. unfold fitsChars. simpl. exact H. Qed.

Lemma sizeOf_bound L chunk :
  Forall (fun r => String.length r <= L) chunk -> sizeOf chunk <= length chunk * (L + 5).
Proof.
  induction 1 as [|r rest Hr _ IH]; [unfold sizeOf; simpl; lia|].
  change (sizeOf (r :: rest)) with (String.length r + 5 + sizeOf rest).
  simpl length. lia.
Qed.

Lemma tokens_of_fit chunk : fitsChars chunk -> chunkTokens chunk <= MAX_TOKENS_PER_CHUNK.
Proof.
  unfold fitsChars, chunkTokens, estimateTokens, MAX_TOKENS_PER_CHUNK. intros H.
  apply Nat.lt_succ_r. apply Nat.Div0.div_lt_upper_bound. lia.
Qed.

Section Bounded.

(** The overlap and a bound on the length of every review. Either there
    is no overlap and a review alone fits, or the overlap together with
    one more review fits. *)
Variables (chunkOverlap L : nat).
Hypothesis room :
  (chunkOverlap = 0 /\ L <= 3000) \/ (chunkOverlap + 1) * (L + 5) <= 3000.

Lemma bound_alone : L <= 3000.
Proof using room. destruct room as [[_ H]|H]; [exact H | nia]. Qed.

Lemma addReview_inv st review :
  chunkInv L st -> String.length review <= L -> chunkInv L (addReview chunkOverlap st review).
Proof using room.
  intros (Hsize & Hshort & Hfit & Hclosed) Hlen.
  pose proof bound_alone as HL.
  assert (Hone : sizeOf [review] = String.length review + 5)
    by (unfold sizeOf; simpl; lia).
  assert (Hfresh : chunkInv L (mkChunkState (chunks st ++ [currentChunk st]) [review]
                                          (0 + String.length review + 5))).
  { repeat split; cbn [chunks currentChunk currentChunkSize].
    - rewrite Hone. lia.
    - by constructor.
    - apply fits_single. lia.
    - apply Forall_app; split; [exact Hclosed | by constructor]. }
  unfold addReview. rewrite max_chars_eq, separator_length. cbv zeta.
  destruct (Nat.ltb_spec 3000 (currentChunkSize st + String.length review + 5)) as [Hover|Hroom];
    cbn [andb].
  - destruct (Nat.ltb_spec 0 (length (currentChunk st))) as [Hnonempty|Hempty].
    + destruct (Nat.ltb_spec 0 chunkOverlap) as [Hpos|Hzero]; cbn [andb];
        [|exact Hfresh].
      destruct (Nat.ltb_spec chunkOverlap (length (currentChunk st))) as [Hmore|Hfew];
        [|exact Hfresh].
      cbn [chunks currentChunk currentChunkSize].
      assert (Hov : Forall (fun r => String.length r <= L)
                           (sliceLast chunkOverlap (currentChunk st))).
      { unfold sliceLast. apply Forall_drop, Hshort. }
      assert (Hk : length (sliceLast chunkOverlap (currentChunk st)) = chunkOverlap).
      { unfold sliceLast. rewrite length_drop. lia. }
      pose proof (sizeOf_bound L _ Hov) as Hb. rewrite Hk in Hb.
      destruct room as [[Hz _]|Hroom2]; [lia|].
      assert (Hnew : sizeOf (sliceLast chunkOverlap (currentChunk st) ++ [review]) <= 3000).
      { rewrite sizeOf_app, Hone. nia. }
      split; [|split; [|split]]; cbn [chunks currentChunk currentChunkSize].
      * rewrite overlapSize_sizeOf, sizeOf_app, Hone. lia.
      * apply Forall_app; split; [exact Hov | by constructor].
      * apply fits_of_size, Hnew.
      * apply Forall_app; split; [exact Hclosed | by constructor].
    + assert (Hnil : currentChunk st = [])
        by (destruct (currentChunk st); simpl in *; [reflexivity | lia]).
      split; [|split; [|split]]; cbn [chunks currentChunk currentChunkSize];
        rewrite ?Hnil in *; cbn [app].
      * rewrite Hsize, Hone. unfold sizeOf; simpl. lia.
      * by constructor.
      * apply fits_single. lia.
      * exact Hclosed.
  - split; [|split; [|split]]; cbn [chunks currentChunk currentChunkSize].
    + rewrite sizeOf_app, Hsize, Hone. lia.
    + apply Forall_app; split; [exact Hshort | by constructor].
    + apply fits_of_size. rewrite sizeOf_app, Hone. lia.
    + exact Hclosed.
Qed.

Lemma foldl_addReview_inv reviews : forall st,
  chunkInv L st -> Forall (fun r => String.length r <= L) reviews ->
  chunkInv L (foldl (addReview chunkOverlap) st reviews).
Proof using room.
  induction reviews as [|r reviews IH]; intros st Hinv Hall; simpl; [exact Hinv|].
  inversion Hall; subst. apply IH; [apply addReview_inv|]; assumption.
Qed.

(** With room for the overlap, every chunk stays within the 750 tokens. *)
Lemma createOptimizedChunks_within_ceiling reviews :
  Forall (fun r => String.length r <= L) reviews ->
  Forall (fun chunk => chunkTokens chunk <= MAX_TOKENS_PER_CHUNK)
         (createOptimizedChunks reviews chunkOverlap).
Proof using room.
  intros Hall. unfold createOptimizedChunks.
  assert (Hinit : chunkInv L (mkChunkState [] [] 0)).
  { repeat split; try constructor. unfold fitsChars; simpl. lia. }
  destruct (foldl_addReview_inv reviews _ Hinit Hall) as (_ & _ & Hfit & Hclosed).
  assert (Hdone : Forall fitsChars
            (chunks (foldl (addReview chunkOverlap) (mkChunkState [] [] 0) reviews))).
  { exact Hclosed. }
  destruct (0 <? length _).
  - apply Forall_app; split.
    + eapply Forall_impl; [exact Hdone | intros c; apply tokens_of_fit].
    + constructor; [apply tokens_of_fit, Hfit | constructor].
  - eapply Forall_impl; [exact Hdone | intros c; apply tokens_of_fit].
Qed.

End Bounded.

(** Without overlap, reviews that fit alone give chunks that fit. *)
Lemma createOptimizedChunks_no_overlap reviews :
  Forall (fun r => estimateTokens r <= MAX_TOKENS_PER_CHUNK) reviews ->
  Forall (fun chunk => chunkTokens chunk <= MAX_TOKENS_PER_CHUNK)
         (createOptimizedChunks reviews 0).
Proof.
  intros Hall. apply (createOptimizedChunks_within_ceiling 0 3000); [left; lia|].
  eapply Forall_impl; [exact Hall|]. intros r Hr.
  unfold estimateTokens, MAX_TOKENS_PER_CHUNK in Hr.
  destruct (Nat.le_gt_cases (String.length r) 3000) as [Hle|Hgt]; [exact Hle|].
  exfalso. assert (751 <= (String.length r + 3) / 4); [|lia].
  apply Nat.div_le_lower_bound; lia.
Qed.

(** With the default overlap of one review, the reviews that
    [truncateReview] produces (at most 503 characters) give chunks that
    fit. *)
Lemma createOptimizedChunks_truncated reviews :
  Forall (fun r => String.length r <= 503) reviews ->
  Forall (fun chunk => chunkTokens chunk <= MAX_TOKENS_PER_CHUNK)
         (createOptimizedChunks reviews 1).
Proof. apply (createOptimizedChunks_within_ceiling 1 503). right. lia. Qed.

(** C3. With the default overlap the ceiling is not kept for every list of
    reviews that fit alone: on reviews of 10, 2000 and 2000 characters
    (3, 500 and 500 tokens) the second chunk is seeded with the first
    long review and then takes the second one without a new check; it
    holds 4005 characters, 1002 tokens. *)
Theorem createOptimizedChunks_overlap_exceeds_ceiling :
  forallb (fun r => estimateTokens r <=? MAX_TOKENS_PER_CHUNK)
          [shortText; longTextB; longTextC] = true /\
  createOptimizedChunks [shortText; longTextB; longTextC] 1
  = [[shortText; longTextB]; [longTextB; longTextC]] /\
  chunkTokens [longTextB; longTextC] = 1002 /\
  (chunkTokens [longTextB; longTextC] <=? MAX_TOKENS_PER_CHUNK) = false.
Proof. vm_compute. repeat split. Qed.

End ChunkerFacts.

(** ** The record extractor *)

Section ExtractorFacts.

Import Extractor.

(** *** Retention *)

Lemma substantial_truthy t : substantial t = true -> truthyStr t = true.
Proof.
  destruct t as [s|]; simpl; [|discriminate].
  intros H. apply andb_true_iff in H as [H _]. exact H.
Qed.

Lemma processElement_retained (all : list ReviewElement) reviews e :
  e ∈ all ->
  Forall (fun r => exists e', e' ∈ all /\ retainedFrom e' r) reviews ->
  Forall (fun r => exists e', e' ∈ all /\ retainedFrom e' r) (processElement reviews e).
Proof.
  intros Hin Hall. unfold processElement, retain.
  destruct (100 <=? length reviews); [exact Hall|].
  destruct (length reviews <? 100); [|exact Hall].
  destruct (truthyStr (name (buildReview e))) eqn:Hn,
           (truthyStr (text (buildReview e))) eqn:Ht; cbn [andb].
  - apply Forall_app; split; [exact Hall|]. apply Forall_singleton.
    exists e. split; [exact Hin|]. split; [exact Ht|]. left. by split.
  - destruct (substantial (text (buildReview e))) eqn:Hs; [|exact Hall].
    apply substantial_truthy in Hs. congruence.
  - destruct (substantial (text (buildReview e))) eqn:Hs; [|exact Hall].
    apply Forall_app; split; [exact Hall|]. apply Forall_singleton.
    exists e. split; [exact Hin|]. split; [exact Ht|]. right. by repeat split.
  - destruct (substantial (text (buildReview e))) eqn:Hs; [|exact Hall].
    apply substantial_truthy in Hs. congruence.
Qed.

Lemma primary_retained (all : list ReviewElement) elements : forall reviews,
  (forall e, e ∈ elements -> e ∈ all) ->
  Forall (fun r => exists e, e ∈ all /\ retainedFrom e r) reviews ->
  Forall (fun r => exists e, e ∈ all /\ retainedFrom e r)
         (foldl processElement reviews elements).
Proof.
  induction elements as [|e elements IH]; intros reviews Hsub Hall; [exact Hall|].
  cbn [foldl]. apply IH; [intros e' He'; apply Hsub; by right|].
  apply processElement_retained; [apply Hsub; by left | exact Hall].
Qed.

Lemma fallback_nameOrText (all : list FallbackElement) elements : forall reviews,
  (forall e, e ∈ elements -> e ∈ all) ->
  Forall (fun r => exists e, e ∈ all /\ r = buildFallbackReview e /\ nameOrText r) reviews ->
  Forall (fun r => exists e, e ∈ all /\ r = buildFallbackReview e /\ nameOrText r)
         (foldl processFallback reviews elements).
Proof.
  induction elements as [|e elements IH]; intros reviews Hsub Hall; [exact Hall|].
  cbn [foldl]. apply IH; [intros e' He'; apply Hsub; by right|].
  unfold processFallback.
  destruct (100 <=? length reviews); [exact Hall|].
  destruct (truthyStr (name (buildFallbackReview e))
            || truthyStr (text (buildFallbackReview e))) eqn:Hkeep; [|exact Hall].
  apply Forall_app; split; [exact Hall|]. apply Forall_singleton.
  exists e. split; [apply Hsub; by left|]. split; [reflexivity|].
  apply orb_true_iff in Hkeep. exact Hkeep.
Qed.

(** C7, as the code has it. In primary mode every record of a pass comes
    from a review element with a non-empty text: from an element with a
    non-empty name, as it was built; or from an element without a name
    whose text has more than 20 characters, under the name Anonymous. In
    fallback mode a record is the one built from a generic block and
    needs a non-empty name or a non-empty text, so a record with a name
    and no text is kept. *)
Theorem extractReviewsFromDOM_retention (doc : Document) :
  Forall (fun r =>
            if primaryMode doc
            then exists e, e ∈ reviewElements doc /\ retainedFrom e r
            else exists e, e ∈ fallbackElements doc /\
                           r = buildFallbackReview e /\ nameOrText r)
         (extractReviewsFromDOM doc).
Proof.
  unfold extractReviewsFromDOM, primaryMode.
  destruct (0 <? length (reviewElements doc)).
  - apply primary_retained; [auto | constructor].
  - apply fallback_nameOrText; [auto | constructor].
Qed.

(** C7, as stated, fails in fallback mode: a generic block with a name and
    no text gives a record without text, which the stated rule does not
    admit. *)
Lemma extractReviewsFromDOM_fallback_keeps_name_only :
  extractReviewsFromDOM (mkDocument [] [nameOnlyBlock])
  = [mkReview (Some "Bob") None None None None None] /\
  ~ Forall statedRetention (extractReviewsFromDOM (mkDocument [] [nameOnlyBlock])).
Proof.
  split; [reflexivity|].
  intros H. inversion H as [|r l [Htext _] _]; subst. discriminate Htext.
Qed.

(** In primary mode the rule of the code gives the stated one, and shows
    the sentinel: a record under a name that is not its element's own is
    named Anonymous and has a text of more than 20 characters. *)
Lemma retainedFrom_stated e r :
  retainedFrom e r ->
  statedRetention r /\
  (name r <> name (buildReview e) ->
   name r = Some "Anonymous" /\
   exists t, text r = Some t /\ 20 < String.length t).
Proof.
  intros (Htext & [[Hname ->] | (Hname & Hsub & ->)]).
  - split; [split; [exact Htext | by left]|]. congruence.
  - split; [split; [exact Htext | by right]|]. intros _. split; [reflexivity|].
    cbn [text withName]. unfold substantial in Hsub.
    destruct (text (buildReview e)) as [t|]; [|discriminate].
    apply andb_true_iff in Hsub as [_ Hlen]. apply Nat.ltb_lt in Hlen. by exists t.
Qed.

(** *** The rating *)

Lemma suffixOf_refl s : suffixOf s s.
Proof. exists EmptyString. reflexivity. Qed.

Lemma suffixOf_cons c s' s : suffixOf s' s -> suffixOf s' (String c s).
Proof. intros [pre ->]. exists (String c pre). reflexivity. Qed.

Lemma suffixOf_trans s1 s2 s3 : suffixOf s1 s2 -> suffixOf s2 s3 -> suffixOf s1 s3.
Proof.
  intros [p1 ->] [p2 ->]. exists (p2 +:+ p1).
  induction p2 as [|c p2 IH]; [reflexivity|].
  change (String c (p2 +:+ p1 +:+ s1) = String c ((p2 +:+ p1) +:+ s1)).
  f_equal. exact IH.
Qed.

Lemma dropWhile_suffix p s : suffixOf (dropWhile p s) s.
Proof.
  induction s as [|c s IH]; simpl; [apply suffixOf_refl|].
  destruct (p c); [apply suffixOf_cons, IH | apply suffixOf_refl].
Qed.

Lemma dropChars_suffix n : forall s, suffixOf (dropChars n s) s.
Proof.
  induction n as [|n IH]; intros s; [destruct s; apply suffixOf_refl|].
  destruct s as [|c s]; simpl; [apply suffixOf_refl | apply suffixOf_cons, IH].
Qed.

Lemma includes_suffix sub s' s :
  String.prefix sub s' = true -> suffixOf s' s -> includes s sub = true.
Proof.
  intros Hpre [pre ->]. induction pre as [|c pre IH].
  - change (includes s' sub = true).
    destruct s'; cbn [includes]; rewrite Hpre; reflexivity.
  - change (includes (String c (pre +:+ s')) sub = true).
    cbn [includes]. rewrite IH. apply orb_true_r.
Qed.

Lemma matchRating_at t ds :
  matchRating t = Some ds -> exists s', suffixOf s' t /\ matchRatingAt s' = Some ds.
Proof.
  induction t as [|c t IH]; cbn [matchRating].
  - destruct (matchRatingAt EmptyString) eqn:H; [|discriminate].
    intros [= <-]. exists EmptyString. split; [apply suffixOf_refl | exact H].
  - destruct (matchRatingAt (String c t)) eqn:H.
    + intros [= <-]. exists (String c t). split; [apply suffixOf_refl | exact H].
    + intros Hrest. destruct (IH Hrest) as (s' & Hs & Hm).
      exists s'. split; [apply suffixOf_cons, Hs | exact Hm].
Qed.

Lemma takeWhile_all p s : allChars p (takeWhile p s) = true.
Proof.
  induction s as [|c s IH]; simpl; [reflexivity|].
  destruct (p c) eqn:Hp; simpl; [rewrite Hp; exact IH | reflexivity].
Qed.

(** A match of the cue lies in a text that includes both of the strings
    the loop tests for first, and captures a run of digits. *)
Lemma matchRating_sound t ds :
  matchRating t = Some ds ->
  negb (String.eqb t EmptyString) && includes t "Rating," && includes t "star" = true
  /\ allChars isDigit ds = true.
Proof.
  intros Hm. destruct (matchRating_at t ds Hm) as (s' & Hsuf & Hat).
  unfold matchRatingAt in Hat.
  destruct (String.prefix "Rating," s') eqn:Hpre; [|discriminate].
  destruct (String.eqb (takeWhile isDigit (dropWhile isSpace (dropChars 7 s'))) EmptyString);
    [discriminate|].
  destruct (String.prefix "star" _) eqn:Hstar; [|discriminate].
  injection Hat as <-. split; [|apply takeWhile_all].
  rewrite (includes_suffix _ _ _ Hpre Hsuf).
  rewrite (includes_suffix "star" _ t Hstar).
  - destruct t; [discriminate Hm | reflexivity].
  - eapply suffixOf_trans; [apply dropWhile_suffix|].
    eapply suffixOf_trans; [apply dropWhile_suffix|].
    eapply suffixOf_trans; [apply dropWhile_suffix|].
    eapply suffixOf_trans; [apply dropChars_suffix | exact Hsuf].
Qed.

Lemma isDigit_value c : isDigit c = true -> (0 <= digitValue c)%Z.
Proof.
  unfold isDigit, digitValue. intros H. apply andb_true_iff in H as [H _].
  apply Nat.leb_le in H. lia.
Qed.

Lemma parseDigits_nonneg ds : forall acc,
  allChars isDigit ds = true -> (0 <= acc)%Z -> (0 <= parseDigits acc ds)%Z.
Proof.
  induction ds as [|c ds IH]; intros acc Hall Hacc; simpl in *; [exact Hacc|].
  apply andb_true_iff in Hall as [Hc Hrest]. apply IH; [exact Hrest|].
  pose proof (isDigit_value c Hc). lia.
Qed.

(** Method 1 finds the first cue, and a cue is never negative. *)
Lemma ratingFromSpans_firstCue spanTexts :
  ratingFromSpans spanTexts = default 0%Z (firstCue spanTexts) /\
  (forall n, firstCue spanTexts = Some n -> (0 <= n)%Z).
Proof.
  induction spanTexts as [|t rest [IH1 IH2]]; simpl; [split; [reflexivity | discriminate]|].
  destruct (matchRating t) as [ds|] eqn:Hm.
  - destruct (matchRating_sound t ds Hm) as [Hguard Hdigits]. rewrite Hguard.
    split; [reflexivity|]. intros n [= <-].
    apply parseDigits_nonneg; [exact Hdigits | lia].
  - split; [|exact IH2].
    destruct (negb (String.eqb t EmptyString) && includes t "Rating," && includes t "star");
      exact IH1.
Qed.

Ltac split_tests :=
  repeat (cbn [andb];
          match goal with
          | |- context [(?a =? ?b)%Z] => destruct (Z.eqb_spec a b)
          | |- context [(?a <? ?b)%Z] => destruct (Z.ltb_spec a b)
          | |- context [substantial ?t] => destruct (substantial t)
          end);
  cbn [andb]; first [reflexivity | lia | congruence].

Lemma resolve_codeCascade e reviewText :
  ratingOf (resolveStarCount e reviewText)
  = codeCascade (firstCue (spans e)) (starSvgs e) reviewText.
Proof.
  unfold resolveStarCount, codeCascade, statedCascade, ratingOf, plausibleGlyphs.
  cbv zeta.
  destruct (ratingFromSpans_firstCue (spans e)) as [Heq Hnonneg].
  destruct (firstCue (spans e)) as [n|]; simpl in Heq; rewrite Heq.
  - specialize (Hnonneg n eq_refl).
    destruct ((0 <? starSvgs e) && (starSvgs e <=? 5)) eqn:Hg.
    + apply andb_true_iff in Hg as [Hpos _]. apply Nat.ltb_lt in Hpos. split_tests.
    + split_tests.
  - destruct ((0 <? starSvgs e) && (starSvgs e <=? 5)) eqn:Hg.
    + apply andb_true_iff in Hg as [Hpos _]. apply Nat.ltb_lt in Hpos. split_tests.
    + split_tests.
Qed.

(** C8, as the code has it. The rating of a record is the number of the
    first rating cue when that number is at least 1; otherwise (no cue,
    or a cue of 0 stars) the number of rating glyphs when it is between
    1 and 5; otherwise 5 when the text has more than 20 characters;
    otherwise the record has no rating. *)
Theorem rating_cascade (e : ReviewElement) :
  rating (buildReview e)
  = codeCascade (firstCue (spans e)) (starSvgs e) (text (buildReview e)).
Proof. unfold buildReview; cbn [rating text]. apply resolve_codeCascade. Qed.

(** C8, as stated, fails on a cue of 0 stars: the cue is present and
    parses to 0, and the rating is the glyph count 3. *)
Lemma rating_cascade_zero_cue :
  firstCue (spans zeroStarElement) = Some 0%Z /\
  rating (buildReview zeroStarElement) = Some 3%Z /\
  rating (buildReview zeroStarElement)
  <> statedCascade (firstCue (spans zeroStarElement)) (starSvgs zeroStarElement)
                   (text (buildReview zeroStarElement)).
Proof. vm_compute. repeat split; discriminate. Qed.

End ExtractorFacts.

(** ** The collector *)

Section CollectorFacts.

Import Extractor Collector.

Variable src : Source.

(** *** The accumulated set *)

Lemma isDuplicate_false all review :
  isDuplicate all review = false -> identity review ∉ map identity all.
Proof.
  intros Hdup Hin. apply list_elem_of_In, in_map_iff in Hin as (existing & Hid & Hin).
  assert (Htrue : isDuplicate all review = true); [|congruence].
  apply existsb_exists. exists existing. split; [exact Hin|].
  unfold identity in Hid. injection Hid as Hn Ht.
  rewrite !bool_decide_eq_true_2 by assumption. reflexivity.
Qed.

Lemma unique_snoc all review :
  uniqueSet all -> isDuplicate all review = false -> uniqueSet (all ++ [review]).
Proof.
  intros Huniq Hdup. unfold uniqueSet. rewrite map_app. apply NoDup_app.
  split; [exact Huniq|]. split; [|apply NoDup_singleton].
  intros x Hx Hx'. apply list_elem_of_singleton in Hx'. subst x.
  exact (isDuplicate_false _ _ Hdup Hx).
Qed.

Lemma addIfNew_grows all review :
  uniqueSet all -> uniqueSet (addIfNew all review) /\ all `prefix_of` addIfNew all review.
Proof.
  intros Huniq. unfold addIfNew.
  destruct (isDuplicate all review) eqn:Hdup; cbn [negb andb]; [by split|].
  destruct (truthyStr (name review) && truthyStr (text review)); [|by split].
  split; [apply unique_snoc; assumption | by apply prefix_app_r].
Qed.

Lemma addIfNewBelow95_grows all review :
  uniqueSet all ->
  uniqueSet (addIfNewBelow95 all review) /\ all `prefix_of` addIfNewBelow95 all review.
Proof.
  intros Huniq. unfold addIfNewBelow95.
  destruct (isDuplicate all review) eqn:Hdup; cbn [negb andb]; [by split|].
  destruct (truthyStr (name review) && truthyStr (text review) && (length all <? 95));
    [|by split].
  split; [apply unique_snoc; assumption | by apply prefix_app_r].
Qed.

Lemma merge_grows (add : list Review -> Review -> list Review) :
  (forall all review, uniqueSet all ->
     uniqueSet (add all review) /\ all `prefix_of` add all review) ->
  forall current all, uniqueSet all ->
    uniqueSet (foldl add all current) /\ all `prefix_of` foldl add all current.
Proof.
  intros Hadd. induction current as [|review current IH]; intros all Huniq; simpl.
  - by split.
  - destruct (Hadd all review Huniq) as [Hu Hp].
    destruct (IH _ Hu) as [Hu' Hp']. split; [exact Hu'|]. by etransitivity.
Qed.

Lemma mergeNew_grows all current :
  uniqueSet all -> uniqueSet (mergeNew all current) /\ all `prefix_of` mergeNew all current.
Proof. apply merge_grows, addIfNew_grows. Qed.

Lemma mergeFinal_grows all current :
  uniqueSet all -> uniqueSet (mergeFinal all current) /\ all `prefix_of` mergeFinal all current.
Proof. apply merge_grows, addIfNewBelow95_grows. Qed.

Lemma loopBody_all st :
  allReviews (stateOf (loopBody src st))
  = mergeNew (allReviews st) (extractReviewsFromDOM (domAt src (S (attempts st)))).
Proof.
  unfold loopBody. cbv zeta.
  repeat match goal with |- context [if ?c then _ else _] => destruct c end; reflexivity.
Qed.

Lemma loopBody_attempts st : attempts (stateOf (loopBody src st)) = S (attempts st).
Proof.
  unfold loopBody. cbv zeta.
  repeat match goal with |- context [if ?c then _ else _] => destruct c end; reflexivity.
Qed.

Lemma finalBody_all st k :
  allReviews (stateOf (finalBody src st k))
  = mergeFinal (allReviews st) (extractReviewsFromDOM (domAt src (attempts st + 1 + k))).
Proof.
  unfold finalBody. cbv zeta.
  repeat match goal with |- context [if ?c then _ else _] => destruct c end; reflexivity.
Qed.

Lemma finalBody_attempts st k : attempts (stateOf (finalBody src st k)) = attempts st.
Proof.
  unfold finalBody. cbv zeta.
  repeat match goal with |- context [if ?c then _ else _] => destruct c end; reflexivity.
Qed.

Lemma afterLoop_state st n : stateAt (afterLoop st n) = st.
Proof. unfold afterLoop. destruct (_ && _); reflexivity. Qed.

(** The set a step leaves behind is the set it found, or a merge into it. *)
Lemma step_all p :
  allReviews (stateAt (step src p)) = allReviews (stateAt p) \/
  exists current,
    allReviews (stateAt (step src p)) = mergeNew (allReviews (stateAt p)) current \/
    allReviews (stateAt (step src p)) = mergeFinal (allReviews (stateAt p)) current.
Proof.
  destruct p as [st n|st n k|st n k]; cbn [step stateAt].
  - destruct (loopGuard st); [|left; by rewrite afterLoop_state].
    right. exists (extractReviewsFromDOM (domAt src (S (attempts st)))). left.
    rewrite <- loopBody_all.
    destruct (loopBody src st); cbn [stateOf stateAt]; [reflexivity|].
    by rewrite afterLoop_state.
  - destruct (finalGuard st k); [|by left].
    right. exists (extractReviewsFromDOM (domAt src (attempts st + 1 + k))). right.
    rewrite <- finalBody_all.
    destruct (finalBody src st k); reflexivity.
  - by left.
Qed.

Lemma step_grows p :
  uniqueSet (allReviews (stateAt p)) ->
  uniqueSet (allReviews (stateAt (step src p))) /\
  allReviews (stateAt p) `prefix_of` allReviews (stateAt (step src p)).
Proof.
  intros Huniq. destruct (step_all p) as [->|(current & [->| ->])].
  - by split.
  - by apply mergeNew_grows.
  - by apply mergeFinal_grows.
Qed.

Lemma reachable_unique p : Reachable src p -> uniqueSet (allReviews (stateAt p)).
Proof.
  induction 1 as [|p _ IH]; [apply NoDup_nil_2|]. by apply step_grows.
Qed.

(** C5. At every point of a collection run the accumulated set holds no
    two records with the same name and the same text, and the next
    iteration or final-push pass leaves the records it found in place
    and only appends: the set it had is a prefix of the set it leaves, so
    its size does not decrease. *)
Theorem accumulated_set_unique_and_growing (p : RunPoint) :
  Reachable src p ->
  NoDup (map identity (allReviews (stateAt p))) /\
  allReviews (stateAt p) `prefix_of` allReviews (stateAt (step src p)) /\
  length (allReviews (stateAt p)) <= length (allReviews (stateAt (step src p))).
Proof.
  intros Hreach. pose proof (reachable_unique p Hreach) as Huniq.
  destruct (step_grows p Huniq) as [_ Hprefix].
  split; [exact Huniq|]. split; [exact Hprefix | by apply prefix_length].
Qed.

(** *** Termination *)

(** From the head of the final push, with [d] passes left in its budget. *)
Lemma push_terminates d : forall st n k fuel,
  k + d = 8 -> d + 1 <= fuel ->
  exists out, run fuel src (PushHead st n k) = Some out /\
    loopIterations out = n /\ attemptsMade out = attempts st /\
    finalPushPasses out <= 8.
Proof.
  induction d as [|d IH]; intros st n k fuel Hk Hfuel;
    (destruct fuel as [|fuel]; [lia|]); cbn [run step].
  - unfold finalGuard. replace (k <? 8) with false by (symmetry; apply Nat.ltb_ge; lia).
    cbn [andb]. destruct fuel; cbn [run]; eexists; (split; [reflexivity|]);
      cbn; repeat split; lia.
  - destruct (finalGuard st k).
    + pose proof (finalBody_attempts st k) as Hatt.
      destruct (finalBody src st k) as [st'|st']; cbn [stateOf] in Hatt.
      * destruct (IH st' n (S k) fuel) as (out & Hrun & Hn & Ha & Hpasses); [lia | lia|].
        exists out. repeat split; [exact Hrun | exact Hn | congruence | exact Hpasses].
      * destruct fuel; cbn [run]; eexists; (split; [reflexivity|]);
          cbn; repeat split; lia.
    + destruct fuel; cbn [run]; eexists; (split; [reflexivity|]);
        cbn; repeat split; lia.
Qed.

Lemma afterLoop_terminates st n fuel :
  9 <= fuel ->
  exists out, run fuel src (afterLoop st n) = Some out /\
    loopIterations out = n /\ attemptsMade out = attempts st /\
    finalPushPasses out <= 8.
Proof.
  intros Hfuel. unfold afterLoop. destruct (_ && _).
  - apply (push_terminates 8); lia.
  - destruct fuel; cbn [run]; eexists; (split; [reflexivity|]); cbn; repeat split; lia.
Qed.

(** From the head of the [while] loop, with [d] attempts left in its
    budget; the attempt counter has counted the iterations so far. *)
Lemma loop_terminates d : forall st fuel,
  attempts st + d = maxAttempts -> d + 10 <= fuel ->
  exists out, run fuel src (LoopHead st (attempts st)) = Some out /\
    loopIterations out <= maxAttempts /\ attemptsMade out = loopIterations out /\
    finalPushPasses out <= 8.
Proof.
  unfold maxAttempts.
  induction d as [|d IH]; intros st fuel Hbudget Hfuel;
    (destruct fuel as [|fuel]; [lia|]); cbn [run step].
  - unfold loopGuard, maxAttempts.
    replace (attempts st <? 30) with false by (symmetry; apply Nat.ltb_ge; lia).
    rewrite andb_false_r. cbn [andb].
    destruct (afterLoop_terminates st (attempts st) fuel) as (out & Hrun & Hn & Ha & Hp); [lia|].
    exists out. repeat split; [exact Hrun | lia | lia | exact Hp].
  - destruct (loopGuard st).
    + pose proof (loopBody_attempts st) as Hatt.
      destruct (loopBody src st) as [st'|st']; cbn [stateOf] in Hatt.
      * rewrite <- Hatt. apply IH; lia.
      * destruct (afterLoop_terminates st' (S (attempts st)) fuel)
          as (out & Hrun & Hn & Ha & Hp); [lia|].
        exists out. repeat split; [exact Hrun | lia | lia | exact Hp].
    + destruct (afterLoop_terminates st (attempts st) fuel) as (out & Hrun & Hn & Ha & Hp); [lia|].
      exists out. repeat split; [exact Hrun | lia | lia | exact Hp].
Qed.

(** C2. Whatever the document shows, a collection run ends: the [while]
    loop makes at most 30 iterations, the attempt counter counting each
    of them once, and at most 8 final-push passes follow. *)
Theorem collector_terminates (fuel : nat) :
  40 <= fuel ->
  exists out, collectReviewsWithScrolling fuel src = Some out /\
    loopIterations out <= 30 /\ attemptsMade out = loopIterations out /\
    finalPushPasses out <= 8.
Proof.
  intros Hfuel. unfold collectReviewsWithScrolling.
  apply (loop_terminates 30 initial fuel); [reflexivity | lia].
Qed.

(** The guard of the [while] loop fails once the counter reaches 30, and
    an iteration adds exactly one to it. *)
Lemma attempts_bound_guard st : loopGuard st = true -> attempts st < 30.
Proof.
  unfold loopGuard, maxAttempts. intros H.
  apply andb_true_iff in H as [H _]. apply andb_true_iff in H as [_ H].
  by apply Nat.ltb_lt.
Qed.

(** A document that keeps showing the same three elements, two of them
    equal: two records after the first pass, then ten passes without
    progress, and no final push. *)
Example collect_repeating_source :
  option_map (fun out => (length (result out), attemptsMade out, finalPushPasses out))
             (collectReviewsWithScrolling 40 repeatingSource)
  = Some (2, 11, 0).
Proof. vm_compute. reflexivity. Qed.

(** A document without reviews: the no-progress budget ends the loop
    after ten attempts. *)
Example collect_barren_source :
  option_map (fun out => (result out, attemptsMade out, finalPushPasses out))
             (collectReviewsWithScrolling 40 barrenSource)
  = Some ([], 10, 0).
Proof. vm_compute. reflexivity. Qed.

(** What a run returns consists of distinct records. *)
Lemma run_reaches fuel : forall p out,
  Reachable src p -> run fuel src p = Some out ->
  exists st, Reachable src (Finished st (loopIterations out) (finalPushPasses out)) /\
             result out = take 100 (allReviews st).
Proof.
  induction fuel as [|fuel IH]; intros p out Hreach Hrun.
  - destruct p; try discriminate. injection Hrun as <-. eexists; split; [exact Hreach | reflexivity].
  - destruct p as [st n|st n k|st n k].
    + apply (IH _ _ (reach_step src _ Hreach) Hrun).
    + apply (IH _ _ (reach_step src _ Hreach) Hrun).
    + injection Hrun as <-. eexists; split; [exact Hreach | reflexivity].
Qed.

Lemma collected_result_unique fuel out :
  collectReviewsWithScrolling fuel src = Some out -> NoDup (map identity (result out)).
Proof.
  intros Hrun. destruct (run_reaches fuel _ out (reach_start src) Hrun) as (st & Hreach & ->).
  pose proof (reachable_unique _ Hreach) as Huniq. cbn [stateAt] in Huniq.
  unfold uniqueSet in Huniq. rewrite <- (take_drop 100 (allReviews st)), map_app in Huniq.
  by apply NoDup_app in Huniq as [? _].
Qed.

End CollectorFacts.

Lemma accumulated_set_unique_and_growing_witness :
  Collector.Reachable Collector.repeatingSource
    (Collector.step Collector.repeatingSource (Collector.LoopHead Collector.initial 0)) /\
  length (Collector.allReviews (Collector.stateAt
            (Collector.step Collector.repeatingSource (Collector.LoopHead Collector.initial 0))))
  = 2 /\
  NoDup (map Collector.identity
           (Collector.allReviews (Collector.stateAt
              (Collector.step Collector.repeatingSource
                 (Collector.LoopHead Collector.initial 0))))).
Proof.
  assert (Hreach : Collector.Reachable Collector.repeatingSource
            (Collector.step Collector.repeatingSource (Collector.LoopHead Collector.initial 0))).
  { apply Collector.reach_step, Collector.reach_start. }
  split; [exact Hreach|]. split; [vm_compute; reflexivity|].
  exact (proj1 (accumulated_set_unique_and_growing Collector.repeatingSource _ Hreach)).
Defined.

Lemma collector_terminates_witness :
  40 <= 40 /\
  exists out, Collector.collectReviewsWithScrolling 40 Collector.barrenSource = Some out /\
    Collector.loopIterations out <= 30 /\
    Collector.attemptsMade out = Collector.loopIterations out /\
    Collector.finalPushPasses out <= 8.
Proof.
  split; [lia|]. apply (collector_terminates Collector.barrenSource 40). lia.
Defined.

(** ** The analysis entry points *)

Section AnalysisFacts.

Import Chunker Analysis.

Variable roundPercent : nat -> nat -> Z.
Variable promptText : string -> string -> string.

(** *** No reviews *)

(** C6, as the code has it. Without reviews ([null], [undefined] or an
    empty list) [askQuestion] returns the sentence that no reviews are
    available, and [analyzeReviews] throws the error "No reviews to
    analyze" to its caller. *)
Theorem no_reviews_behaviour
  (env : AiEnv) (isAnalyzing : bool)
  (penv : PromptEnv) (reviewCache : option (list CachedReview)) (question : string) :
  askQuestion promptText penv reviewCache None question = noReviewsAnswer /\
  askQuestion promptText penv reviewCache (Some []) question = noReviewsAnswer /\
  analyzeReviews roundPercent env isAnalyzing None = Throw "No reviews to analyze" /\
  analyzeReviews roundPercent env isAnalyzing (Some []) = Throw "No reviews to analyze".
Proof. repeat split; reflexivity. Qed.

(** *** Every batch fails *)






(** *** Questions *)

Lemma searchBatches_none env question cache starts :
  (forall b p, exists r, prompt env b p = Return r /\ includes r notFoundMarker = true) ->
  searchBatches promptText env question cache starts = Return None.
Proof.
  intros Hnone. induction starts as [|s rest IH]; cbn [searchBatches]; [reflexivity|].
  cbv zeta. destruct (_ <? _)%Z; [reflexivity|].
  destruct (Hnone (s / 10 + 1)
              (promptText question (join separator (map c_text (take 10 (drop s cache))))))
    as (r & -> & Hmarker).
  cbn [mbind outcome_bind]. rewrite Hmarker. exact IH.
Qed.

Lemma searchBatches_found env question cache before s after response :
  Forall (fun s' => hasRoom promptText env question cache s' /\
                    exists r, answered promptText env question cache s' r /\
                              includes r notFoundMarker = true) before ->
  hasRoom promptText env question cache s ->
  answered promptText env question cache s response ->
  includes response notFoundMarker = false ->
  searchBatches promptText env question cache (before ++ s :: after) = Return (Some response).
Proof.
  intros Hbefore Hroom Hans Hmarker.
  induction Hbefore as [|s' before (Hroom' & r & Hans' & Hmarker') _ IH];
    cbn [app searchBatches]; cbv zeta.
  - unfold hasRoom, answered, batchNumberOf, batchPrompt in Hroom, Hans.
    rewrite Hroom, Hans. cbn [mbind outcome_bind]. rewrite Hmarker. reflexivity.
  - unfold hasRoom, answered, batchNumberOf, batchPrompt in Hroom', Hans'.
    rewrite Hroom', Hans'. cbn [mbind outcome_bind]. rewrite Hmarker'. exact IH.
Qed.

(** C9, as the code has it. With at least one review and a session that
    opens and closes without error: when every batch is answered with
    the not-found marker, the answer is the not-mentioned sentence; and
    when the batches before some batch are answered with the marker and
    that batch is answered without it, no later batch is asked, and the
    answer is that response if it is not empty, and the not-mentioned
    sentence if it is empty. *)
Theorem askQuestion_grounded
  (env : PromptEnv) (reviewCache : option (list CachedReview))
  (reviews : list ReviewInput) (question : string) :
  reviews <> [] ->
  initLanguageModelSession env = Return tt ->
  destroySession env = Return tt ->
  let cache := default (buildReviewCache reviews) reviewCache in
  ((forall b p, exists r, prompt env b p = Return r /\ includes r notFoundMarker = true) ->
   askQuestion promptText env reviewCache (Some reviews) question = notMentionedAnswer) /\
  (forall before s after response,
     startIndices (length cache) = before ++ s :: after ->
     Forall (fun s' => hasRoom promptText env question cache s' /\
                       exists r, answered promptText env question cache s' r /\
                                 includes r notFoundMarker = true) before ->
     hasRoom promptText env question cache s ->
     answered promptText env question cache s response ->
     includes response notFoundMarker = false ->
     askQuestion promptText env reviewCache (Some reviews) question
     = if String.eqb response EmptyString then notMentionedAnswer else response).
Proof.
  intros Hne Hinit Hdestroy cache. destruct reviews as [|r rs]; [congruence|].
  split.
  - intros Hnone. cbn [askQuestion]. cbv zeta. rewrite Hinit. cbn [mbind outcome_bind].
    rewrite searchBatches_none by exact Hnone. cbn [mbind outcome_bind].
    rewrite Hdestroy. reflexivity.
  - intros before s after response Hstarts Hbefore Hroom Hans Hmarker.
    cbn [askQuestion]. cbv zeta. rewrite Hinit. cbn [mbind outcome_bind].
    fold cache. rewrite Hstarts.
    rewrite (searchBatches_found _ _ _ _ _ _ _ Hbefore Hroom Hans Hmarker).
    cbn [mbind outcome_bind]. rewrite Hdestroy. cbn [mbind outcome_bind mret outcome_ret].
    destruct (String.eqb response EmptyString); reflexivity.
Qed.

End AnalysisFacts.



(** C6, as stated, fails for [analyzeReviews]: it throws. *)
Lemma analyzeReviews_throws_without_reviews :
  Analysis.analyzeReviews Analysis.samplePercent Analysis.failingEnv false (Some [])
  = Throw "No reviews to analyze" /\
  Analysis.analyzeReviews Analysis.samplePercent Analysis.failingEnv false None
  = Throw "No reviews to analyze" /\
  ~ exists value, Analysis.analyzeReviews Analysis.samplePercent Analysis.failingEnv false
                    (Some []) = Return value.
Proof. repeat split. intros [value H]. discriminate H. Qed.

(** C9, as stated, fails on an empty response: it lacks the marker, the
    search stops, and the answer is the not-mentioned sentence instead of
    that response. *)
Lemma askQuestion_empty_response :
  Analysis.prompt Analysis.silentEnv 1
    (Analysis.samplePrompt Analysis.sampleQuestion
       (join Chunker.separator
          (map Analysis.c_text (Analysis.buildReviewCache Analysis.sampleReviews))))
  = Return EmptyString /\
  includes EmptyString Analysis.notFoundMarker = false /\
  Analysis.askQuestion Analysis.samplePrompt Analysis.silentEnv None
    (Some Analysis.sampleReviews) Analysis.sampleQuestion
  = Analysis.notMentionedAnswer /\
  Analysis.askQuestion Analysis.samplePrompt Analysis.silentEnv None
    (Some Analysis.sampleReviews) Analysis.sampleQuestion
  <> EmptyString.
Proof. vm_compute. repeat split; discriminate. Qed.

Lemma askQuestion_grounded_witness :
  Analysis.askQuestion Analysis.samplePrompt Analysis.cluelessEnv None
    (Some Analysis.sampleReviews) Analysis.sampleQuestion
  = Analysis.notMentionedAnswer /\
  Analysis.askQuestion Analysis.samplePrompt Analysis.helpfulEnv None
    (Some Analysis.sampleReviews) Analysis.sampleQuestion
  = "Guests found the street noisy.".
Proof.
  assert (Hne : Analysis.sampleReviews <> []) by discriminate.
  split.
  - apply (proj1 (askQuestion_grounded Analysis.samplePrompt Analysis.cluelessEnv None
                    Analysis.sampleReviews Analysis.sampleQuestion Hne eq_refl eq_refl)).
    intros b p. eexists. split; reflexivity.
  - apply (proj2 (askQuestion_grounded Analysis.samplePrompt Analysis.helpfulEnv None
                    Analysis.sampleReviews Analysis.sampleQuestion Hne eq_refl eq_refl)
             [] 0 [] "Guests found the street noisy.").
    + reflexivity.
    + constructor.
    + reflexivity.
    + reflexivity.
    + reflexivity.
Defined.

(** * Further properties *)

(** ** The merger: snippets and foreign keywords *)

Section MergerSnippets.

Import Merger Pipeline.

Lemma snippetsFor_cons field aspect item items :
  snippetsFor field aspect (item :: items)
  = (if String.eqb (keyword item) aspect then default [] (field item) else [])
    ++ snippetsFor field aspect items.
Proof. reflexivity. Qed.

Lemma pushAll_default target snips : pushAll target snips = target ++ default [] snips.
Proof. destruct snips; simpl; [reflexivity | by rewrite app_nil_r]. Qed.

(** One step of the fold appends the snippets of the item to the aspect
    it names. *)
Lemma foldItem_snippets m item m' :
  foldItem m item = Return m' ->
  forall a e, m !! a = Some e ->
    exists e', m' !! a = Some e' /\
      e_positive_snippets e'
      = e_positive_snippets e
        ++ (if String.eqb (keyword item) a then default [] (positive_snippets item) else [])
      /\
      e_negative_snippets e'
      = e_negative_snippets e
        ++ (if String.eqb (keyword item) a then default [] (negative_snippets item) else []).
Proof.
  unfold foldItem, lookupMerged. intros Hstep a e Ha.
  assert (Hsame : String.eqb (keyword item) a = false ->
    exists e', m !! a = Some e' /\
      e_positive_snippets e' = e_positive_snippets e ++ [] /\
      e_negative_snippets e' = e_negative_snippets e ++ []).
  { intros _. exists e. rewrite !app_nil_r. auto. }
  destruct (m !! keyword item) as [e0|] eqn:Hlook.
  - injection Hstep as <-.
    destruct (String.eqb_spec (keyword item) a) as [<-|Hne].
    + rewrite lookup_insert_eq. rewrite Hlook in Ha. injection Ha as <-.
      eexists. split; [reflexivity|]. cbn. rewrite !pushAll_default. auto.
    + rewrite lookup_insert_ne by congruence. exists e. rewrite !app_nil_r. auto.
  - assert (Hne : String.eqb (keyword item) a = false).
    { destruct (String.eqb_spec (keyword item) a) as [<-|]; [congruence | reflexivity]. }
    rewrite Hne.
    destruct (bool_decide _).
    + destruct (is_Some_dec _); [discriminate|].
      destruct (is_Some_dec _); [discriminate|].
      injection Hstep as <-. apply Hsame, Hne.
    + injection Hstep as <-. apply Hsame, Hne.
Qed.

Lemma foldItems_snippets items : forall m m',
  foldItems m items = Return m' ->
  forall a e, m !! a = Some e ->
    exists e', m' !! a = Some e' /\
      e_positive_snippets e'
      = e_positive_snippets e ++ snippetsFor positive_snippets a items /\
      e_negative_snippets e'
      = e_negative_snippets e ++ snippetsFor negative_snippets a items.
Proof.
  induction items as [|item items IH]; intros m m' Hrun a e Ha.
  - injection Hrun as <-. exists e. cbn. rewrite !app_nil_r. auto.
  - cbn [foldItems] in Hrun.
    destruct (foldItem m item) as [m1|] eqn:Hstep; [|discriminate].
    destruct (foldItem_snippets _ _ _ Hstep a e Ha) as (e1 & Ha1 & Hp1 & Hn1).
    destruct (IH _ _ Hrun a e1 Ha1) as (e' & Ha' & Hp' & Hn').
    exists e'. split; [exact Ha'|]. rewrite !snippetsFor_cons, !app_assoc.
    split; congruence.
Qed.

(** The entries the last pass builds: the data of the table with both
    snippet lists cut to ten. *)
Lemma finish_entries m : forall aspects out,
  finish m aspects = Return out ->
  Forall2 (fun a e => exists d, m !! a = Some d /\
             e_keyword e = e_keyword d /\
             e_positive_snippets e = take 10 (e_positive_snippets d) /\
             e_negative_snippets e = take 10 (e_negative_snippets d)) aspects out.
Proof.
  induction aspects as [|a aspects IH]; intros out Hout; cbn [finish] in Hout.
  - injection Hout as <-. constructor.
  - destruct (m !! a) as [d|] eqn:Hd; [|discriminate].
    destruct (finish m aspects) as [rest|] eqn:Hrest; [|discriminate].
    injection Hout as <-. constructor; [|by apply IH].
    exists d. cbn. auto.
Qed.

(** X1. Whenever the merge returns, it returns nine entries, and no entry
    carries more than ten positive or ten negative snippets. *)
Theorem mergeKeywordAnalysis_snippet_cap
  (chunks : list (option (list KeywordItem))) (out : list MergedEntry) :
  mergeKeywordAnalysis chunks = Return out ->
  length out = 9 /\
  Forall (fun e => length (e_positive_snippets e) <= 10 /\
                   length (e_negative_snippets e) <= 10) out.
Proof.
  unfold mergeKeywordAnalysis. intros Hout.
  destruct (foldChunks initMerged chunks) as [m|]; [|discriminate].
  apply finish_entries in Hout. split.
  - apply Forall2_length in Hout. rewrite <- Hout. reflexivity.
  - clear -Hout. induction Hout as [|a e aspects out (d & _ & _ & Hp & Hn) _ IH];
      constructor; [|exact IH].
    rewrite Hp, Hn, !length_take. lia.
Qed.

Lemma mergeKeywordAnalysis_snippet_cap_witness :
  exists out, mergeKeywordAnalysis [Some chunkA; Some chunkB; Some chunkC] = Return out /\
              length out = 9.
Proof.
  destruct (mergeKeywordAnalysis [Some chunkA; Some chunkB; Some chunkC]) as [out|] eqn:H;
    [|vm_compute in H; discriminate H].
  exists out. split; [reflexivity|].
  exact (proj1 (mergeKeywordAnalysis_snippet_cap _ out H)).
Defined.

(** X2. The snippets of an aspect in the result are the first ten, in
    encounter order, of the snippets of all items that name the aspect:
    first seen, first kept. *)
Theorem mergeKeywordAnalysis_snippets_first_seen
  (chunks : list (option (list KeywordItem))) (out : list MergedEntry) :
  mergeKeywordAnalysis chunks = Return out ->
  map (fun e => (e_keyword e, e_positive_snippets e, e_negative_snippets e)) out
  = map (fun a => (a, take 10 (snippetsFor positive_snippets a (allItems chunks)),
                      take 10 (snippetsFor negative_snippets a (allItems chunks))))
        requiredAspects.
Proof.
  unfold mergeKeywordAnalysis. rewrite foldChunks_flat. intros Hout.
  destruct (foldItems initMerged (allItems chunks)) as [m|] eqn:Hfold; [|discriminate].
  apply finish_entries in Hout.
  assert (Hgen : forall aspects (out : list MergedEntry),
    (forall a, a ∈ aspects -> a ∈ requiredAspects) ->
    Forall2 (fun a e => exists d, m !! a = Some d /\
               e_keyword e = e_keyword d /\
               e_positive_snippets e = take 10 (e_positive_snippets d) /\
               e_negative_snippets e = take 10 (e_negative_snippets d)) aspects out ->
    map (fun e => (e_keyword e, e_positive_snippets e, e_negative_snippets e)) out
    = map (fun a => (a, take 10 (snippetsFor positive_snippets a (allItems chunks)),
                        take 10 (snippetsFor negative_snippets a (allItems chunks))))
          aspects).
  { clear Hout out. intros aspects out Hsub Hall.
    induction Hall as [|a e aspects out (d & Hd & Hk & Hp & Hn) _ IH]; [reflexivity|].
    cbn [map]. f_equal; [|apply IH; intros b Hb; apply Hsub; by right].
    assert (Hin : a ∈ requiredAspects) by (apply Hsub; left).
    destruct (foldItems_snippets _ _ _ Hfold a _ (initMerged_lookup a Hin))
      as (d' & Hd' & Hp' & Hn').
    rewrite Hd in Hd'. injection Hd' as <-.
    assert (Hkd : e_keyword d = a).
    { destruct (existsb poisoned (allItems chunks)) eqn:Hex.
      - rewrite (foldItems_poisoned _ _ initMerged_shape Hex) in Hfold. discriminate.
      - destruct (foldItems_clean _ _ initMerged_shape Hex) as (m2 & Hm2 & Hshape & _).
        rewrite Hfold in Hm2. injection Hm2 as <-. by apply (Hshape a). }
    rewrite Hk, Hkd, Hp, Hn, Hp', Hn'. reflexivity. }
  apply Hgen; [auto | exact Hout].
Qed.

Lemma mergeKeywordAnalysis_snippets_first_seen_witness :
  exists out, mergeKeywordAnalysis [Some chunkA; Some chunkB; Some chunkC] = Return out /\
    map (fun e => e_positive_snippets e) (take 1 out) = [["spotless"; "very clean"]].
Proof.
  destruct (mergeKeywordAnalysis [Some chunkA; Some chunkB; Some chunkC]) as [out|] eqn:H;
    [|vm_compute in H; discriminate H].
  exists out. split; [reflexivity|].
  pose proof (mergeKeywordAnalysis_snippets_first_seen _ out H) as Hs.
  destruct out as [|e out]; [discriminate Hs|].
  cbn [take map]. injection Hs as Hk Hp Hn _. rewrite Hp. reflexivity.
Defined.

(** A keyword outside the enumeration that does not name a property of
    [Object.prototype] leaves the table alone. *)
Lemma foldItem_foreign m item :
  tableShape m -> known item = false -> keyword item ∉ objectPrototypeKeys ->
  foldItem m item = Return m.
Proof.
  intros Hshape Hk Hproto. unfold known in Hk. apply bool_decide_eq_false in Hk.
  unfold foldItem, lookupMerged.
  destruct (m !! keyword item) as [e|] eqn:Hlook.
  - exfalso. apply Hk, (Hshape (keyword item)). eauto.
  - rewrite bool_decide_eq_false_2 by exact Hproto. reflexivity.
Qed.

Lemma foldItems_known items : forall m,
  tableShape m -> Forall (fun item => keyword item ∉ objectPrototypeKeys) items ->
  foldItems m items = foldItems m (filter (fun item => known item = true) items).
Proof.
  induction items as [|item items IH]; intros m Hshape Hall; [reflexivity|].
  inversion Hall as [|? ? Hitem Hrest]; subst.
  destruct (known item) eqn:Hk.
  - rewrite filter_cons_True by exact Hk. cbn [foldItems].
    assert (Hclean : poisoned item = false).
    { unfold poisoned. rewrite (bool_decide_eq_false_2 _ Hitem), andb_false_r. reflexivity. }
    destruct (foldItem_clean m item Hshape Hclean) as (m1 & -> & Hshape1 & _).
    apply IH; assumption.
  - rewrite filter_cons_False by (rewrite Hk; discriminate). cbn [foldItems].
    rewrite foldItem_foreign by assumption. apply IH; assumption.
Qed.

(** X3. Items whose keyword is outside the nine aspects are ignored: as
    long as no keyword names a property of [Object.prototype], the merge
    returns what it returns on the items of the nine aspects alone. *)
Theorem mergeKeywordAnalysis_ignores_foreign (chunks : list (option (list KeywordItem))) :
  Forall (fun item => keyword item ∉ objectPrototypeKeys) (allItems chunks) ->
  mergeKeywordAnalysis chunks
  = mergeKeywordAnalysis [Some (filter (fun item => known item = true) (allItems chunks))].
Proof.
  intros Hall. unfold mergeKeywordAnalysis. rewrite !foldChunks_flat.
  replace (allItems [Some (filter (fun item => known item = true) (allItems chunks))])
    with (filter (fun item => known item = true) (allItems chunks))
    by (unfold allItems; cbn; by rewrite app_nil_r).
  rewrite <- foldItems_known by (exact initMerged_shape || exact Hall). reflexivity.
Qed.

Lemma mergeKeywordAnalysis_ignores_foreign_witness :
  mergeKeywordAnalysis [Some chunkA; Some chunkC]
  = mergeKeywordAnalysis
      [Some (filter (fun item => known item = true) (allItems [Some chunkA; Some chunkC]))].
Proof.
  apply mergeKeywordAnalysis_ignores_foreign.
  unfold allItems, chunkA, chunkC. cbn [map concat default from_option id app].
  repeat (apply Forall_cons_2; [apply (bool_decide_unpack _); vm_compute; exact I|]).
  apply Forall_nil_2.
Defined.

End MergerSnippets.

(** ** The chunker: nothing lost, nothing reordered *)

Section ChunkerCoverage.

Import Chunker Pipeline.

Lemma addReview_no_overlap_concat st review :
  concat (chunks (addReview 0 st review)) ++ currentChunk (addReview 0 st review)
  = (concat (chunks st) ++ currentChunk st) ++ [review].
Proof.
  unfold addReview. cbv zeta.
  destruct (_ && _); cbn [chunks currentChunk andb Nat.ltb Nat.leb].
  - rewrite concat_app. cbn [concat]. by rewrite !app_nil_r.
  - by rewrite app_assoc.
Qed.

Lemma foldl_no_overlap_concat reviews : forall st,
  concat (chunks (foldl (addReview 0) st reviews))
  ++ currentChunk (foldl (addReview 0) st reviews)
  = (concat (chunks st) ++ currentChunk st) ++ reviews.
Proof.
  induction reviews as [|r reviews IH]; intros st; cbn [foldl].
  - by rewrite app_nil_r.
  - rewrite IH, addReview_no_overlap_concat, <- app_assoc. reflexivity.
Qed.

(** X4. Without overlap the chunks partition the input: put one after
    the other they give back the list of reviews, each review once and in
    its place. *)
Theorem createOptimizedChunks_no_overlap_partition (reviews : list string) :
  concat (createOptimizedChunks reviews 0) = reviews.
Proof.
  unfold createOptimizedChunks. cbv zeta.
  pose proof (foldl_no_overlap_concat reviews (mkChunkState [] [] 0)) as H.
  cbn [chunks currentChunk concat app] in H.
  destruct (currentChunk (foldl (addReview 0) (mkChunkState [] [] 0) reviews)) as [|r cur] eqn:Hcur.
  - cbn [length Nat.ltb Nat.leb]. by rewrite app_nil_r in H.
  - cbn [length Nat.ltb Nat.leb]. rewrite concat_app. cbn [concat]. by rewrite app_nil_r.
Qed.

Lemma contiguous_snoc (chunk done : list string) r :
  contiguousIn chunk done -> contiguousIn chunk (done ++ [r]).
Proof.
  intros (before & after & ->). exists before, (after ++ [r]). by rewrite <- !app_assoc.
Qed.

Lemma suffix_contiguous (chunk done : list string) :
  chunk `suffix_of` done -> contiguousIn chunk done.
Proof. intros [before ->]. exists before, []. by rewrite app_nil_r. Qed.

Lemma suffix_snoc_both (l done : list string) r :
  l `suffix_of` done -> (l ++ [r]) `suffix_of` (done ++ [r]).
Proof. intros [before ->]. exists before. by rewrite app_assoc. Qed.

Lemma addReview_cover chunkOverlap done st review :
  coverInv done st -> coverInv (done ++ [review]) (addReview chunkOverlap st review).
Proof.
  intros (Hne & Hcov & Hsuf & Hrun).
  assert (Hrun' : Forall (fun chunk => contiguousIn chunk (done ++ [review])) (chunks st)).
  { eapply Forall_impl; [exact Hrun|]. intros c. apply contiguous_snoc. }
  unfold coverInv, addReview. cbv zeta.
  destruct (MAX_CHARS_PER_CHUNK <? _); cbn [andb].
  - destruct (0 <? length (currentChunk st)) eqn:Hlen.
    + assert (Hcur : currentChunk st <> []).
      { intros Hnil. rewrite Hnil in Hlen. discriminate. }
      assert (Hclosed : Forall (fun chunk => chunk <> []) (chunks st ++ [currentChunk st])).
      { apply Forall_app. split; [exact Hne | by constructor]. }
      assert (Hclosed' : Forall (fun chunk => contiguousIn chunk (done ++ [review]))
                                (chunks st ++ [currentChunk st])).
      { apply Forall_app. split; [exact Hrun'|]. constructor; [|constructor].
        apply contiguous_snoc, suffix_contiguous, Hsuf. }
      assert (Hold : forall rest r, r ∈ done ++ [review] ->
                r ∈ concat (chunks st ++ [currentChunk st]) ++ rest ++ [review]).
      { intros rest r Hr. apply elem_of_app in Hr as [Hr|Hr].
        - apply elem_of_app. left. rewrite concat_app. cbn [concat]. rewrite app_nil_r.
          by apply Hcov.
        - apply elem_of_app. right. apply elem_of_app. by right. }
      destruct ((0 <? chunkOverlap) && (chunkOverlap <? length (currentChunk st)));
        cbn [chunks currentChunk].
      * split; [|split; [|split]]; [exact Hclosed | apply Hold | | exact Hclosed'].
        apply suffix_snoc_both. etransitivity; [|exact Hsuf].
        unfold sliceLast. apply suffix_drop.
      * split; [|split; [|split]]; [exact Hclosed | apply (Hold []) | | exact Hclosed'].
        cbn [app]. exists done. reflexivity.
    + cbn [chunks currentChunk]. split; [|split; [|split]]; [exact Hne | | | exact Hrun'].
      * intros r Hr. rewrite app_assoc. apply elem_of_app in Hr as [Hr|Hr];
          apply elem_of_app; [left; by apply Hcov | by right].
      * by apply suffix_snoc_both.
  - cbn [chunks currentChunk]. split; [|split; [|split]]; [exact Hne | | | exact Hrun'].
    + intros r Hr. rewrite app_assoc. apply elem_of_app in Hr as [Hr|Hr];
        apply elem_of_app; [left; by apply Hcov | by right].
    + by apply suffix_snoc_both.
Qed.

Lemma foldl_addReview_cover chunkOverlap reviews : forall done st,
  coverInv done st ->
  coverInv (done ++ reviews) (foldl (addReview chunkOverlap) st reviews).
Proof.
  induction reviews as [|r reviews IH]; intros done st Hinv; cbn [foldl].
  - by rewrite app_nil_r.
  - replace (done ++ r :: reviews) with ((done ++ [r]) ++ reviews)
      by (by rewrite <- app_assoc).
    apply IH, addReview_cover, Hinv.
Qed.

Lemma createOptimizedChunks_cover chunkOverlap reviews :
  Forall (fun chunk => chunk <> []) (createOptimizedChunks reviews chunkOverlap) /\
  (forall r, r ∈ reviews -> r ∈ concat (createOptimizedChunks reviews chunkOverlap)) /\
  Forall (fun chunk => contiguousIn chunk reviews) (createOptimizedChunks reviews chunkOverlap).
Proof.
  assert (Hinit : coverInv [] (mkChunkState [] [] 0)).
  { split; [|split; [|split]]; [constructor | intros r Hr; inversion Hr | done | constructor]. }
  destruct (foldl_addReview_cover chunkOverlap reviews [] _ Hinit)
    as (Hne & Hcov & Hsuf & Hrun).
  cbn [app] in Hcov, Hsuf, Hrun.
  unfold createOptimizedChunks. cbv zeta.
  destruct (currentChunk (foldl (addReview chunkOverlap) (mkChunkState [] [] 0) reviews))
    as [|r0 cur] eqn:Hcur; cbn [length Nat.ltb Nat.leb].
  - split; [exact Hne|]. split; [|exact Hrun].
    intros r Hr. specialize (Hcov r Hr). by rewrite app_nil_r in Hcov.
  - split; [|split].
    + apply Forall_app. split; [exact Hne | by constructor].
    + intros r Hr. rewrite concat_app. cbn [concat]. rewrite app_nil_r. by apply Hcov.
    + apply Forall_app. split; [exact Hrun|]. constructor; [|constructor].
      by apply suffix_contiguous.
Qed.

(** X5. For every overlap, no chunk is empty and no review is dropped:
    every review of the input is in some chunk. *)
Theorem createOptimizedChunks_covers (reviews : list string) (chunkOverlap : nat) :
  Forall (fun chunk => chunk <> []) (createOptimizedChunks reviews chunkOverlap) /\
  forall r, r ∈ reviews ->
    exists chunk, chunk ∈ createOptimizedChunks reviews chunkOverlap /\ r ∈ chunk.
Proof.
  destruct (createOptimizedChunks_cover chunkOverlap reviews) as (Hne & Hcov & _).
  split; [exact Hne|]. intros r Hr. specialize (Hcov r Hr).
  apply list_elem_of_In, in_concat in Hcov as (chunk & Hin & Hchunk).
  exists chunk. split; by apply list_elem_of_In.
Qed.

(** X6. For every overlap, a chunk is a run of consecutive reviews of the
    input: reviews are never reordered inside a chunk, and a chunk never
    mixes reviews that are not neighbours. *)
Theorem createOptimizedChunks_contiguous (reviews : list string) (chunkOverlap : nat) :
  Forall (fun chunk => contiguousIn chunk reviews)
         (createOptimizedChunks reviews chunkOverlap).
Proof. apply createOptimizedChunks_cover. Qed.

End ChunkerCoverage.

(** ** Truncation, the chunks of an analysis and the review cache *)

Section TruncationFacts.

Import Chunker Analysis Pipeline.

Lemma substring0_length n : forall s,
  String.length (substring0 n s) = Nat.min n (String.length s).
Proof.
  unfold substring0. induction n as [|n IH]; intros [|c s]; cbn; try reflexivity.
  by rewrite IH.
Qed.

(** X7. A review of at most 500 characters is kept as it is, and a longer
    one becomes a text of exactly 503 characters: its first 500 followed
    by three dots. *)
Theorem truncateReview_length (reviewText : string) :
  (String.length reviewText <= 500 -> truncateReview reviewText = reviewText) /\
  (500 < String.length reviewText ->
   truncateReview reviewText = substring0 500 reviewText +:+ "..." /\
   String.length (truncateReview reviewText) = 503).
Proof.
  unfold truncateReview, MAX_CHARS_PER_REVIEW. split.
  - intros Hshort. destruct (String.eqb_spec reviewText EmptyString) as [->|_]; [reflexivity|].
    destruct (Nat.leb_spec (String.length reviewText) 500); [reflexivity | lia].
  - intros Hlong. destruct (String.eqb_spec reviewText EmptyString) as [->|_];
      [cbn in Hlong; lia|].
    destruct (Nat.leb_spec (String.length reviewText) 500); [lia|].
    split; [reflexivity|].
    rewrite length_append, substring0_length. cbn [String.length]. lia.
Qed.

Lemma truncateReview_length_witness :
  truncateReview "Lovely flat." = "Lovely flat." /\
  String.length (truncateReview (repeatChar 600 "x"%char)) = 503.
Proof.
  split.
  - apply (proj1 (truncateReview_length "Lovely flat.")). vm_compute. lia.
  - apply (proj2 (truncateReview_length (repeatChar 600 "x"%char))).
    vm_compute. lia.
Defined.

Lemma truncateReview_bound reviewText : String.length (truncateReview reviewText) <= 503.
Proof.
  destruct (truncateReview_length reviewText) as [Hshort Hlong].
  destruct (Nat.le_gt_cases (String.length reviewText) 500) as [H|H].
  - rewrite (Hshort H). lia.
  - destruct (Hlong H) as [_ ->]. lia.
Qed.

Lemma truncatedReviews_bound reviews :
  Forall (fun t => String.length t <= 503) (map t_text (truncatedReviews reviews)).
Proof.
  apply Forall_forall. intros t Ht. apply list_elem_of_In, in_map_iff in Ht as (r & <- & Hr).
  apply list_elem_of_In, list_elem_of_filter in Hr as [_ Hr].
  apply list_elem_of_In, in_map_iff in Hr as (review & <- & _).
  apply truncateReview_bound.
Qed.

(** X8. The chunks that [analyzeReviews] submits to the summarizer, built
    from the truncated reviews with the default overlap, all stay within
    750 estimated tokens. *)
Theorem analysis_chunks_within_ceiling (env : AiEnv) (reviews : list ReviewInput) :
  analyzeBody env reviews
  = (initSummarizerSession env ≫= fun _ =>
     if (length (summarizeChunks env (analysisChunks reviews)) =? 0)
     then Throw "All chunk summarizations failed"
     else finishAnalysis env (summarizeChunks env (analysisChunks reviews))
                         (truncatedReviews reviews)) /\
  Forall (fun chunk => chunkTokens chunk <= MAX_TOKENS_PER_CHUNK) (analysisChunks reviews).
Proof.
  split; [reflexivity|].
  apply createOptimizedChunks_truncated, truncatedReviews_bound.
Qed.

Lemma cache_ids (reviews : list ReviewInput) :
  map c_id (imap (fun index review =>
                    let t := trim (rawText review) in
                    mkCached index (truncateReview t) (String.length t)
                             (MAX_CHARS_PER_REVIEW <? String.length t)) reviews)
  = seq 0 (length reviews).
Proof.
  change (map c_id ?l) with (c_id <$> l). rewrite fmap_imap.
  etransitivity; [|rewrite <- (list_fmap_id (seq 0 (length reviews)));
                   apply (imap_seq_0 reviews (fun j => j))].
  apply imap_ext. reflexivity.
Qed.

Lemma sublist_StronglySorted {A} (R : A -> A -> Prop) (l1 l2 : list A) :
  sublist l1 l2 -> StronglySorted R l2 -> StronglySorted R l1.
Proof.
  induction 1 as [|x l1 l2 Hsub IH|x l1 l2 Hsub IH]; intros Hsorted.
  - constructor.
  - apply StronglySorted_inv in Hsorted as [Hrest Hx]. constructor; [by apply IH|].
    apply Forall_forall. intros y Hy. rewrite Forall_forall in Hx.
    apply Hx. eapply elem_of_submseteq; [exact Hy | by apply sublist_submseteq].
  - apply StronglySorted_inv in Hsorted as [Hrest _]. by apply IH.
Qed.

Lemma seq_StronglySorted n : forall start, StronglySorted lt (seq start n).
Proof.
  induction n as [|n IH]; intros start; cbn [seq]; constructor; [apply IH|].
  apply Forall_forall. intros y Hy. apply elem_of_seq in Hy. lia.
Qed.

(** X9. The review cache holds at most 100 reviews. The identifier of a
    cached review is the position of its review in the input: the cached
    text is that review's text, trimmed and truncated, of 11 to 503
    characters, and the original length and the truncation flag are
    those of the trimmed text. The identifiers increase along the cache,
    so no two are equal, and they stay below 100. A question is asked in
    at most 10 batches. *)
Theorem buildReviewCache_bounds (reviews : list ReviewInput) :
  length (buildReviewCache reviews) <= 100 /\
  Forall (fun c =>
            exists review,
              reviews !! c_id c = Some review /\ c_id c < 100 /\
              c_text c = truncateReview (trim (rawText review)) /\
              original_length c = String.length (trim (rawText review)) /\
              was_truncated c = (MAX_CHARS_PER_REVIEW <? String.length (trim (rawText review))) /\
              10 < String.length (c_text c) <= 503)
         (buildReviewCache reviews) /\
  StronglySorted lt (map c_id (buildReviewCache reviews)) /\
  NoDup (map c_id (buildReviewCache reviews)) /\
  length (startIndices (length (buildReviewCache reviews))) <= 10.
Proof.
  unfold buildReviewCache.
  set (build := fun index review =>
         let t := trim (rawText review) in
         mkCached index (truncateReview t) (String.length t)
                  (MAX_CHARS_PER_REVIEW <? String.length t)).
  assert (Hlen : length (filter (fun r => (10 <? String.length (c_text r)) = true)
                                (imap build (take 100 reviews))) <= 100).
  { etransitivity; [apply length_filter|]. rewrite length_imap, length_take. lia. }
  assert (Hsub : sublist
                   (map c_id (filter (fun r => (10 <? String.length (c_text r)) = true)
                                     (imap build (take 100 reviews))))
                   (map c_id (imap build (take 100 reviews))))
    by apply (fmap_sublist c_id), sublist_filter.
  assert (Hids : map c_id (imap build (take 100 reviews))
                 = seq 0 (length (take 100 reviews)))
    by (unfold build; apply cache_ids).
  split; [exact Hlen|]. split; [|split; [|split]].
  - apply Forall_forall. intros c Hc. apply list_elem_of_filter in Hc as [Hlong Hc].
    apply Nat.ltb_lt in Hlong.
    apply list_elem_of_lookup in Hc as [i Hi].
    apply list_lookup_imap_Some in Hi as (review & Hreview & ->).
    apply lookup_take_Some in Hreview as [Hreview Hi].
    exists review. cbn [build c_id c_text original_length was_truncated] in *.
    repeat (split; [first [exact Hreview | exact Hi | reflexivity]|]).
    split; [exact Hlong | apply truncateReview_bound].
  - apply (sublist_StronglySorted _ _ _ Hsub). rewrite Hids. apply seq_StronglySorted.
  - refine (sublist_NoDup _ _ _ Hsub). rewrite Hids. apply NoDup_seq.
  - unfold startIndices. rewrite length_map, length_seq.
    apply Nat.lt_succ_r, Nat.Div0.div_lt_upper_bound. lia.
Qed.

End TruncationFacts.

(** ** The analysis entry points: failures never reach the caller *)

Section AnalysisSafety.

Import Chunker Analysis Pipeline.

Variable roundPercent : nat -> nat -> Z.
Variable promptText : string -> string -> string.

(** X10. As long as whatever the two APIs throw is an error with a
    message (the handlers read [error.message], which itself throws on a
    rejection with [null] or [undefined], a case this model leaves out),
    [analyzeReviews] called with at least one review and no analysis in
    progress returns a result: the result of its [try] block when that
    returns, and otherwise an object with all the keys of an analysis,
    which is the local fallback analysis of the first 100 reviews under
    the message of an unexpected error unless the summarizer was reported
    unavailable. *)
Theorem analyzeReviews_never_throws (env : AiEnv) (reviews : list ReviewInput) :
  reviews <> [] ->
  exists value,
    analyzeReviews roundPercent env false (Some reviews) = Return value /\
    (analyzeBody env reviews = Return value \/
     exists message,
       analyzeBody env reviews = Throw message /\
       hasAllKeys value = true /\
       (message <> "SUMMARIZER_UNAVAILABLE" ->
        value = setKey "message" (VStr "⚠️ Using basic analysis (error occurred)")
                       (fallbackReviewAnalysis roundPercent (take 100 reviews)))).
Proof.
  intros Hne. destruct reviews as [|r rs]; [congruence|]. cbn [analyzeReviews].
  destruct (analyzeBody env (r :: rs)) as [value|message]; cbn [tryCatch].
  - exists value. auto.
  - unfold analyzeHandler.
    destruct (String.eqb_spec message "SUMMARIZER_UNAVAILABLE") as [->|Hother].
    + unfold promptApiFallback. cbv zeta.
      destruct (cloneLanguageModelSession env) as [[]|m1]; cbn [mbind outcome_bind tryCatch].
      * destruct (extractStructuredData env _) as [sd|m2]; cbn [mbind outcome_bind tryCatch];
          (eexists; split; [reflexivity|]; right; eexists; split; [reflexivity|];
           split; [reflexivity | congruence]).
      * eexists. split; [reflexivity|]. right. eexists. split; [reflexivity|].
        split; [reflexivity | congruence].
    + eexists. split; [reflexivity|]. right. exists message. split; [reflexivity|].
      split; [reflexivity|]. intros _. reflexivity.
Qed.

(** X11. The local fallback analysis reports a trust score between 50 and
    90, however the percentages are rounded, and counts every review it
    was given. *)
Theorem fallbackReviewAnalysis_trust_score (reviews : list ReviewInput) :
  exists score,
    getKey "trust_score" (fallbackReviewAnalysis roundPercent reviews) = VNum score /\
    (50 <= score <= 90)%Z /\
    getKey "reviews_analyzed" (fallbackReviewAnalysis roundPercent reviews)
    = VNum (Z.of_nat (length reviews)).
Proof.
  eexists. split; [reflexivity|]. split; [lia | reflexivity].
Qed.

Lemma searchBatches_skip env question cache before rest :
  Forall (fun s' => hasRoom promptText env question cache s' /\
                    exists r, answered promptText env question cache s' r /\
                              includes r notFoundMarker = true) before ->
  searchBatches promptText env question cache (before ++ rest)
  = searchBatches promptText env question cache rest.
Proof.
  induction 1 as [|s' before (Hroom & r & Hans & Hmarker) _ IH]; [reflexivity|].
  cbn [app searchBatches]. cbv zeta.
  unfold hasRoom, answered, batchNumberOf, batchPrompt in Hroom, Hans.
  rewrite Hroom, Hans. cbn [mbind outcome_bind]. rewrite Hmarker. exact IH.
Qed.

(** X12. When the session has no room left for the prompt of a batch, the
    search stops at that batch: the batches after it are not asked,
    whatever they would answer, and the answer is the not-mentioned
    sentence. *)
Theorem askQuestion_stops_without_room
  (env : PromptEnv) (reviewCache : option (list CachedReview))
  (reviews : list ReviewInput) (question : string) (before after : list nat) (s : nat) :
  reviews <> [] ->
  initLanguageModelSession env = Return tt ->
  destroySession env = Return tt ->
  startIndices (length (default (buildReviewCache reviews) reviewCache))
  = before ++ s :: after ->
  Forall (fun s' =>
            hasRoom promptText env question
                    (default (buildReviewCache reviews) reviewCache) s' /\
            exists r, answered promptText env question
                               (default (buildReviewCache reviews) reviewCache) s' r /\
                      includes r notFoundMarker = true) before ->
  ~ hasRoom promptText env question (default (buildReviewCache reviews) reviewCache) s ->
  askQuestion promptText env reviewCache (Some reviews) question = notMentionedAnswer.
Proof.
  intros Hne Hinit Hdestroy Hstarts Hbefore Hfull.
  destruct reviews as [|r rs]; [congruence|].
  cbn [askQuestion]. cbv zeta. rewrite Hinit. cbn [mbind outcome_bind].
  rewrite Hstarts, (searchBatches_skip _ _ _ _ _ Hbefore).
  cbn [searchBatches]. cbv zeta.
  unfold hasRoom, batchNumberOf, batchPrompt in Hfull.
  destruct (_ <? _)%Z; [|congruence].
  cbn [mbind outcome_bind]. rewrite Hdestroy. reflexivity.
Qed.

(** X13. An error of the Prompt API is answered, not thrown: when the
    session cannot be opened, or when the model throws on a batch that is
    reached, [askQuestion] returns the sentence that reports the message
    of the error. *)
Theorem askQuestion_reports_errors
  (env : PromptEnv) (reviewCache : option (list CachedReview))
  (reviews : list ReviewInput) (question message : string) :
  reviews <> [] ->
  (initLanguageModelSession env = Throw message ->
   askQuestion promptText env reviewCache (Some reviews) question = errorAnswer message) /\
  (forall before s after,
     initLanguageModelSession env = Return tt ->
     startIndices (length (default (buildReviewCache reviews) reviewCache))
     = before ++ s :: after ->
     Forall (fun s' =>
               hasRoom promptText env question
                       (default (buildReviewCache reviews) reviewCache) s' /\
               exists r, answered promptText env question
                                  (default (buildReviewCache reviews) reviewCache) s' r /\
                         includes r notFoundMarker = true) before ->
     hasRoom promptText env question (default (buildReviewCache reviews) reviewCache) s ->
     prompt env (batchNumberOf s)
            (batchPrompt promptText question
                         (default (buildReviewCache reviews) reviewCache) s)
     = Throw message ->
     askQuestion promptText env reviewCache (Some reviews) question = errorAnswer message).
Proof.
  intros Hne. destruct reviews as [|r rs]; [congruence|]. split.
  - intros Hinit. cbn [askQuestion]. cbv zeta. rewrite Hinit. reflexivity.
  - intros before s after Hinit Hstarts Hbefore Hroom Hthrow.
    cbn [askQuestion]. cbv zeta. rewrite Hinit. cbn [mbind outcome_bind].
    rewrite Hstarts, (searchBatches_skip _ _ _ _ _ Hbefore).
    cbn [searchBatches]. cbv zeta.
    unfold hasRoom, batchNumberOf, batchPrompt in Hroom, Hthrow.
    rewrite Hroom, Hthrow. reflexivity.
Qed.

End AnalysisSafety.

Lemma analyzeReviews_never_throws_witness :
  exists value,
    Analysis.analyzeReviews Analysis.samplePercent Analysis.failingEnv false
      (Some Analysis.sampleReviews) = Return value.
Proof.
  assert (Hne : Analysis.sampleReviews <> []) by discriminate.
  destruct (analyzeReviews_never_throws Analysis.samplePercent Analysis.failingEnv
              Analysis.sampleReviews Hne) as (value & Hrun & _).
  exists value. exact Hrun.
Defined.

Lemma askQuestion_stops_without_room_witness :
  Analysis.askQuestion Analysis.samplePrompt Pipeline.exhaustedEnv None
    (Some Analysis.sampleReviews) Analysis.sampleQuestion
  = Analysis.notMentionedAnswer.
Proof.
  assert (Hne : Analysis.sampleReviews <> []) by discriminate.
  apply (askQuestion_stops_without_room Analysis.samplePrompt Pipeline.exhaustedEnv None
           Analysis.sampleReviews Analysis.sampleQuestion [] [] 0 Hne eq_refl eq_refl).
  - reflexivity.
  - apply Forall_nil_2.
  - vm_compute. discriminate.
Defined.

Lemma askQuestion_reports_errors_witness :
  Analysis.askQuestion Analysis.samplePrompt
    (Analysis.mkPromptEnv (Throw "Prompt API is not available.") (fun _ => 0%Z)
                          (fun _ _ => Return EmptyString) (Return tt))
    None (Some Analysis.sampleReviews) Analysis.sampleQuestion
  = Pipeline.errorAnswer "Prompt API is not available.".
Proof.
  assert (Hne : Analysis.sampleReviews <> []) by discriminate.
  apply (proj1 (askQuestion_reports_errors Analysis.samplePrompt _ None
                  Analysis.sampleReviews Analysis.sampleQuestion
                  "Prompt API is not available." Hne)).
  reflexivity.
Defined.

(** ** The local keyword extraction *)

Section LocalExtractionFacts.

Import Merger Analysis LocalExtraction Pipeline.

Lemma pushPositive_keys aspect snippet table :
  map fst (pushPositive aspect snippet table) = map fst table.
Proof.
  induction table as [|[k b] rest IH]; [reflexivity|]. cbn [pushPositive].
  destruct (String.eqb k aspect); cbn [map fst]; [reflexivity | by rewrite IH].
Qed.

Lemma pushNegative_keys aspect snippet table :
  map fst (pushNegative aspect snippet table) = map fst table.
Proof.
  induction table as [|[k b] rest IH]; [reflexivity|]. cbn [pushNegative].
  destruct (String.eqb k aspect); cbn [map fst]; [reflexivity | by rewrite IH].
Qed.

Lemma pushPositive_inv aspect snippet table :
  aspect <> "AccuracyOfListing" ->
  Forall rowInv table -> Forall rowInv (pushPositive aspect snippet table).
Proof.
  intros Haspect. induction 1 as [|[k b] rest Hrow Hrest IH]; [constructor|].
  cbn [pushPositive]. destruct (String.eqb_spec k aspect) as [->|_].
  - apply Forall_cons_2; [|assumption].
    destruct (Nat.ltb_spec (length (b_positive b)) 10) as [Hlt|_]; [|exact Hrow].
    destruct Hrow as ((_ & Hneg) & Hnever & _). cbn [fst snd] in *.
    split; [split|split]; cbn [fst snd b_positive b_negative].
    + rewrite length_app. cbn. lia.
    + exact Hneg.
    + exact Hnever.
    + intros ->. congruence.
  - apply Forall_cons_2; assumption.
Qed.

Lemma pushNegative_inv aspect snippet table :
  aspect ∉ neverNegative ->
  Forall rowInv table -> Forall rowInv (pushNegative aspect snippet table).
Proof.
  intros Haspect. induction 1 as [|[k b] rest Hrow Hrest IH]; [constructor|].
  cbn [pushNegative]. destruct (String.eqb_spec k aspect) as [->|_].
  - apply Forall_cons_2; [|assumption].
    destruct (Nat.ltb_spec (length (b_negative b)) 10) as [Hlt|_]; [|exact Hrow].
    destruct Hrow as ((Hpos & _) & _ & Hnone). cbn [fst snd] in *.
    split; [split|split]; cbn [fst snd b_positive b_negative].
    + exact Hpos.
    + rewrite length_app. cbn. lia.
    + intros Hin. contradiction.
    + exact Hnone.
  - apply Forall_cons_2; assumption.
Qed.

Lemma detectors_inv : Forall detectorInv detectors.
Proof.
  unfold detectors, detectorInv.
  repeat (apply Forall_cons_2; [cbn [d_aspect d_negativeWord]; split;
    [discriminate
    |intros [w Hw];
     first [discriminate Hw | apply (bool_decide_unpack _); vm_compute; exact I]]|]).
  apply Forall_nil_2.
Qed.

Lemma applyDetector_inv reviewText table d :
  detectorInv d ->
  map fst table = requiredAspects /\ Forall rowInv table ->
  map fst (applyDetector reviewText table d) = requiredAspects /\
  Forall rowInv (applyDetector reviewText table d).
Proof.
  intros [Hpos Hneg] [Hkeys Hrows]. unfold applyDetector.
  destruct (anyIncludes _ _); [|by split].
  destruct (detectSentiment reviewText).
  - rewrite pushPositive_keys. split; [exact Hkeys|]. by apply pushPositive_inv.
  - destruct (d_negativeWord d) as [w|]; [|by split].
    rewrite pushNegative_keys. split; [exact Hkeys|]. apply pushNegative_inv; [|exact Hrows].
    apply Hneg. by eexists.
Qed.

Lemma setAdd_inv reviews snippet set r :
  r ∈ reviews -> snippet = substring0 100 r ->
  20 < String.length snippet -> length set < 7 ->
  highlightInv reviews set -> highlightInv reviews (setAdd snippet set).
Proof.
  intros Hr Hsnippet Hlong Hroom (Hlen & Hnodup & Hall). unfold setAdd.
  destruct (bool_decide_reflect (snippet ∈ set)) as [_|Hnew]; [by repeat split|].
  split; [|split].
  - rewrite length_app. cbn. lia.
  - apply NoDup_app. split; [exact Hnodup|]. split; [|apply NoDup_singleton].
    intros x Hx Hx'. apply list_elem_of_singleton in Hx' as ->. contradiction.
  - apply Forall_app. split; [exact Hall|]. apply Forall_singleton. split.
    + split; [exact Hlong|]. rewrite Hsnippet, substring0_length. lia.
    + by exists r.
Qed.

Lemma collectHighlight_inv reviews words r set :
  r ∈ reviews ->
  highlightInv reviews set -> highlightInv reviews (collectHighlight words r set).
Proof.
  intros Hr Hinv. unfold collectHighlight.
  destruct (anyIncludes _ _); cbn [andb]; [|exact Hinv].
  destruct (Nat.ltb_spec (length set) 7) as [Hroom|_]; [|exact Hinv]. cbv zeta.
  destruct (Nat.ltb_spec 20 (String.length (LocalExtraction.substring 0 100 r)))
    as [Hlong|_]; [|exact Hinv].
  by apply (setAdd_inv reviews _ set r).
Qed.

Lemma highlightInv_mono reviews reviews' set :
  (forall r, r ∈ reviews -> r ∈ reviews') ->
  highlightInv reviews set -> highlightInv reviews' set.
Proof.
  intros Hsub (Hlen & Hnodup & Hall). split; [exact Hlen|]. split; [exact Hnodup|].
  eapply Forall_impl; [exact Hall|]. intros p (Hp & r & Hr & ->).
  split; [exact Hp|]. exists r. auto.
Qed.

(** What the scan of the reviews keeps. *)
Lemma scan_inv reviews :
  let st := foldl scanReview (mkScan initialKeywords [] []) reviews in
  map fst (keywords st) = requiredAspects /\ Forall rowInv (keywords st) /\
  highlightInv reviews (pros st) /\ highlightInv reviews (cons st).
Proof.
  cbv zeta. induction reviews as [|r reviews IH] using rev_ind.
  - cbn [foldl keywords pros cons]. split; [reflexivity|]. split.
    + unfold initialKeywords, requiredAspects. cbn [map].
      repeat (apply Forall_cons_2;
              [split; [split; cbn; lia | split; intros _; reflexivity]|]).
      apply Forall_nil_2.
    + split; (split; [cbn; lia | split; [apply NoDup_nil_2 | apply Forall_nil_2]]).
  - rewrite foldl_app. cbn [foldl].
    destruct IH as (Hkeys & Hrows & Hpros & Hcons).
    set (st := foldl scanReview (mkScan initialKeywords [] []) reviews) in *.
    unfold scanReview. cbn [keywords pros cons].
    assert (Hmem : r ∈ reviews ++ [r]) by (apply elem_of_app; right; apply list_elem_of_singleton; reflexivity).
    assert (Hsub : forall x, x ∈ reviews -> x ∈ reviews ++ [r])
      by (intros x Hx; apply elem_of_app; by left).
    assert (Htable : map fst (foldl (applyDetector r) (keywords st) detectors) = requiredAspects /\
                     Forall rowInv (foldl (applyDetector r) (keywords st) detectors)).
    { generalize detectors_inv. generalize detectors as ds.
      generalize (keywords st), (conj Hkeys Hrows).
      intros table Htable ds. revert table Htable.
      induction ds as [|d ds IHds]; intros table Htable Hds; [exact Htable|].
      cbn [foldl]. apply Forall_cons in Hds as [Hd Hds].
      apply IHds; [|exact Hds]. by apply applyDetector_inv. }
    destruct Htable as [Hkeys' Hrows'].
    split; [exact Hkeys'|]. split; [exact Hrows'|].
    split; apply collectHighlight_inv; try exact Hmem;
      eapply highlightInv_mono; eauto.
Qed.

Lemma bucketEntry_keys table : map e_keyword (map bucketEntry table) = map fst table.
Proof. rewrite map_map. reflexivity. Qed.

(** X14. The local extraction always reports the nine aspects, in the
    order of the taxonomy, also for no review at all; every entry has at
    most ten snippets of each kind, its counts are the numbers of its
    snippets and its total is their sum. *)
Theorem createFallbackStructuredData_nine_aspects (reviews : list string) :
  map e_keyword (sd_keyword_analysis (createFallbackStructuredData reviews))
  = requiredAspects /\
  Forall countedEntry (sd_keyword_analysis (createFallbackStructuredData reviews)).
Proof.
  destruct (scan_inv reviews) as (Hkeys & Hrows & _).
  unfold createFallbackStructuredData. cbn [sd_keyword_analysis]. split.
  - rewrite bucketEntry_keys. exact Hkeys.
  - apply Forall_forall. intros e He.
    apply list_elem_of_In, in_map_iff in He as (row & <- & Hrow).
    apply list_elem_of_In in Hrow.
    rewrite Forall_forall in Hrows. destruct (Hrows row Hrow) as ((Hpos & Hneg) & _).
    unfold countedEntry, bucketEntry.
    cbn [e_positive e_negative e_total_mentions e_positive_snippets e_negative_snippets].
    split; [exact Hpos|]. split; [exact Hneg|].
    split; [reflexivity|]. split; [reflexivity|]. apply Nat2Z.inj_add.
Qed.

Lemma insertDescending_perm key x sorted : insertDescending key x sorted ≡ₚ x :: sorted.
Proof.
  induction sorted as [|y rest IH]; [reflexivity|]. cbn [insertDescending].
  destruct (_ <? _)%Z; [|reflexivity]. rewrite IH. apply Permutation_swap.
Qed.

Lemma sortDescending_perm key l : sortDescending key l ≡ₚ l.
Proof.
  induction l as [|x l IH]; [reflexivity|]. cbn [sortDescending foldr].
  rewrite insertDescending_perm. by apply Permutation_skip.
Qed.

Lemma shortlist_elem n key (P : AspectEntry -> Prop) `{!forall e, Decision (P e)}
  (entries : list AspectEntry) (a : string) :
  a ∈ map e_keyword (take n (sortDescending key (filter P entries))) ->
  exists e, e ∈ entries /\ P e /\ e_keyword e = a.
Proof.
  intros Ha. apply list_elem_of_In, in_map_iff in Ha as (e & <- & He).
  apply list_elem_of_In in He. apply (subseteq_take n) in He.
  rewrite sortDescending_perm in He. apply list_elem_of_filter in He as [HP He].
  by exists e.
Qed.

Lemma shortlist_NoDup n key (P : AspectEntry -> Prop) `{!forall e, Decision (P e)}
  (entries : list AspectEntry) :
  NoDup (map e_keyword entries) ->
  NoDup (map e_keyword (take n (sortDescending key (filter P entries)))).
Proof.
  intros Hnodup.
  refine (sublist_NoDup _ (map e_keyword (sortDescending key (filter P entries))) _ _).
  - change (map e_keyword ?l) with (e_keyword <$> l).
    rewrite (sortDescending_perm key (filter P entries)).
    refine (sublist_NoDup _ _ Hnodup _). apply (fmap_sublist e_keyword), sublist_filter.
  - apply (fmap_sublist e_keyword), sublist_take.
Qed.

(** X15. The local extraction never reports a negative mention of value
    for money, of the accuracy of the listing or of the check-in, whatever
    the reviews say; the accuracy of the listing is never mentioned at
    all; and none of the three is ever listed as an area for improvement. *)
Theorem createFallbackStructuredData_never_negative (reviews : list string) :
  Forall (fun e =>
            (e_keyword e ∈ neverNegative ->
             e_negative e = 0%Z /\ e_negative_snippets e = []) /\
            (e_keyword e = "AccuracyOfListing" -> e_total_mentions e = 0%Z))
         (sd_keyword_analysis (createFallbackStructuredData reviews)) /\
  forall aspect,
    aspect ∈ areas_for_improvement (sd_guest_insights (createFallbackStructuredData reviews)) ->
    aspect ∉ neverNegative.
Proof.
  destruct (scan_inv reviews) as (Hkeys & Hrows & _).
  assert (Hentries :
    Forall (fun e =>
              (e_keyword e ∈ neverNegative ->
               e_negative e = 0%Z /\ e_negative_snippets e = []) /\
              (e_keyword e = "AccuracyOfListing" -> e_total_mentions e = 0%Z))
           (sd_keyword_analysis (createFallbackStructuredData reviews))).
  { unfold createFallbackStructuredData. cbn [sd_keyword_analysis].
    apply Forall_forall. intros e He.
    apply list_elem_of_In, in_map_iff in He as (row & <- & Hrow).
    apply list_elem_of_In in Hrow.
    rewrite Forall_forall in Hrows. destruct (Hrows row Hrow) as (_ & Hnever & Hnone).
    unfold bucketEntry.
    cbn [e_keyword e_negative e_total_mentions e_negative_snippets]. split.
    - intros Hin. rewrite (Hnever Hin). by split.
    - intros Heq. rewrite (Hnone Heq), Hnever; [reflexivity|].
      rewrite Heq. apply (bool_decide_unpack _). vm_compute. exact I. }
  split; [exact Hentries|].
  intros aspect Hin Hnever.
  unfold createFallbackStructuredData in Hin, Hentries.
  cbn [sd_guest_insights areas_for_improvement sd_keyword_analysis] in Hin, Hentries.
  apply shortlist_elem in Hin as (e & He & Hpos & <-).
  rewrite Forall_forall in Hentries. destruct (Hentries e He) as [Hzero _].
  destruct (Hzero Hnever) as [Hzero' _]. rewrite Hzero' in Hpos. discriminate.
Qed.

Lemma append_inj_r (t s1 s2 : string) : s1 +:+ t = s2 +:+ t -> s1 = s2.
Proof.
  revert s2. induction s1 as [|c s1 IH]; intros [|d s2] Heq.
  - reflexivity.
  - apply (f_equal String.length) in Heq. rewrite !length_append in Heq.
    cbn [String.length] in Heq. lia.
  - apply (f_equal String.length) in Heq. rewrite !length_append in Heq.
    cbn [String.length] in Heq. lia.
  - cbn in Heq. injection Heq as -> Heq. f_equal. by apply IH.
Qed.

Lemma shown_highlights reviews set :
  highlightInv reviews set ->
  length (map (fun p => p +:+ "...") (take 7 set)) <= 7 /\
  NoDup (map (fun p => p +:+ "...") (take 7 set)) /\
  Forall (highlightOf reviews) (map (fun p => p +:+ "...") (take 7 set)).
Proof.
  intros (Hlen & Hnodup & Hall). rewrite take_ge by exact Hlen.
  split; [by rewrite length_map|]. split.
  - assert (Hinj : Inj eq eq (fun p => p +:+ "...")) by (intros s1 s2; apply append_inj_r).
    apply (NoDup_fmap_2 (fun p => p +:+ "...")). exact Hnodup.
  - apply Forall_forall. intros shown Hshown.
    apply list_elem_of_In, in_map_iff in Hshown as (p & <- & Hp).
    apply list_elem_of_In in Hp. rewrite Forall_forall in Hall.
    destruct (Hall p Hp) as (Hbounds & r & Hr & ->).
    exists r. split; [exact Hr|]. split; [reflexivity|].
    rewrite length_append. cbn [String.length]. lia.
Qed.

(** X16. The local extraction shows at most seven pros and seven cons,
    pairwise different; each is the first 100 characters of one of the
    reviews followed by three dots, and has 24 to 103 characters. *)
Theorem createFallbackStructuredData_highlights (reviews : list string) :
  (length (sd_pros (createFallbackStructuredData reviews)) <= 7 /\
   NoDup (sd_pros (createFallbackStructuredData reviews)) /\
   Forall (highlightOf reviews) (sd_pros (createFallbackStructuredData reviews))) /\
  (length (sd_cons (createFallbackStructuredData reviews)) <= 7 /\
   NoDup (sd_cons (createFallbackStructuredData reviews)) /\
   Forall (highlightOf reviews) (sd_cons (createFallbackStructuredData reviews))).
Proof.
  destruct (scan_inv reviews) as (_ & _ & Hpros & Hcons).
  unfold createFallbackStructuredData. cbn [sd_pros sd_cons].
  split; by apply shown_highlights.
Qed.

(** X17. The local extraction names at most five best features and at
    most three areas for improvement; both lists hold aspects of the
    taxonomy, none twice; a best feature has more positive than negative
    mentions, and an area for improvement at least one negative mention. *)
Theorem createFallbackStructuredData_shortlists (reviews : list string) :
  let data := createFallbackStructuredData reviews in
  (length (best_features (sd_guest_insights data)) <= 5 /\
   NoDup (best_features (sd_guest_insights data)) /\
   forall aspect, aspect ∈ best_features (sd_guest_insights data) ->
     exists e, e ∈ sd_keyword_analysis data /\ e_keyword e = aspect /\
               aspect ∈ requiredAspects /\ (e_negative e < e_positive e)%Z) /\
  (length (areas_for_improvement (sd_guest_insights data)) <= 3 /\
   NoDup (areas_for_improvement (sd_guest_insights data)) /\
   forall aspect, aspect ∈ areas_for_improvement (sd_guest_insights data) ->
     exists e, e ∈ sd_keyword_analysis data /\ e_keyword e = aspect /\
               aspect ∈ requiredAspects /\ (0 < e_negative e)%Z).
Proof.
  cbv zeta. destruct (createFallbackStructuredData_nine_aspects reviews) as [Hkeys _].
  assert (Hnodup : NoDup (map e_keyword
                            (sd_keyword_analysis (createFallbackStructuredData reviews)))).
  { rewrite Hkeys. apply (bool_decide_unpack _). vm_compute. exact I. }
  assert (Hknown : forall e,
             e ∈ sd_keyword_analysis (createFallbackStructuredData reviews) ->
             e_keyword e ∈ requiredAspects).
  { intros e He. rewrite <- Hkeys. apply list_elem_of_In, in_map, list_elem_of_In, He. }
  unfold createFallbackStructuredData in *.
  cbn [sd_guest_insights best_features areas_for_improvement sd_keyword_analysis] in *.
  split; (split; [rewrite length_map, length_take; lia|]);
    (split; [by apply shortlist_NoDup|]);
    intros aspect Hin; apply shortlist_elem in Hin as (e & He & Hpos & <-);
    exists e; (split; [exact He|]); (split; [reflexivity|]);
    (split; [by apply Hknown|]); by apply Z.ltb_lt.
Qed.

End LocalExtractionFacts.

(** ** Snippets *)

Section SnippetFacts.

Import LocalExtraction.

Lemma substring_length_le start n : forall s,
  String.length (String.substring start n s) <= n.
Proof.
  revert n. induction start as [|start IH]; intros n s.
  - pose proof (substring0_length n s) as H. unfold substring0 in H. lia.
  - destruct s as [|c s]; cbn [String.substring].
    + destruct n; cbn; lia.
    + apply IH.
Qed.

Lemma substring0_min n : forall s,
  String.substring 0 (Nat.min n (String.length s)) s = String.substring 0 n s.
Proof.
  induction n as [|n IH]; intros [|c s]; cbn; try reflexivity. by rewrite IH.
Qed.

Lemma rev_app_length s : forall acc,
  String.length (String.rev_app s acc) = String.length s + String.length acc.
Proof.
  induction s as [|c s IH]; intros acc; [reflexivity|]. cbn [String.rev_app].
  rewrite IH. cbn [String.length]. lia.
Qed.

Lemma rev_length s : String.length (String.rev s) = String.length s.
Proof. unfold String.rev. rewrite rev_app_length. cbn [String.length]. lia. Qed.

Lemma dropWhile_length p s : String.length (dropWhile p s) <= String.length s.
Proof.
  induction s as [|c s IH]; [reflexivity|]. cbn [dropWhile].
  destruct (p c); cbn [String.length]; lia.
Qed.

Lemma trim_length s : String.length (trim s) <= String.length s.
Proof.
  unfold trim. rewrite rev_length.
  etransitivity; [apply dropWhile_length|]. rewrite rev_length. apply dropWhile_length.
Qed.

(** X18. A snippet never has more than 156 characters: at most 150 of
    the review and three dots on either side. When the keyword does not
    occur in the review, the snippet is the first 100 characters of the
    review, without dots. *)
Theorem extractSnippet_bound (reviewText keywordText : string) :
  String.length (extractSnippet reviewText keywordText) <= 156 /\
  (indexOf (toLowerCase reviewText) (toLowerCase keywordText) = None ->
   extractSnippet reviewText keywordText = substring0 100 reviewText).
Proof.
  unfold extractSnippet. cbv zeta.
  destruct (indexOf (toLowerCase reviewText) (toLowerCase keywordText)) as [i|].
  - split; [|discriminate].
    set (stop := Nat.min (String.length reviewText) (i + 100)).
    assert (Hcut : String.length (trim (substring (i - 50) stop reviewText)) <= 150).
    { etransitivity; [apply trim_length|]. unfold substring.
      etransitivity; [apply substring_length_le|]. unfold stop. lia. }
    destruct (0 <? i - 50), (stop <? String.length reviewText);
      rewrite ?length_append; cbn [String.length]; lia.
  - split; [|intros _; unfold substring; rewrite Nat.sub_0_r; apply substring0_min].
    unfold substring. etransitivity; [apply substring_length_le|]. lia.
Qed.

Lemma extractSnippet_bound_witness :
  extractSnippet "Close to the beach and very quiet at night." "wifi"
  = substring0 100 "Close to the beach and very quiet at night.".
Proof.
  apply (proj2 (extractSnippet_bound "Close to the beach and very quiet at night." "wifi")).
  reflexivity.
Defined.

End SnippetFacts.

(** ** Hierarchical summarization *)

Section SummariesFacts.

Import Chunker Summaries.

(** X19. [measureInputUsage] counts the text, and the context with one
    line feed when there is a context; the input fits in a single request
    exactly when it has at most 3000 characters. *)
Theorem measureInputUsage_fits (inputText context : string) :
  estimatedChars (measureInputUsage inputText context)
  = String.length inputText
    + (if String.eqb context EmptyString then 0 else 1 + String.length context) /\
  (fitsInSingleRequest (measureInputUsage inputText context) = true <->
   estimatedChars (measureInputUsage inputText context) <= 3000).
Proof.
  unfold measureInputUsage. cbv zeta.
  cbn [estimatedChars fitsInSingleRequest]. split.
  - rewrite length_append. destruct (String.eqb context EmptyString); cbn [negb].
    + reflexivity.
    + rewrite length_append. reflexivity.
  - unfold estimateTokens. rewrite Nat.leb_le.
    generalize (String.length (inputText +:+
                  (if negb (String.eqb context EmptyString) then lineFeed +:+ context
                   else EmptyString))).
    intros n. split; intros H.
    + destruct (Nat.le_gt_cases n 3000) as [Hle|Hgt]; [exact Hle|].
      assert (751 <= (n + 3) / 4) by (apply Nat.div_le_lower_bound; lia). lia.
    + apply Nat.lt_succ_r, Nat.Div0.div_lt_upper_bound. lia.
Qed.

Lemma recursiveSummarize_total summarizer context gap :
  forall summaries depth,
    MAX_RECURSION_DEPTH <= depth + gap ->
    exists out, forall fuel,
      gap <= fuel -> recursiveSummarize fuel summarizer summaries context depth = Some out.
Proof.
  induction gap as [|gap IH]; intros summaries depth Hdepth.
  - exists (Return (join paragraphBreak summaries)). intros fuel _.
    destruct fuel; cbn [recursiveSummarize];
      destruct (Nat.leb_spec MAX_RECURSION_DEPTH depth); try reflexivity; lia.
  - destruct (Nat.leb_spec MAX_RECURSION_DEPTH depth) as [Hmax|Hbelow].
    { exists (Return (join paragraphBreak summaries)). intros fuel _.
      destruct fuel; cbn [recursiveSummarize];
        destruct (Nat.leb_spec MAX_RECURSION_DEPTH depth); try reflexivity; lia. }
    destruct (fitsInSingleRequest
                (measureInputUsage (join paragraphBreak summaries) context)) eqn:Hfits.
    { exists (summarizer (depth + 1) 0 (join paragraphBreak summaries) context).
      intros fuel _.
      destruct fuel; cbn [recursiveSummarize];
        destruct (Nat.leb_spec MAX_RECURSION_DEPTH depth); try lia;
        cbv zeta; rewrite Hfits; reflexivity. }
    destruct (IH (summarizeLevel summarizer (depth + 1) context 0
                    (createOptimizedChunks summaries 0)) (depth + 1)) as [out Hout]; [lia|].
    exists out. intros [|fuel] Hfuel; [lia|]. cbn [recursiveSummarize].
    destruct (Nat.leb_spec MAX_RECURSION_DEPTH depth); [lia|].
    cbv zeta. rewrite Hfits. apply Hout. lia.
Qed.

(** X20. [recursiveSummarize] ends for every summarizer, every list of
    summaries and every context: started at a depth, it makes at most
    [5 - depth] recursive calls (five from the top), also when the
    summaries never shrink. *)
Theorem recursiveSummarize_terminates
  (summarizer : Summarizer) (summaries : list string) (context : string) (depth : nat) :
  exists out, forall fuel,
    MAX_RECURSION_DEPTH - depth <= fuel ->
    recursiveSummarize fuel summarizer summaries context depth = Some out.
Proof.
  apply recursiveSummarize_total. lia.
Qed.

Lemma join_paragraph_le chunk :
  String.length (join paragraphBreak chunk) <= String.length (join separator chunk).
Proof.
  induction chunk as [|r [|r' rest] IH]; [reflexivity | reflexivity |].
  change (join paragraphBreak (r :: r' :: rest))
    with (r +:+ paragraphBreak +:+ join paragraphBreak (r' :: rest)).
  change (join separator (r :: r' :: rest))
    with (r +:+ separator +:+ join separator (r' :: rest)).
  rewrite !length_append, separator_length.
  change (String.length paragraphBreak) with 2. lia.
Qed.

(** X21. When every summary fits in a request on its own, every text an
    intermediate level of the recursion submits (a chunk of summaries
    built without overlap and joined by blank lines) stays within 750
    estimated tokens. *)
Theorem recursiveSummarize_level_within_ceiling (summaries : list string) :
  Forall (fun s => estimateTokens s <= MAX_TOKENS_PER_CHUNK) summaries ->
  Forall (fun chunk => estimateTokens (join paragraphBreak chunk) <= MAX_TOKENS_PER_CHUNK)
         (createOptimizedChunks summaries 0).
Proof.
  intros Hall. eapply Forall_impl; [apply (createOptimizedChunks_no_overlap _ Hall)|].
  intros chunk Hchunk. etransitivity; [|exact Hchunk].
  unfold chunkTokens, estimateTokens.
  apply Nat.Div0.div_le_mono. pose proof (join_paragraph_le chunk). lia.
Qed.

End SummariesFacts.

Lemma recursiveSummarize_level_within_ceiling_witness :
  Forall (fun chunk =>
            Chunker.estimateTokens (join Summaries.paragraphBreak chunk)
            <= Chunker.MAX_TOKENS_PER_CHUNK)
         (Chunker.createOptimizedChunks
            [Chunker.shortText; Chunker.longTextB; Chunker.longTextC] 0).
Proof.
  apply (recursiveSummarize_level_within_ceiling
           [Chunker.shortText; Chunker.longTextB; Chunker.longTextC]).
  repeat (apply Forall_cons_2; [vm_compute; lia|]). apply Forall_nil_2.
Defined.

(** ** The records of a pass *)

Section ExtractorShape.

Import Extractor Pipeline.

Lemma processElement_length reviews e :
  length reviews <= 100 -> length (processElement reviews e) <= 100.
Proof.
  intros Hlen. unfold processElement, retain.
  destruct (100 <=? length reviews); [exact Hlen|].
  destruct (Nat.ltb_spec (length reviews) 100); [|exact Hlen].
  destruct (_ && _); [rewrite length_app; cbn; lia|].
  destruct (substantial _); [rewrite length_app; cbn; lia | exact Hlen].
Qed.

Lemma processFallback_length reviews e :
  length reviews <= 100 -> length (processFallback reviews e) <= 100.
Proof.
  intros Hlen. unfold processFallback.
  destruct (Nat.leb_spec 100 (length reviews)); [exact Hlen|]. cbv zeta.
  destruct (_ || _); [rewrite length_app; cbn; lia | exact Hlen].
Qed.

Lemma foldl_saturated {E} (process : list Review -> E -> list Review) :
  (forall reviews e, 100 <= length reviews -> process reviews e = reviews) ->
  forall more reviews, 100 <= length reviews -> foldl process reviews more = reviews.
Proof.
  intros Hstop. induction more as [|e more IH]; intros reviews Hfull; [reflexivity|].
  cbn [foldl]. rewrite Hstop by exact Hfull. by apply IH.
Qed.

(** X22. A pass over the document returns at most 100 records, in both
    modes; once a pass has 100 records, further review elements in the
    document change nothing. *)
Theorem extractReviewsFromDOM_at_most_100 (doc : Document) :
  length (extractReviewsFromDOM doc) <= 100 /\
  forall more,
    length (extractReviewsFromDOM doc) = 100 -> primaryMode doc = true ->
    extractReviewsFromDOM (mkDocument (reviewElements doc ++ more) (fallbackElements doc))
    = extractReviewsFromDOM doc.
Proof.
  assert (Hprimary : forall elements reviews,
             length reviews <= 100 -> length (foldl processElement reviews elements) <= 100).
  { induction elements as [|e elements IH]; intros reviews Hlen; [exact Hlen|].
    cbn [foldl]. by apply IH, processElement_length. }
  assert (Hfallback : forall elements reviews,
             length reviews <= 100 -> length (foldl processFallback reviews elements) <= 100).
  { induction elements as [|e elements IH]; intros reviews Hlen; [exact Hlen|].
    cbn [foldl]. by apply IH, processFallback_length. }
  split.
  - unfold extractReviewsFromDOM.
    destruct (0 <? length (reviewElements doc)); [apply Hprimary | apply Hfallback];
      cbn; lia.
  - intros more Hfull Hmode. unfold primaryMode in Hmode.
    unfold extractReviewsFromDOM in *. cbn [reviewElements fallbackElements].
    rewrite Hmode in *. apply Nat.ltb_lt in Hmode.
    rewrite length_app.
    destruct (Nat.ltb_spec 0 (length (reviewElements doc) + length more)); [|lia].
    rewrite foldl_app. apply foldl_saturated; [|lia].
    intros reviews e Hstop. unfold processElement.
    destruct (Nat.leb_spec 100 (length reviews)); [reflexivity | lia].
Qed.

Lemma prefix_cons c s1 s2 : String.prefix (String c s1) (String c s2) = String.prefix s1 s2.
Proof. cbn [String.prefix]. destruct (ascii_dec c c); [reflexivity | congruence]. Qed.

Lemma prefix_app s : forall s1 s2,
  String.prefix (s +:+ s1) (s +:+ s2) = String.prefix s1 s2.
Proof.
  induction s as [|c s IH]; intros s1 s2; [reflexivity|].
  change (String.prefix (String c (s +:+ s1)) (String c (s +:+ s2)) = String.prefix s1 s2).
  rewrite prefix_cons. apply IH.
Qed.

Lemma substring0_prefix n : forall s, String.prefix (substring0 n s) s = true.
Proof.
  unfold substring0. induction n as [|n IH]; intros [|c s]; cbn [String.substring];
    try reflexivity.
  rewrite prefix_cons. apply IH.
Qed.

Lemma takeWhile_dropWhile p s : s = takeWhile p s +:+ dropWhile p s.
Proof.
  induction s as [|c s IH]; [reflexivity|]. cbn [takeWhile dropWhile].
  destruct (p c); [|reflexivity].
  change (String c s = String c (takeWhile p s +:+ dropWhile p s)). by rewrite <- IH.
Qed.

Lemma matchMonthYearAt_shape s m :
  matchMonthYearAt s = Some m -> monthYear m /\ String.prefix m s = true.
Proof.
  unfold matchMonthYearAt. cbv zeta.
  destruct (String.eqb_spec (takeWhile isLetter s) EmptyString) as [|Hword]; [discriminate|].
  destruct (dropWhile isLetter s) as [|c rest] eqn:Hdrop; [discriminate|].
  destruct (Ascii.eqb_spec c " "%char) as [->|Hc].
  2:{ destruct c as [[] [] [] [] [] [] [] []]; try discriminate. congruence. }
  destruct (Nat.eqb_spec (String.length (substring0 4 rest)) 4) as [Hlen|_];
    [|discriminate].
  destruct (allChars isDigit (substring0 4 rest)) eqn:Hdigits; [|discriminate].
  cbn [andb]. intros [= <-]. split.
  - exists (takeWhile isLetter s), (substring0 4 rest).
    split; [reflexivity|]. split; [exact Hword|]. split; [apply takeWhile_all|].
    split; [exact Hlen | exact Hdigits].
  - rewrite (takeWhile_dropWhile isLetter s) at 2. rewrite Hdrop, prefix_app.
    change (String.prefix (String " " (substring0 4 rest)) (String " " rest) = true).
    rewrite prefix_cons. apply substring0_prefix.
Qed.

Lemma matchMonthYear_shape s m :
  matchMonthYear s = Some m -> monthYear m /\ includes s m = true.
Proof.
  assert (Hat : exists s', suffixOf s' s /\ matchMonthYearAt s' = Some m \/ matchMonthYear s <> Some m).
  { induction s as [|c s IH]; cbn [matchMonthYear].
    - destruct (matchMonthYearAt EmptyString) as [m'|] eqn:H.
      + destruct (decide (m' = m)) as [->|Hne].
        * exists EmptyString. left. split; [apply suffixOf_refl | exact H].
        * exists EmptyString. right. congruence.
      + exists EmptyString. right. discriminate.
    - destruct (matchMonthYearAt (String c s)) as [m'|] eqn:H.
      + destruct (decide (m' = m)) as [->|Hne].
        * exists (String c s). left. split; [apply suffixOf_refl | exact H].
        * exists EmptyString. right. congruence.
      + destruct IH as (s' & [[Hs Hm]|Hne]).
        * exists s'. left. split; [apply suffixOf_cons, Hs | exact Hm].
        * exists s'. right. exact Hne. }
  intros Hmatch. destruct Hat as (s' & [[Hs Hm]|Hne]); [|contradiction].
  destruct (matchMonthYearAt_shape _ _ Hm) as [Hshape Hprefix].
  split; [exact Hshape|]. exact (includes_suffix _ _ _ Hprefix Hs).
Qed.

Lemma buildReview_shape e : primaryShape (buildReview e).
Proof.
  unfold buildReview, primaryShape. cbv zeta. cbn [rating date stayDetails]. split.
  - intros n. unfold ratingOf. destruct (Z.ltb_spec 0 (resolveStarCount e
      (trimmedContent (textElementOf e)))); [|discriminate]. intros [= <-]. lia.
  - intros d. destruct (trimmedContent (dateText e)) as [stay|]; [|discriminate].
    cbn [mbind option_bind]. intros Hmatch.
    destruct (matchMonthYear_shape _ _ Hmatch) as [Hshape Hin].
    split; [exact Hshape|]. by exists stay.
Qed.

Lemma processElement_shape reviews e :
  Forall primaryShape reviews -> Forall primaryShape (processElement reviews e).
Proof.
  intros Hall. unfold processElement, retain.
  destruct (100 <=? length reviews); [exact Hall|].
  destruct (length reviews <? 100); [|exact Hall].
  destruct (_ && _).
  - apply Forall_app. split; [exact Hall|]. apply Forall_singleton, buildReview_shape.
  - destruct (substantial _); [|exact Hall].
    apply Forall_app. split; [exact Hall|]. apply Forall_singleton.
    exact (buildReview_shape e).
Qed.

Lemma processFallback_bare reviews e :
  Forall bare reviews -> Forall bare (processFallback reviews e).
Proof.
  intros Hall. unfold processFallback.
  destruct (100 <=? length reviews); [exact Hall|]. cbv zeta.
  destruct (_ || _); [|exact Hall].
  apply Forall_app. split; [exact Hall|]. apply Forall_singleton. by repeat split.
Qed.

(** X23. The records of a pass in primary mode never carry a rating
    below 1, and their date, when they have one, is a word of letters, a
    space and four digits that occurs in their stay details. The records
    of a pass in fallback mode carry no location, no stay details and no
    rating. *)
Theorem extractReviewsFromDOM_record_shape (doc : Document) :
  Forall (fun r => if primaryMode doc then primaryShape r else bare r)
         (extractReviewsFromDOM doc).
Proof.
  unfold extractReviewsFromDOM, primaryMode.
  destruct (0 <? length (reviewElements doc)).
  - generalize (Forall_nil_2 primaryShape). generalize (@nil Review).
    induction (reviewElements doc) as [|e elements IH]; intros reviews Hall; [exact Hall|].
    cbn [foldl]. by apply IH, processElement_shape.
  - generalize (Forall_nil_2 bare). generalize (@nil Review).
    induction (fallbackElements doc) as [|e elements IH]; intros reviews Hall; [exact Hall|].
    cbn [foldl]. by apply IH, processFallback_bare.
Qed.

End ExtractorShape.

Lemma extractReviewsFromDOM_at_most_100_witness :
  Extractor.extractReviewsFromDOM
    (Extractor.mkDocument (map Pipeline.guestElement (seq 0 100) ++ [Extractor.zeroStarElement]) [])
  = Extractor.extractReviewsFromDOM
      (Extractor.mkDocument (map Pipeline.guestElement (seq 0 100)) []).
Proof.
  apply (proj2 (extractReviewsFromDOM_at_most_100
                  (Extractor.mkDocument (map Pipeline.guestElement (seq 0 100)) []))
               [Extractor.zeroStarElement]).
  - vm_compute. reflexivity.
  - vm_compute. reflexivity.
Defined.

(** ** The collector: what a run returns *)

Section CollectorResults.

Import Extractor Collector Pipeline.

Variable src : Source.

Lemma addIfNew_complete all review :
  Forall complete all -> Forall complete (addIfNew all review).
Proof.
  intros Hall. unfold addIfNew.
  destruct (negb (isDuplicate all review)); cbn [andb]; [|exact Hall].
  destruct (truthyStr (name review)) eqn:Hname; cbn [andb]; [|exact Hall].
  destruct (truthyStr (text review)) eqn:Htext; [|exact Hall].
  apply Forall_app. split; [exact Hall|]. by apply Forall_singleton.
Qed.

Lemma addIfNewBelow95_complete all review :
  Forall complete all -> Forall complete (addIfNewBelow95 all review).
Proof.
  intros Hall. unfold addIfNewBelow95.
  destruct (negb (isDuplicate all review)); cbn [andb]; [|exact Hall].
  destruct (truthyStr (name review)) eqn:Hname; cbn [andb]; [|exact Hall].
  destruct (truthyStr (text review)) eqn:Htext; cbn [andb]; [|exact Hall].
  destruct (length all <? 95); [|exact Hall].
  apply Forall_app. split; [exact Hall|]. by apply Forall_singleton.
Qed.

Lemma foldl_keeps {A B} (P : A -> Prop) (f : A -> B -> A) :
  (forall a b, P a -> P (f a b)) -> forall l a, P a -> P (foldl f a l).
Proof.
  intros Hf. induction l as [|b l IH]; intros a Ha; [exact Ha|].
  cbn [foldl]. by apply IH, Hf.
Qed.

Lemma loopBody_complete st :
  Forall complete (allReviews st) ->
  Forall complete (allReviews (stateOf (loopBody src st))) /\
  attempts (stateOf (loopBody src st)) = S (attempts st).
Proof.
  intros Hall.
  assert (Hmerged : Forall complete
            (mergeNew (allReviews st) (extractReviewsFromDOM (domAt src (S (attempts st))))))
    by (apply (foldl_keeps (Forall complete)); [apply addIfNew_complete | exact Hall]).
  unfold loopBody. cbv zeta. destruct (100 <=? _); [by split|].
  destruct (_ =? _); [|by split]. destruct (_ && _); by split.
Qed.

Lemma finalBody_complete st k :
  Forall complete (allReviews st) ->
  Forall complete (allReviews (stateOf (finalBody src st k))).
Proof.
  intros Hall.
  assert (Hmerged : Forall complete
            (mergeFinal (allReviews st)
               (extractReviewsFromDOM (domAt src (attempts st + 1 + k)))))
    by (apply (foldl_keeps (Forall complete)); [apply addIfNewBelow95_complete | exact Hall]).
  unfold finalBody. cbv zeta. destruct (3 <=? k); [|exact Hmerged].
  destruct (k =? 3); [exact Hmerged|]. destruct (_ && _); exact Hmerged.
Qed.

Lemma afterLoop_complete st n :
  stateAt (afterLoop st n) = st /\ remaining (afterLoop st n) < 10.
Proof. unfold afterLoop. destruct (_ && _); cbn; split; (reflexivity || lia). Qed.

(** A step keeps the records complete and uses up the bound. *)
Lemma step_complete p :
  Forall complete (allReviews (stateAt p)) ->
  Forall complete (allReviews (stateAt (step src p))) /\
  (0 < remaining p -> remaining (step src p) < remaining p).
Proof.
  intros Hall. destruct p as [st n|st n k|st n k]; cbn [step stateAt remaining] in *.
  - destruct (loopGuard st) eqn:Hguard.
    + destruct (loopBody_complete st Hall) as [Hnext Hattempts].
      assert (Hbound : attempts st < maxAttempts).
      { unfold loopGuard in Hguard. apply andb_true_iff in Hguard as [Hguard _].
        apply andb_true_iff in Hguard as [_ Hguard]. by apply Nat.ltb_lt. }
      destruct (loopBody src st) as [st'|st']; cbn [stateOf] in *.
      * split; [exact Hnext|]. cbn [remaining]. lia.
      * destruct (afterLoop_complete st' (S n)) as [-> Hless]. split; [exact Hnext | lia].
    + destruct (afterLoop_complete st n) as [-> Hless]. split; [exact Hall | lia].
  - destruct (finalGuard st k) eqn:Hguard.
    + pose proof (finalBody_complete st k Hall) as Hnext.
      assert (Hbound : k < 8).
      { unfold finalGuard in Hguard. apply andb_true_iff in Hguard as [Hguard _].
        by apply Nat.ltb_lt. }
      destruct (finalBody src st k) as [st'|st']; cbn [stateOf stateAt remaining] in *;
        (split; [exact Hnext | lia]).
    + cbn [stateAt remaining]. split; [exact Hall | lia].
  - split; [exact Hall | lia].
Qed.

Lemma run_finished fuel st n k :
  run fuel src (Finished st n k)
  = Some (mkCollected (take 100 (allReviews st)) (attempts st) n k).
Proof. destruct fuel; reflexivity. Qed.

(** More fuel does not change what a run returns. *)
Lemma run_more fuel : forall p out fuel',
  run fuel src p = Some out -> fuel <= fuel' -> run fuel' src p = Some out.
Proof.
  induction fuel as [|fuel IH]; intros p out fuel' Hrun Hfuel.
  - destruct p as [st n|st n k|st n k]; try discriminate.
    rewrite run_finished in *. exact Hrun.
  - destruct p as [st n|st n k|st n k].
    + destruct fuel' as [|fuel']; [lia|]. cbn [run] in *. apply (IH _ _ _ Hrun). lia.
    + destruct fuel' as [|fuel']; [lia|]. cbn [run] in *. apply (IH _ _ _ Hrun). lia.
    + rewrite run_finished in *. exact Hrun.
Qed.

(** With fuel for the steps that are left, a run returns, and what it
    returns is complete. *)
Lemma run_complete fuel : forall p,
  remaining p <= fuel ->
  Forall complete (allReviews (stateAt p)) ->
  exists out, run fuel src p = Some out /\
    Forall complete (result out) /\ length (result out) <= 100.
Proof.
  induction fuel as [|fuel IH]; intros p Hfuel Hall.
  - destruct p as [st n|st n k|st n k]; cbn [remaining] in Hfuel; try lia.
    rewrite run_finished. eexists. split; [reflexivity|]. cbn [result stateAt] in *.
    split; [by apply Forall_take | rewrite length_take; lia].
  - destruct (step_complete p Hall) as [Hnext Hless].
    destruct p as [st n|st n k|st n k].
    + cbn [run]. apply IH; [|exact Hnext]. cbn [remaining] in *. lia.
    + cbn [run]. apply IH; [|exact Hnext]. cbn [remaining] in *. lia.
    + rewrite run_finished. eexists. split; [reflexivity|]. cbn [result stateAt] in *.
      split; [by apply Forall_take | rewrite length_take; lia].
Qed.

(** X24. For every source, a run of the collector ends and returns the
    same result with any fuel from 40 on (at most 30 iterations of the
    loop, then at most 8 passes of the final push). Every record of the
    result has a non-empty name and a non-empty text, whatever the passes
    over the document give (a pass in fallback mode can give records with
    a name only), and the result has at most 100 records. *)
Theorem collected_records_complete :
  exists out,
    (forall fuel, 40 <= fuel -> collectReviewsWithScrolling fuel src = Some out) /\
    Forall complete (result out) /\ length (result out) <= 100.
Proof.
  destruct (run_complete 40 (LoopHead initial 0)) as (out & Hrun & Hcomplete & Hlen).
  - cbn. lia.
  - apply Forall_nil_2.
  - exists out. split; [|by split].
    intros fuel Hfuel. by apply (run_more 40 _ _ _ Hrun).
Qed.






Lemma isDuplicate_app all more review :
  isDuplicate all review = true -> isDuplicate (all ++ more) review = true.
Proof. unfold isDuplicate. rewrite existsb_app. by intros ->. Qed.

Lemma isDuplicate_self all review : isDuplicate (all ++ [review]) review = true.
Proof.
  unfold isDuplicate. rewrite existsb_app. cbn [existsb].
  rewrite !bool_decide_eq_true_2 by reflexivity. cbn. apply orb_true_r.
Qed.

(** A record is settled in a set when offering it again changes nothing. *)
Lemma addIfNew_settled all review :
  isDuplicate all review = true \/
  truthyStr (name review) && truthyStr (text review) = false ->
  addIfNew all review = all.
Proof.
  unfold addIfNew. intros [-> | Hbad]; [reflexivity|].
  destruct (negb _); cbn [andb]; [|reflexivity].
  by rewrite Hbad.
Qed.

Lemma addIfNew_settles all review :
  isDuplicate (addIfNew all review) review = true \/
  truthyStr (name review) && truthyStr (text review) = false.
Proof.
  unfold addIfNew. destruct (isDuplicate all review) eqn:Hdup; cbn [negb andb]; [by left|].
  destruct (truthyStr (name review) && truthyStr (text review)) eqn:Hok; [|by right].
  left. apply isDuplicate_self.
Qed.

Lemma addIfNewBelow95_settled all review :
  isDuplicate all review = true \/
  truthyStr (name review) && truthyStr (text review) = false ->
  addIfNewBelow95 all review = all.
Proof.
  unfold addIfNewBelow95. intros [-> | Hbad]; [reflexivity|].
  destruct (negb _); cbn [andb]; [|reflexivity].
  destruct (truthyStr (name review)); cbn [andb] in *; [|reflexivity].
  by rewrite Hbad.
Qed.

Lemma mergeNew_extends current : forall all, exists more, mergeNew all current = all ++ more.
Proof.
  induction current as [|r current IH]; intros all.
  - exists []. cbn. by rewrite app_nil_r.
  - cbn [mergeNew foldl]. destruct (IH (addIfNew all r)) as [more Hmore].
    unfold mergeNew in Hmore. rewrite Hmore. unfold addIfNew.
    destruct (_ && _ && _); [|by exists more].
    exists ([r] ++ more). by rewrite app_assoc.
Qed.

Lemma mergeNew_settles current : forall all review,
  review ∈ current ->
  isDuplicate (mergeNew all current) review = true \/
  truthyStr (name review) && truthyStr (text review) = false.
Proof.
  induction current as [|r current IH]; intros all review Hin.
  - by apply elem_of_nil in Hin.
  - cbn [mergeNew foldl]. apply elem_of_cons in Hin as [->|Hin].
    + destruct (addIfNew_settles all r) as [Hdup|Hbad]; [left | by right].
      destruct (mergeNew_extends current (addIfNew all r)) as [more Hmore].
      unfold mergeNew in Hmore. rewrite Hmore. by apply isDuplicate_app.
    + by apply IH.
Qed.

(** X26. Merging a pass that has been merged already adds nothing, in
    the main loop and in the final push: a document that does not change
    between two passes counts as no progress. *)
Theorem merge_again_adds_nothing (all current : list Review) :
  mergeNew (mergeNew all current) current = mergeNew all current /\
  mergeFinal (mergeNew all current) current = mergeNew all current.
Proof.
  pose proof (fun review => mergeNew_settles current all review) as Hsettled.
  revert Hsettled. generalize (mergeNew all current) as merged. intros merged.
  unfold mergeNew, mergeFinal.
  induction current as [|r current IH]; intros Hsettled; [by split|].
  cbn [foldl].
  rewrite addIfNew_settled, addIfNewBelow95_settled
    by (apply Hsettled, elem_of_cons; by left).
  apply IH. intros review Hin. apply Hsettled, elem_of_cons. by right.
Qed.

Hypothesis barren : yieldsNothing src.

Lemma barren_loop d : forall n,
  n + d = 10 ->
  exists out, run (d + 1) src (LoopHead (mkState [] n n) n) = Some out /\
    result out = [] /\ finalPushPasses out = 0 /\
    loopIterations out = attemptsMade out /\ 5 <= attemptsMade out <= 10.
Proof.
  induction d as [|d IH]; intros n Hn.
  - cbn [Nat.add run step]. assert (n = 10) as -> by lia.
    change (loopGuard (mkState [] 10 10)) with false. cbn iota.
    change (afterLoop (mkState [] 10 10) 10) with (Finished (mkState [] 10 10) 10 0).
    eexists. split; [reflexivity|]. cbn. repeat split; lia.
  - cbn [Nat.add run step].
    assert (Hguard : loopGuard (mkState [] n n) = true).
    { unfold loopGuard. cbn [allReviews attempts consecutiveNoNewReviews length].
      unfold maxAttempts.
      destruct (Nat.ltb_spec n 30); [|lia]. destruct (Nat.ltb_spec n 10); [|lia].
      reflexivity. }
    rewrite Hguard. unfold loopBody. cbv zeta.
    cbn [allReviews attempts consecutiveNoNewReviews]. rewrite barren.
    cbn [length]. change (100 <=? 0) with false. change (0 =? 0) with true. cbn iota.
    destruct (Nat.leb_spec 5 (S n)) as [Hfive|Hfew]; cbn [andb].
    + destruct (endOfReviews src (S n) 0).
      * change (afterLoop (mkState [] (S n) (S n)) (S n))
          with (Finished (mkState [] (S n) (S n)) (S n) 0).
        rewrite run_finished. eexists. split; [reflexivity|]. cbn. repeat split; lia.
      * apply IH; lia.
    + apply IH; lia.
Qed.

(** X27. When no pass over the document gives a record with a name and a
    text, a run of the collector ends and returns the same result with
    any fuel from 11 on: it gives up after 5 to 10 attempts (10 without
    an end-of-reviews signal), makes no final push and returns no record. *)
Theorem collector_gives_up :
  exists out,
    (forall fuel, 11 <= fuel -> collectReviewsWithScrolling fuel src = Some out) /\
    result out = [] /\ finalPushPasses out = 0 /\
    loopIterations out = attemptsMade out /\ 5 <= attemptsMade out <= 10.
Proof.
  destruct (barren_loop 10 0 eq_refl) as (out & Hrun & Hrest).
  exists out. split; [|exact Hrest].
  intros fuel Hfuel. by apply (run_more 11 _ _ _ Hrun).
Qed.

End CollectorResults.

Lemma collected_records_complete_witness :
  exists out,
    Collector.collectReviewsWithScrolling 40 Collector.repeatingSource = Some out /\
    length (Collector.result out) = 2 /\
    Forall Pipeline.complete (Collector.result out).
Proof.
  destruct (collected_records_complete Collector.repeatingSource)
    as (out & Hrun & Hcomplete & _).
  exists out. split; [apply Hrun; lia|]. split; [|exact Hcomplete].
  specialize (Hrun 40 (le_n 40)). vm_compute in Hrun. injection Hrun as <-. reflexivity.
Defined.


Lemma collector_gives_up_witness :
  exists out,
    Collector.collectReviewsWithScrolling 11 Collector.barrenSource = Some out /\
    Collector.result out = [] /\ Collector.attemptsMade out = 10.
Proof.
  assert (Hbarren : Pipeline.yieldsNothing Collector.barrenSource) by (intros k; reflexivity).
  destruct (collector_gives_up Collector.barrenSource Hbarren)
    as (out & Hrun & Hempty & _).
  exists out. split; [apply Hrun; lia|]. split; [exact Hempty|].
  specialize (Hrun 11 (le_n 11)). vm_compute in Hrun. injection Hrun as <-. reflexivity.
Defined.

(** ** The properties on sample inputs *)

Lemma createFallbackStructuredData_never_negative_witness :
  "NoiseLevels" ∉ LocalExtraction.neverNegative.
Proof.
  apply (proj2 (createFallbackStructuredData_never_negative LocalExtraction.sampleTexts)).
  apply (bool_decide_unpack _). vm_compute. exact I.
Defined.

Lemma createFallbackStructuredData_shortlists_witness :
  exists e,
    e ∈ Analysis.sd_keyword_analysis
          (LocalExtraction.createFallbackStructuredData LocalExtraction.sampleTexts) /\
    Merger.e_keyword e = "Cleanliness" /\ "Cleanliness" ∈ Merger.requiredAspects /\
    (Merger.e_negative e < Merger.e_positive e)%Z.
Proof.
  apply (proj2 (proj2 (proj1
           (createFallbackStructuredData_shortlists LocalExtraction.sampleTexts)))).
  apply (bool_decide_unpack _). vm_compute. exact I.
Defined.

Lemma measureInputUsage_fits_witness :
  Summaries.fitsInSingleRequest
    (Summaries.measureInputUsage Chunker.longTextB "Guest reviews of a listing") = true.
Proof.
  apply (proj2 (measureInputUsage_fits Chunker.longTextB "Guest reviews of a listing")).
  vm_compute. lia.
Defined.

Lemma recursiveSummarize_terminates_witness :
  exists out,
    Summaries.recursiveSummarize 5 Summaries.echoSummarizer
      [Chunker.longTextB; Chunker.longTextC] "Guest reviews of a listing" 0 = Some out.
Proof.
  destruct (recursiveSummarize_terminates Summaries.echoSummarizer
              [Chunker.longTextB; Chunker.longTextC] "Guest reviews of a listing" 0)
    as [out Hout].
  exists out. apply Hout. vm_compute. lia.
Defined.
